(** * OrbitalScan membership backend: webhook ingest and membership query

    A shallow embedding of the two Netlify functions of the repository,

      - [netlify/functions/payment-webhook.js], in its three revisions
        (placeholder, Supabase, Netlify Blobs), and
      - [netlify/functions/get-membership.js],

    together with the part of the JavaScript runtime they call: property
    reads on JSON values, [||], [String], [Number], [trim], [toLowerCase],
    [toUpperCase], and the [Date] arithmetic of ECMA-262 (sections 21.4.1
    and 21.4.4) behind [setMonth], [setFullYear] and [toISOString].

    Conventions of the model:
      - a time value is a [Z], the milliseconds since the epoch; the
        number NaN of a [Date] is [None];
      - a string is the [string] of the bytes of its UTF-8 text; [trim],
        [toLowerCase] and [toUpperCase] are written out for the strings
        of ASCII characters, where white space and case are the six
        characters and the 26 letters of that range, and are left to the
        runtime on every other string;
      - [JSON.parse], [Date.parse], [URLSearchParams], the conversions
        between numbers and strings and the Unicode tables belong to the
        runtime and are taken as the fields of a [Runtime];
      - the local time of a host is UTC plus an offset that depends on
        the instant (daylight saving), less than a day in size;
      - the Netlify Blobs store is the one of [@netlify/blobs], configured
        and reachable: [setJSON] checks the key and writes, and there is
        no [getJSON];
      - the Supabase client is the one of [@supabase/supabase-js]:
        [createClient] refuses the URLs it takes for malformed, and the
        two requests return what the service answers, a failure of the
        network as a reply with an error;
      - an exception is a [Throw]; the [try]/[catch] of each handler
        turns it into the response 500. *)

From Stdlib Require Import ZArith Lia Bool Ascii String List.
From Stdlib Require Import Floats.SpecFloat.
From stdpp Require Import base option list strings gmap.

Local Open Scope Z_scope.

(** ** Date arithmetic (ECMA-262, 21.4.1) *)

Module JSDate.

Definition msPerDay : Z := 86400000.
Definition msPerHour : Z := 3600000.
Definition msPerMinute : Z := 60000.
Definition msPerSecond : Z := 1000.

(** [Day(t)] and [TimeWithinDay(t)]: floor and modulo. *)
Definition Day (t : Z) : Z := t / msPerDay.
Definition TimeWithinDay (t : Z) : Z := t mod msPerDay.

Definition DaysInYear (y : Z) : Z :=
  if negb (y mod 4 =? 0) then 365
  else if negb (y mod 100 =? 0) then 366
  else if negb (y mod 400 =? 0) then 365
  else 366.

Definition DayFromYear (y : Z) : Z :=
  365 * (y - 1970) + (y - 1969) / 4 - (y - 1901) / 100 + (y - 1601) / 400.

Definition TimeFromYear (y : Z) : Z := msPerDay * DayFromYear y.

(** The year of a day number: ECMA-262 asks for the largest [y] with
    [TimeFromYear y <= t]; the mean year length gives an estimate that is
    off by at most one, which the two tests repair
    (see [YearFromDay_bounds] and [YearFromDay_unique]). *)
Definition YearFromDay (d : Z) : Z :=
  let y0 := 1970 + (400 * d) / 146097 in
  if d <? DayFromYear y0 then y0 - 1
  else if DayFromYear (y0 + 1) <=? d then y0 + 1
  else y0.

Definition YearFromTime (t : Z) : Z := YearFromDay (Day t).

Definition leap (y : Z) : Z := if DaysInYear y =? 366 then 1 else 0.
Definition InLeapYear (t : Z) : Z := leap (YearFromTime t).

Definition DayWithinYear (t : Z) : Z := Day t - DayFromYear (YearFromTime t).

(** [MonthFromTime] and [DateFromTime], as the tables of 21.4.1.11 and
    21.4.1.12, on the day within the year [dwy] and the leap flag [lp]. *)
Definition month_of (lp dwy : Z) : Z :=
  if dwy <? 31 then 0
  else if dwy <? 59 + lp then 1
  else if dwy <? 90 + lp then 2
  else if dwy <? 120 + lp then 3
  else if dwy <? 151 + lp then 4
  else if dwy <? 181 + lp then 5
  else if dwy <? 212 + lp then 6
  else if dwy <? 243 + lp then 7
  else if dwy <? 273 + lp then 8
  else if dwy <? 304 + lp then 9
  else if dwy <? 334 + lp then 10
  else 11.

Definition date_of (lp dwy : Z) : Z :=
  match month_of lp dwy with
  | 0 => dwy + 1
  | 1 => dwy - 30
  | 2 => dwy - 58 - lp
  | 3 => dwy - 89 - lp
  | 4 => dwy - 119 - lp
  | 5 => dwy - 150 - lp
  | 6 => dwy - 180 - lp
  | 7 => dwy - 211 - lp
  | 8 => dwy - 242 - lp
  | 9 => dwy - 272 - lp
  | 10 => dwy - 303 - lp
  | _ => dwy - 333 - lp
  end.

Definition MonthFromTime (t : Z) : Z := month_of (InLeapYear t) (DayWithinYear t).
Definition DateFromTime (t : Z) : Z := date_of (InLeapYear t) (DayWithinYear t).

Definition HourFromTime (t : Z) : Z := (t / msPerHour) mod 24.
Definition MinFromTime (t : Z) : Z := (t / msPerMinute) mod 60.
Definition SecFromTime (t : Z) : Z := (t / msPerSecond) mod 60.
Definition msFromTime (t : Z) : Z := t mod msPerSecond.

(** The day within the year on which month [mn] (0 to 11) starts. *)
Definition month_start (lp mn : Z) : Z :=
  match mn with
  | 0 => 0
  | 1 => 31
  | 2 => 59 + lp
  | 3 => 90 + lp
  | 4 => 120 + lp
  | 5 => 151 + lp
  | 6 => 181 + lp
  | 7 => 212 + lp
  | 8 => 243 + lp
  | 9 => 273 + lp
  | 10 => 304 + lp
  | _ => 334 + lp
  end.

Definition DaysInMonth (y mn : Z) : Z :=
  match mn with
  | 1 => 28 + leap y
  | 3 | 5 | 8 | 10 => 30
  | _ => 31
  end.

(** [MakeDay(year, month, date)]: the day number of the first of month
    [mn] of year [ym], plus [date - 1]; [month] and [date] overflow into
    the following months and years. *)
Definition MakeDay (year month date : Z) : Z :=
  let ym := year + month / 12 in
  let mn := month mod 12 in
  DayFromYear ym + month_start (leap ym) mn + date - 1.

Definition MakeDate (day time : Z) : Z := day * msPerDay + time.

Definition maxTime : Z := 8640000000000000.

(** [TimeClip]: a time value beyond 8.64e15 ms is NaN. *)
Definition TimeClip (t : Z) : option Z :=
  if Z.abs t <=? maxTime then Some t else None.

Section LocalTime.
(** The offset of the local time zone, in ms: [tza t true] at the
    instant [t], and [tza t false] for the local time [t]
    (21.4.1.7 to 21.4.1.9; the offset changes with daylight saving). *)
Variable tza : Z -> bool -> Z.

Definition LocalTime (t : Z) : Z := t + tza t true.
Definition UTC (t : Z) : Z := t - tza t false.

(** [new Date(value)] for a [Date] value. *)
Definition Date_copy (tv : option Z) : option Z :=
  match tv with Some t => TimeClip t | None => None end.

Definition getMonth (tv : option Z) : option Z :=
  match tv with Some t => Some (MonthFromTime (LocalTime t)) | None => None end.

Definition getFullYear (tv : option Z) : option Z :=
  match tv with Some t => Some (YearFromTime (LocalTime t)) | None => None end.

(** [d.setMonth(month)], without a date argument: the new time value. *)
Definition setMonth (tv : option Z) (month : option Z) : option Z :=
  match tv, month with
  | Some t0, Some m =>
      let t := LocalTime t0 in
      let dt := DateFromTime t in
      let newDate := MakeDate (MakeDay (YearFromTime t) m dt) (TimeWithinDay t) in
      TimeClip (UTC newDate)
  | _, _ => None
  end.

(** [d.setFullYear(year)], without month and date arguments. *)
Definition setFullYear (tv : option Z) (year : option Z) : option Z :=
  match year with
  | Some y =>
      let t := match tv with Some t0 => LocalTime t0 | None => 0 end in
      let newDate := MakeDate (MakeDay y (MonthFromTime t) (DateFromTime t)) (TimeWithinDay t) in
      TimeClip (UTC newDate)
  | None => None
  end.
End LocalTime.

(** Decimal digits, zero padded to [n] places. *)
Definition digit (z : Z) : ascii := ascii_of_N (48 + Z.to_N (z mod 10)).

Fixpoint pad (n : nat) (z : Z) : string :=
  match n with
  | O => EmptyString
  | S n' => pad n' (z / 10) +:+ String (digit z) EmptyString
  end.

Definition year_string (y : Z) : string :=
  if (0 <=? y) && (y <=? 9999) then pad 4 y
  else if 0 <=? y then "+" +:+ pad 6 y
  else "-" +:+ pad 6 (- y).

(** [Date.prototype.toISOString] on a finite time value:
    YYYY-MM-DDTHH:mm:ss.sssZ in UTC. *)
Definition ISOString (t : Z) : string :=
  year_string (YearFromTime t) +:+ "-" +:+ pad 2 (MonthFromTime t + 1) +:+ "-" +:+
  pad 2 (DateFromTime t) +:+ "T" +:+ pad 2 (HourFromTime t) +:+ ":" +:+
  pad 2 (MinFromTime t) +:+ ":" +:+ pad 2 (SecFromTime t) +:+ "." +:+
  pad 3 (msFromTime t) +:+ "Z".

End JSDate.

(** ** Strings: [trim], [toLowerCase], [toUpperCase] on ASCII strings *)

Module JSString.

(** The strings on which the functions of this module are those of
    ECMA-262: every character is below U+0080. *)
Fixpoint plain (s : string) : bool :=
  match s with
  | EmptyString => true
  | String c s' => (N_of_ascii c <? 128)%N && plain s'
  end.

(** White space and line terminators below U+0080: TAB, LF, VT, FF, CR
    and SPACE. *)
Definition is_space (c : ascii) : bool :=
  let n := N_of_ascii c in
  ((9 <=? n) && (n <=? 13) || (n =? 32))%N.

Definition lower_char (c : ascii) : ascii :=
  let n := N_of_ascii c in
  if ((65 <=? n) && (n <=? 90))%N then ascii_of_N (n + 32) else c.

Definition upper_char (c : ascii) : ascii :=
  let n := N_of_ascii c in
  if ((97 <=? n) && (n <=? 122))%N then ascii_of_N (n - 32) else c.

Fixpoint toLowerCase (s : string) : string :=
  match s with
  | EmptyString => EmptyString
  | String c s' => String (lower_char c) (toLowerCase s')
  end.

Fixpoint toUpperCase (s : string) : string :=
  match s with
  | EmptyString => EmptyString
  | String c s' => String (upper_char c) (toUpperCase s')
  end.

Fixpoint trimStart (s : string) : string :=
  match s with
  | EmptyString => EmptyString
  | String c s' => if is_space c then trimStart s' else s
  end.

Fixpoint trimEnd (s : string) : string :=
  match s with
  | EmptyString => EmptyString
  | String c s' =>
      match trimEnd s' with
      | EmptyString => if is_space c then EmptyString else String c EmptyString
      | r => String c r
      end
  end.

Definition trim (s : string) : string := trimEnd (trimStart s).

(** A string of white space only. *)
Fixpoint blank (s : string) : bool :=
  match s with
  | EmptyString => true
  | String c s' => is_space c && blank s'
  end.

(** [!s] for a string. *)
Definition is_empty (s : string) : bool :=
  match s with EmptyString => true | _ => false end.

(** [Array.prototype.join] on strings. *)
Fixpoint join (sep : string) (xs : list string) : string :=
  match xs with
  | [] => EmptyString
  | [x] => x
  | x :: xs' => x +:+ sep +:+ join sep xs'
  end.

End JSString.

(** ** Values, completions and the runtime *)

(** A Number is an IEEE 754 binary64 value, as [spec_float] has them. *)
Definition number : Type := spec_float.

Definition num_zero : number := S754_zero false.

#[warnings="-register-all"]
Inductive value : Type :=
| VUndefined
| VNull
| VBool (b : bool)
| VNumber (n : number)
| VString (s : string)
| VArray (items : list value)
| VObject (props : list (string * value)).

(** Induction on values, through the lists of arrays and objects. *)
Section ValueInd.
Variable P : value -> Prop.
Hypothesis Hundef : P VUndefined.
Hypothesis Hnull : P VNull.
Hypothesis Hbool : forall b, P (VBool b).
Hypothesis Hnum : forall n, P (VNumber n).
Hypothesis Hstr : forall s, P (VString s).
Hypothesis Harr : forall xs, Forall P xs -> P (VArray xs).
Hypothesis Hobj : forall ps, Forall (fun kx => P (snd kx)) ps -> P (VObject ps).

Fixpoint value_nested_ind (v : value) : P v :=
  match v with
  | VUndefined => Hundef
  | VNull => Hnull
  | VBool b => Hbool b
  | VNumber n => Hnum n
  | VString s => Hstr s
  | VArray xs =>
      Harr xs ((fix go (l : list value) : Forall P l :=
                  match l with
                  | [] => @List.Forall_nil value P
                  | x :: l' => @List.Forall_cons value P x l' (value_nested_ind x) (go l')
                  end) xs)
  | VObject ps =>
      Hobj ps ((fix go (l : list (string * value)) : Forall (fun kx => P (snd kx)) l :=
                  match l with
                  | [] => @List.Forall_nil (string * value) (fun kx => P (snd kx))
                  | kx :: l' =>
                      @List.Forall_cons (string * value) (fun kx => P (snd kx)) kx l'
                        (match kx return P (snd kx) with
                         | (k, x) => value_nested_ind x
                         end) (go l')
                  end) ps)
  end.
End ValueInd.

(** The exceptions: the three of the runtime that the handlers can
    meet, and [Error], which the Blobs client throws on a key it refuses. *)
Inductive exn : Type := TypeError | SyntaxError | RangeError | Error.

Inductive completion (A : Type) : Type :=
| Normal (a : A)
| Throw (e : exn).
Arguments Normal {A} a.
Arguments Throw {A} e.

(** What the handlers use of the runtime and of the Supabase library and
    do not define themselves. *)
Record Runtime : Type := {
  (** [JSON.parse]; [None] is its SyntaxError. *)
  JSON_parse : string -> option value;
  (** [Date.parse] on a string; [None] is NaN. *)
  Date_parse : string -> option Z;
  (** [Number::toString] and [StringToNumber]. *)
  NumberToString : number -> string;
  StringToNumber : string -> number;
  (** [new URLSearchParams(string)] and [URLSearchParams.prototype.toString]
      on the list of name and value pairs. *)
  URLSearchParams_parse : string -> list (string * string);
  URLSearchParams_toString : list (string * string) -> string;
  (** [trim], [toLowerCase] and [toUpperCase] on a string that holds a
      character outside ASCII: the white space and the case mappings of
      Unicode are tables of the runtime. *)
  String_trim : string -> string;
  String_toLowerCase : string -> string;
  String_toUpperCase : string -> string;
  (** [createClient(url, key, options)] of [@supabase/supabase-js] on a
      URL and a key that are not empty: whether it returns a client. The
      versions of the library differ on the URLs they refuse. *)
  createClient_accepts : string -> string -> bool
}.

Module JS.

(** [ToBoolean]. *)
Definition truthy (v : value) : bool :=
  match v with
  | VUndefined | VNull => false
  | VBool b => b
  | VNumber (S754_zero _) | VNumber S754_nan => false
  | VNumber _ => true
  | VString s => negb (JSString.is_empty s)
  | VArray _ | VObject _ => true
  end.

(** [a || b]. *)
Definition or_else (a b : value) : value := if truthy a then a else b.

Fixpoint lookup_prop (k : string) (ps : list (string * value)) : value :=
  match ps with
  | [] => VUndefined
  | (k', v) :: ps' => if String.eqb k k' then v else lookup_prop k ps'
  end.

(** [v.k] for a property name [k] that is neither an index nor a name
    of a prototype: the own property of an object, [undefined] on the
    other values, a TypeError on [null] and [undefined]. *)
Definition get_prop (v : value) (k : string) : completion value :=
  match v with
  | VUndefined | VNull => Throw TypeError
  | VObject ps => Normal (lookup_prop k ps)
  | _ => Normal VUndefined
  end.

(** An object has an own property [k]. *)
Definition has_own (k : string) (ps : list (string * value)) : bool :=
  existsb (fun kx => String.eqb k (fst kx)) ps.

Section WithRuntime.
Variable rt : Runtime.

(** [s.trim()], [s.toLowerCase()], [s.toUpperCase()] for a string. *)
Definition trim (s : string) : string :=
  if JSString.plain s then JSString.trim s else String_trim rt s.

Definition toLowerCase (s : string) : string :=
  if JSString.plain s then JSString.toLowerCase s else String_toLowerCase rt s.

Definition toUpperCase (s : string) : string :=
  if JSString.plain s then JSString.toUpperCase s else String_toUpperCase rt s.

(** [String(v)] on a JSON value. An object is converted by its
    [toString] and [valueOf] (7.1.1.1); the ones it inherits give
    "[object Object]", and an own property [toString], which in a JSON
    value is no function, leaves no way to a primitive: a TypeError.
    An array is the [join] of its elements. *)
Fixpoint ToString (v : value) : completion string :=
  match v with
  | VUndefined => Normal "undefined"
  | VNull => Normal "null"
  | VBool true => Normal "true"
  | VBool false => Normal "false"
  | VNumber n => Normal (NumberToString rt n)
  | VString s => Normal s
  | VArray xs =>
      match
        (fix elements (xs : list value) : completion (list string) :=
           match xs with
           | [] => Normal []
           | x :: xs' =>
               match (match x with
                      | VUndefined | VNull => Normal EmptyString
                      | _ => ToString x
                      end) with
               | Normal s =>
                   match elements xs' with
                   | Normal ss => Normal (s :: ss)
                   | Throw e => Throw e
                   end
               | Throw e => Throw e
               end
           end) xs
      with
      | Normal ss => Normal (JSString.join "," ss)
      | Throw e => Throw e
      end
  | VObject ps => if has_own "toString" ps then Throw TypeError else Normal "[object Object]"
  end.

(** [Number(v)] on a JSON value; an array or an object is converted
    to its string first, and throws as [String] does. *)
Definition ToNumber (v : value) : completion number :=
  match v with
  | VUndefined => Normal S754_nan
  | VNull => Normal num_zero
  | VBool true => Normal (S754_finite false 4503599627370496 (-52))
  | VBool false => Normal num_zero
  | VNumber n => Normal n
  | VString s => Normal (StringToNumber rt s)
  | VArray _ | VObject _ =>
      match ToString v with
      | Normal s => Normal (StringToNumber rt s)
      | Throw e => Throw e
      end
  end.

(** [v.trim()], [v.toUpperCase()]: the methods exist on strings only;
    calling them on another value is a TypeError. *)
Definition call_trim (v : value) : completion string :=
  match v with VString s => Normal (trim s) | _ => Throw TypeError end.

Definition call_toUpperCase (v : value) : completion string :=
  match v with VString s => Normal (toUpperCase s) | _ => Throw TypeError end.
End WithRuntime.

(** [s || null] for a string [s]. *)
Definition str_or_null (s : string) : value :=
  if JSString.is_empty s then VNull else VString s.

(** [v !== "s"]. *)
Definition not_strict_eq_string (v : value) (s : string) : bool :=
  match v with VString s' => negb (String.eqb s' s) | _ => true end.

(** [["monthly", "yearly"].includes(plan)]. *)
Definition includes (xs : list string) (s : string) : bool :=
  existsb (String.eqb s) xs.

(** The JSON value that [JSON.stringify] writes: properties whose value
    is [undefined] are left out, [undefined] in an array and the numbers
    that are not finite become [null], and [-0] is written as [0]. *)
Fixpoint to_json (v : value) : value :=
  match v with
  | VNumber (S754_zero _) => VNumber num_zero
  | VNumber (S754_finite s m e) => VNumber (S754_finite s m e)
  | VNumber _ => VNull
  | VArray xs =>
      VArray (map (fun x => match to_json x with
                            | VUndefined => VNull
                            | j => j
                            end) xs)
  | VObject ps =>
      VObject ((fix props (ps : list (string * value)) : list (string * value) :=
                  match ps with
                  | [] => []
                  | (k, x) :: ps' =>
                      match to_json x with
                      | VUndefined => props ps'
                      | j => (k, j) :: props ps'
                      end
                  end) ps)
  | _ => v
  end.

(** State and exceptions: a computation on a state [S] ends normally or
    throws, and leaves a state either way. *)
Definition M (S A : Type) : Type := S -> completion A * S.

Definition ret {S A} (a : A) : M S A := fun s => (Normal a, s).

Definition bind {S A B} (c : M S A) (k : A -> M S B) : M S B :=
  fun s => match c s with
           | (Normal a, s') => k a s'
           | (Throw e, s') => (Throw e, s')
           end.

Definition lift {S A} (c : completion A) : M S A := fun s => (c, s).

(** [try { c } catch (err) { h }]. *)
Definition try_catch {S A} (c : M S A) (h : exn -> M S A) : M S A :=
  fun s => match c s with
           | (Normal a, s') => (Normal a, s')
           | (Throw e, s') => h e s'
           end.

End JS.

Notation "'let*' x ':=' c 'in' k" := (JS.bind c (fun x => k))
  (at level 10, x name, c at level 100, k at level 200).

(** ** Requests, responses and the host *)

Module Event.
(** The [event] of a Netlify function, the fields the handlers read.
    [body] and [rawQuery] are [None] when absent ([null], [undefined]). *)
Record t : Type := {
  httpMethod : string;
  headers : gmap string string;
  body : option string;
  rawQuery : option string;
  queryStringParameters : option (list (string * string))
}.
End Event.

Module Response.
(** A body is plain text or the text [JSON.stringify] writes for a
    value, kept as that value. *)
Inductive body_t : Type := Text (s : string) | Json (data : value).

Record t : Type := {
  statusCode : Z;
  headers : list (string * string);
  body : body_t
}.

(** [{ statusCode, body }] with a text body and no headers. *)
Definition plain (status : Z) (text : string) : t :=
  {| statusCode := status; headers := []; body := Text text |}.
End Response.

(** [json(status, data)], the same function in every file. *)
Definition json (status : Z) (data : value) : Response.t :=
  {| Response.statusCode := status;
     Response.headers := [("Content-Type", "application/json")];
     Response.body := Response.Json (JS.to_json data) |}.

(** [process.env], the clock and the time zone of the host. *)
Record Host : Type := {
  HELIO_WEBHOOK_SECRET : option string;
  SUPABASE_URL : option string;
  SUPABASE_SERVICE_ROLE : option string;
  (** the time value that [new Date()] and [Date.now()] read *)
  clock : Z;
  (** the offset of local time from UTC, in ms, at an instant and for a
      local time, and its size: less than a day *)
  tza : Z -> bool -> Z;
  tza_range : forall t isUTC, - JSDate.msPerDay < tza t isUTC < JSDate.msPerDay
}.

Module Env.
(** [!v] for an environment variable or a header, a string when set. *)
Definition unset (v : option string) : bool :=
  match v with
  | None => true
  | Some s => JSString.is_empty s
  end.

(** [a || b] on two of them. *)
Definition or_else (a b : option string) : option string :=
  if unset a then b else a.

(** [a !== b] for a header [a] and a secret [b] that is set. *)
Definition differs (a b : option string) : bool :=
  match a, b with
  | Some x, Some y => negb (String.eqb x y)
  | None, None => false
  | _, _ => true
  end.
End Env.

(** [d.toISOString()]: a RangeError on an invalid date. *)
Definition toISOString (tv : option Z) : completion string :=
  match tv with
  | Some t => Normal (JSDate.ISOString t)
  | None => Throw RangeError
  end.

(** [d.getMonth() + 1], [d.getFullYear() + 1]. *)
Definition plus_one (n : option Z) : option Z :=
  match n with Some z => Some (z + 1) | None => None end.

(** Lines 148 to 153 of the Blobs revision, 72 to 75 of the Supabase one:
    [expires = new Date(now)], then [setMonth] or [setFullYear] by the
    plan. *)
Definition compute_expires (tz : Z -> bool -> Z) (plan : string) (now : option Z) : option Z :=
  let expires := JSDate.Date_copy now in
  let expires :=
    if String.eqb plan "monthly"
    then JSDate.setMonth tz expires (plus_one (JSDate.getMonth tz expires))
    else expires in
  let expires :=
    if String.eqb plan "yearly"
    then JSDate.setFullYear tz expires (plus_one (JSDate.getFullYear tz expires))
    else expires in
  expires.

(** [JSON.parse(event.body || "{}")]: an absent or empty body reads as
    the text of the empty object; a SyntaxError when the text is no JSON. *)
Definition parse_body (rt : Runtime) (event : Event.t) : completion value :=
  let text :=
    match Event.body event with
    | Some b => if JSString.is_empty b then "{}" else b
    | None => "{}"
    end in
  match JSON_parse rt text with
  | Some v => Normal v
  | None => Throw SyntaxError
  end.

(** ** payment-webhook.js, placeholder revision *)

Module WebhookPlaceholder.

Definition handler (rt : Runtime) (host : Host) (event : Event.t) : JS.M unit Response.t :=
  JS.try_catch
    (if negb (String.eqb (Event.httpMethod event) "POST")
     then JS.ret (Response.plain 405 "Method Not Allowed")
     else
       let secret := HELIO_WEBHOOK_SECRET host in
       let signature :=
         Env.or_else (Event.headers event !! "x-helio-signature")
                     (Event.headers event !! "X-Helio-Signature") in
       if Env.unset secret then JS.ret (Response.plain 500 "Server misconfigured")
       else if Env.unset signature || Env.differs signature secret
       then JS.ret (Response.plain 401 "Unauthorized")
       else
         let* payload := JS.lift (parse_body rt event) in
         let* ev := JS.lift (JS.get_prop payload "event") in
         if JS.not_strict_eq_string ev "payment_succeeded"
         then JS.ret (json 200 (VObject [("ok", VBool true); ("ignored", VBool true)]))
         else
           let* plan := JS.lift (JS.get_prop payload "plan") in
           let* email := JS.lift (JS.get_prop payload "email") in
           let* wallet := JS.lift (JS.get_prop payload "wallet") in
           JS.ret (json 200 (VObject
             [("ok", VBool true);
              ("received", VBool true);
              ("plan", JS.or_else plan VNull);
              ("email", JS.or_else email VNull);
              ("wallet", JS.or_else wallet VNull);
              ("note", VString "Membership activation will be persisted in the next step.")])))
    (fun _ => JS.ret (Response.plain 500 "Internal Server Error")).

End WebhookPlaceholder.

(** ** payment-webhook.js, Supabase revision *)

Module Supabase.
(** The two calls the handler makes on the client:
    [supabase.rpc(fn, args)] and
    [supabase.from(table).insert(row).select(columns).single()]. *)
Inductive request : Type :=
| Rpc (fn : string) (args : value)
| Insert (table : string) (row : value) (columns : string).

(** [{ data, error }]. *)
Record reply : Type := { data : value; error : value }.

(** The service: what it answers to a request, and the requests it has
    received, oldest first. *)
Record client : Type := {
  answer : request -> reply;
  sent : list request
}.

Definition call (r : request) : JS.M client reply :=
  fun c => (Normal (answer c r), {| answer := answer c; sent := sent c ++ [r] |}).

(** [createClient(SUPABASE_URL, SUPABASE_SERVICE_ROLE, options)]: the
    client, or an [Error] on a URL that the library refuses; nothing is
    sent to the service. *)
Definition createClient (rt : Runtime) (url key : option string) : completion unit :=
  if createClient_accepts rt (default EmptyString url) (default EmptyString key)
  then Normal tt
  else Throw Error.
End Supabase.

Module WebhookSupabase.

Definition handler (rt : Runtime) (host : Host) (event : Event.t)
  : JS.M Supabase.client Response.t :=
  JS.try_catch
    (if negb (String.eqb (Event.httpMethod event) "POST")
     then JS.ret (Response.plain 405 "Method Not Allowed")
     else
       let expected := HELIO_WEBHOOK_SECRET host in
       let signature :=
         Env.or_else (Event.headers event !! "x-helio-signature")
                     (Event.headers event !! "X-Helio-Signature") in
       if Env.unset expected
       then JS.ret (json 500 (VObject [("ok", VBool false);
                                       ("error", VString "Missing HELIO_WEBHOOK_SECRET")]))
       else if Env.unset signature || Env.differs signature expected
       then JS.ret (json 401 (VObject [("ok", VBool false); ("error", VString "Unauthorized")]))
       else
         let* payload := JS.lift (parse_body rt event) in
         let* ev := JS.lift (JS.get_prop payload "event") in
         if JS.not_strict_eq_string ev "payment_succeeded"
         then JS.ret (json 200 (VObject [("ok", VBool true); ("ignored", VBool true)]))
         else
           let* p := JS.lift (JS.get_prop payload "plan") in
           let* p' := JS.lift (JS.ToString rt (JS.or_else p (VString ""))) in
           let plan := JS.toLowerCase rt p' in
           let* e := JS.lift (JS.get_prop payload "email") in
           let* e' := JS.lift (JS.call_trim rt (JS.or_else e (VString ""))) in
           let email := JS.str_or_null (JS.toLowerCase rt e') in
           let* w := JS.lift (JS.get_prop payload "wallet") in
           let* w' := JS.lift (JS.call_trim rt (JS.or_else w (VString ""))) in
           let wallet := JS.str_or_null w' in
           let* a := JS.lift (JS.get_prop payload "amount") in
           let* amount := JS.lift (JS.ToNumber rt (JS.or_else a (VNumber num_zero))) in
           let* c := JS.lift (JS.get_prop payload "currency") in
           let* currency :=
             JS.lift (JS.call_toUpperCase rt (JS.or_else c (VString "USDT"))) in
           let* t := JS.lift (JS.get_prop payload "txHash") in
           let txHash := JS.or_else t VNull in
           if negb (JS.includes ["monthly"; "yearly"] plan)
           then JS.ret (json 400 (VObject [("ok", VBool false); ("error", VString "Invalid plan")]))
           else if negb (JS.truthy email) && negb (JS.truthy wallet)
           then JS.ret (json 400 (VObject [("ok", VBool false);
                                           ("error", VString "email or wallet required")]))
           else if Env.unset (SUPABASE_URL host) || Env.unset (SUPABASE_SERVICE_ROLE host)
           then JS.ret (json 500 (VObject [("ok", VBool false);
                                           ("error", VString "Supabase env not set")]))
           else
             let* _ :=
               JS.lift (Supabase.createClient rt (SUPABASE_URL host)
                          (SUPABASE_SERVICE_ROLE host)) in
             let* ensure :=
               Supabase.call (Supabase.Rpc "ensure_user"
                                (VObject [("_email", email); ("_wallet", wallet)])) in
             if JS.truthy (Supabase.error ensure)
             then JS.ret (json 500 (VObject [("ok", VBool false);
                                             ("error", VString "ensure_user failed")]))
             else
               let user_id := Supabase.data ensure in
               let now := Some (clock host) in
               let expires := compute_expires (tza host) plan now in
               let* started_at := JS.lift (toISOString now) in
               let* expires_at := JS.lift (toISOString expires) in
               let* sub :=
                 Supabase.call (Supabase.Insert "subscriptions"
                                  (VObject [("user_id", user_id);
                                            ("plan", VString plan);
                                            ("amount", VNumber amount);
                                            ("currency", VString currency);
                                            ("tx_hash", txHash);
                                            ("provider", VString "helio");
                                            ("status", VString "active");
                                            ("started_at", VString started_at);
                                            ("expires_at", VString expires_at)])
                                  "id, expires_at") in
               if JS.truthy (Supabase.error sub)
               then JS.ret (json 500 (VObject [("ok", VBool false);
                                               ("error", VString "insert subscription failed")]))
               else
                 let* sub_id := JS.lift (JS.get_prop (Supabase.data sub) "id") in
                 let* sub_exp := JS.lift (JS.get_prop (Supabase.data sub) "expires_at") in
                 JS.ret (json 200 (VObject [("ok", VBool true);
                                            ("saved", VBool true);
                                            ("user_id", user_id);
                                            ("subscription_id", sub_id);
                                            ("expires_at", sub_exp)])))
    (fun _ => JS.ret (Response.plain 500 "Internal Server Error")).

End WebhookSupabase.

(** ** The Netlify Blobs store "members" *)

(** Line 171 of the Blobs revision and line 30 of the query, the same
    expression: [email ? `email:${email}` : `wallet:${wallet.toLowerCase()}`]. *)
Definition store_key (rt : Runtime) (email wallet : string) : string :=
  if negb (JSString.is_empty email)
  then "email:" +:+ email
  else "wallet:" +:+ JS.toLowerCase rt wallet.

Module Blobs.
(** The keys the client accepts ([Store.validateKey]): not empty, no
    leading slash, and at most 600 bytes of UTF-8. *)
Definition valid_key (key : string) : bool :=
  negb (JSString.is_empty key) &&
  negb (String.prefix "/" key) && negb (String.prefix "%2F" key) &&
  (Z.of_nat (String.length key) <=? 600).

(** [store.setJSON(key, v)] on a store that is configured and
    reachable: it keeps the JSON text of [v] under a key the client
    accepts, and throws an [Error] on another key, before any request
    to the store. *)
Definition setJSON (key : string) (v : value) : JS.M (gmap string value) unit :=
  fun st =>
    if valid_key key then (Normal tt, <[key := JS.to_json v]> st)
    else (Throw Error, st).

(** [store.getJSON(key)]: the store of [@netlify/blobs] has the methods
    [get], [getWithMetadata], [getMetadata], [set], [setJSON], [delete]
    and [list], and none called [getJSON]; the call is a call of
    [undefined], a TypeError, whatever the key and the store. *)
Definition getJSON (key : string) : JS.M (gmap string value) value :=
  fun st => (Throw TypeError, st).
End Blobs.

(** ** payment-webhook.js, Blobs revision *)

Module WebhookBlobs.

Definition handler (rt : Runtime) (host : Host) (event : Event.t)
  : JS.M (gmap string value) Response.t :=
  JS.try_catch
    (if negb (String.eqb (Event.httpMethod event) "POST")
     then JS.ret (Response.plain 405 "Method Not Allowed")
     else
       let secret := HELIO_WEBHOOK_SECRET host in
       let signature :=
         Env.or_else (Event.headers event !! "x-helio-signature")
                     (Event.headers event !! "X-Helio-Signature") in
       if Env.unset secret then JS.ret (Response.plain 500 "Server misconfigured")
       else if Env.unset signature || Env.differs signature secret
       then JS.ret (Response.plain 401 "Unauthorized")
       else
         let* payload := JS.lift (parse_body rt event) in
         let* ev := JS.lift (JS.get_prop payload "event") in
         if JS.not_strict_eq_string ev "payment_succeeded"
         then JS.ret (json 200 (VObject [("ok", VBool true); ("ignored", VBool true)]))
         else
           let* p := JS.lift (JS.get_prop payload "plan") in
           let* p' := JS.lift (JS.ToString rt (JS.or_else p (VString ""))) in
           let plan := JS.toLowerCase rt p' in
           let* e := JS.lift (JS.get_prop payload "email") in
           let* e' := JS.lift (JS.call_trim rt (JS.or_else e (VString ""))) in
           let email := JS.toLowerCase rt e' in
           let* w := JS.lift (JS.get_prop payload "wallet") in
           let* wallet := JS.lift (JS.call_trim rt (JS.or_else w (VString ""))) in
           if negb (JS.includes ["monthly"; "yearly"] plan)
           then JS.ret (json 400 (VObject [("ok", VBool false); ("error", VString "Invalid plan")]))
           else if JSString.is_empty email && JSString.is_empty wallet
           then JS.ret (json 400 (VObject [("ok", VBool false);
                                           ("error", VString "Email or wallet required")]))
           else
             let now := Some (clock host) in
             let* startISO := JS.lift (toISOString now) in
             let expires := compute_expires (tza host) plan now in
             let* expiryISO := JS.lift (toISOString expires) in
             let* amount := JS.lift (JS.get_prop payload "amount") in
             let* currency := JS.lift (JS.get_prop payload "currency") in
             let* txHash := JS.lift (JS.get_prop payload "txHash") in
             let member :=
               VObject [("email", JS.str_or_null email);
                        ("wallet", JS.str_or_null wallet);
                        ("plan", VString plan);
                        ("amount", JS.or_else amount VNull);
                        ("currency", JS.or_else currency VNull);
                        ("txHash", JS.or_else txHash VNull);
                        ("started_at", VString startISO);
                        ("expires_at", VString expiryISO);
                        ("provider", VString "helio");
                        ("status", VString "active")] in
             let key := store_key rt email wallet in
             let* _ := Blobs.setJSON key member in
             JS.ret (json 200 (VObject [("ok", VBool true);
                                        ("saved", VBool true);
                                        ("key", VString key);
                                        ("expires_at", VString expiryISO)])))
    (fun _ => JS.ret (Response.plain 500 "Internal Server Error")).

End WebhookBlobs.

(** ** get-membership.js *)

Module GetMembership.

(** [params.get(name)]: the value of the first pair named [name]. *)
Fixpoint params_get (params : list (string * string)) (name : string) : option string :=
  match params with
  | [] => None
  | (k, v) :: rest => if String.eqb k name then Some v else params_get rest name
  end.

(** Line 21: the query text is [event.rawQuery], or else the text of
    [event.queryStringParameters], or else empty. *)
Definition query_params (rt : Runtime) (event : Event.t) : list (string * string) :=
  let text :=
    if negb (Env.unset (Event.rawQuery event))
    then default EmptyString (Event.rawQuery event)
    else match Event.queryStringParameters event with
         | Some o => URLSearchParams_toString rt o
         | None => EmptyString
         end in
  URLSearchParams_parse rt text.

(** Lines 33 to 46: the answer from what the store returned. *)
Definition answer (rt : Runtime) (host : Host) (record : value)
  : JS.M (gmap string value) Response.t :=
  if negb (JS.truthy record)
  then JS.ret (json 200 (VObject [("ok", VBool true);
                                  ("active", VBool false);
                                  ("reason", VString "not_found")]))
  else
    let now := clock host in
    let* exp := JS.lift (JS.get_prop record "expires_at") in
    let* text := JS.lift (JS.ToString rt exp) in
    let expiry := Date_parse rt text in
    let active :=
      match expiry with
      | Some e => now <? e
      | None => false
      end in
    JS.ret (json 200 (VObject
      [("ok", VBool true);
       ("active", VBool active);
       ("record", if active then record else VUndefined);
       ("reason", if active then VUndefined else VString "expired")])).

(** The handler on a store whose [getJSON] is [store_getJSON]. *)
Definition handler_on (store_getJSON : string -> JS.M (gmap string value) value)
    (rt : Runtime) (host : Host) (event : Event.t)
  : JS.M (gmap string value) Response.t :=
  JS.try_catch
    (if negb (String.eqb (Event.httpMethod event) "GET")
     then JS.ret (Response.plain 405 "Method Not Allowed")
     else
       let params := query_params rt event in
       let email :=
         JS.toLowerCase rt (JS.trim rt (default EmptyString (params_get params "email"))) in
       let wallet := JS.trim rt (default EmptyString (params_get params "wallet")) in
       if JSString.is_empty email && JSString.is_empty wallet
       then JS.ret (json 400 (VObject [("ok", VBool false);
                                       ("active", VBool false);
                                       ("reason", VString "missing_param")]))
       else
         let key := store_key rt email wallet in
         let* record := store_getJSON key in
         answer rt host record)
    (fun _ => JS.ret (Response.plain 500 "Internal Server Error")).

(** The handler of the repository: the store is the one that [getStore]
    of [@netlify/blobs] returns. *)
Definition handler (rt : Runtime) (host : Host) (event : Event.t)
  : JS.M (gmap string value) Response.t :=
  handler_on Blobs.getJSON rt host event.

End GetMembership.

(** ** The notions the properties are stated with *)

(** [payload.k] on a payload that is an object. *)
Definition field (payload : value) (k : string) : value :=
  match payload with
  | VObject ps => JS.lookup_prop k ps
  | _ => VUndefined
  end.

(** The properties of an object, none for the other values. *)
Definition props_of (v : value) : list (string * value) :=
  match v with
  | VObject ps => ps
  | _ => []
  end.

(** The property [k] of the data of a JSON response. *)
Definition body_field (resp : Response.t) (k : string) : value :=
  match Response.body resp with
  | Response.Json data => field data k
  | Response.Text _ => VUndefined
  end.

(** [200 {ok:true, ignored:true}]. *)
Definition ignored : Response.t :=
  json 200 (VObject [("ok", VBool true); ("ignored", VBool true)]).

(** A request without a body, or with the empty string as its body. *)
Definition no_body (event : Event.t) : Prop :=
  Event.body event = None \/ Event.body event = Some EmptyString.

(** A value on which [(v || "").trim()] does not throw: a string, or a
    value that [||] replaces. *)
Definition string_or_falsy (v : value) : Prop :=
  match v with
  | VString _ => True
  | _ => JS.truthy v = false
  end.

(** The header the handlers compare with the secret. *)
Definition signature_of (event : Event.t) : option string :=
  Env.or_else (Event.headers event !! "x-helio-signature")
              (Event.headers event !! "X-Helio-Signature").

(** A POST request that passes the check of the shared secret. *)
Record authentic (host : Host) (event : Event.t) : Prop := {
  auth_method : Event.httpMethod event = "POST";
  auth_secret : Env.unset (HELIO_WEBHOOK_SECRET host) = false;
  auth_signature : signature_of event = HELIO_WEBHOOK_SECRET host
}.

(** The three fields both persisting revisions normalise alike
    (lines 136 to 138 and 44 to 46). *)
Record identity : Type := {
  id_plan : string;
  id_email : string;
  id_wallet : string
}.

Definition normalize (rt : Runtime) (payload : value) : completion identity :=
  match JS.ToString rt (JS.or_else (field payload "plan") (VString "")) with
  | Throw e => Throw e
  | Normal p' =>
      match JS.call_trim rt (JS.or_else (field payload "email") (VString "")) with
      | Throw e => Throw e
      | Normal e' =>
          match JS.call_trim rt (JS.or_else (field payload "wallet") (VString "")) with
          | Throw e => Throw e
          | Normal w' =>
              Normal {| id_plan := JS.toLowerCase rt p';
                        id_email := JS.toLowerCase rt e';
                        id_wallet := w' |}
          end
      end
  end.

(** An authentic notification of a succeeded payment whose normalised
    fields are [n]. *)
Record notified (rt : Runtime) (host : Host) (event : Event.t)
    (payload : value) (n : identity) : Prop := {
  ntf_authentic : authentic host event;
  ntf_parse : parse_body rt event = Normal payload;
  ntf_event : JS.get_prop payload "event" = Normal (VString "payment_succeeded");
  ntf_fields : normalize rt payload = Normal n
}.

(** The two checks of the validation step. *)
Definition plan_valid (n : identity) : bool :=
  JS.includes ["monthly"; "yearly"] (id_plan n).

Definition identity_present (n : identity) : bool :=
  negb (JSString.is_empty (id_email n) && JSString.is_empty (id_wallet n)).

(** The start instants from which a year later is still a time value,
    whatever the offsets of the host: a year of 366 days and two days for
    the offsets. *)
Definition clock_in_range (host : Host) : Prop :=
  - JSDate.maxTime <= clock host <= JSDate.maxTime - 368 * JSDate.msPerDay.

(** [s] is the ISO text of the time value [t] of the [Date] range. *)
Definition iso_text_of (s : string) (t : Z) : Prop :=
  Z.abs t <= JSDate.maxTime /\ JSDate.ISOString t = s.

(** Year, month (0 to 11) and day of the month of a time value. *)
Definition civil (t : Z) : Z * Z * Z :=
  (JSDate.YearFromTime t, JSDate.MonthFromTime t, JSDate.DateFromTime t).

(** The days [setMonth(getMonth() + 1)] and [setFullYear(getFullYear() + 1)]
    move a local time [t] forward. *)
Definition month_span (t : Z) : Z :=
  JSDate.DaysInMonth (JSDate.YearFromTime t) (JSDate.MonthFromTime t).

Definition year_span (t : Z) : Z :=
  365 + (if JSDate.MonthFromTime t <=? 1
         then JSDate.leap (JSDate.YearFromTime t)
         else JSDate.leap (JSDate.YearFromTime t + 1)).

Definition plan_span (plan : string) (t : Z) : Z :=
  if String.eqb plan "monthly" then month_span t else year_span t.

(** The local time of the expiry: the local time of the start, moved
    forward by the days of the plan. The expiry is the instant that the
    zone of the host gives for it. *)
Definition local_expiry (tz : Z -> bool -> Z) (plan : string) (now : Z) : Z :=
  JSDate.LocalTime tz now + plan_span plan (JSDate.LocalTime tz now) * JSDate.msPerDay.

(** The offset of the zone is the same at the start and at the expiry:
    no change of daylight saving between the two, as in UTC. *)
Definition steady (tz : Z -> bool -> Z) (plan : string) (now : Z) : Prop :=
  tz (local_expiry tz plan now) false = tz now true.

(** The calendar date one month after [(y, m, d)] under the rollover of
    [MakeDay]: the same day of the next month, or, when the next month is
    too short, as many days into the month after it as [d] exceeds it. *)
Definition month_later (ymd : Z * Z * Z) : Z * Z * Z :=
  let '(y, m, d) := ymd in
  let y1 := if m =? 11 then y + 1 else y in
  let m1 := if m =? 11 then 0 else m + 1 in
  if d <=? JSDate.DaysInMonth y1 m1 then (y1, m1, d)
  else (y1, m1 + 1, d - JSDate.DaysInMonth y1 m1).

(** One year after [(y, m, d)]: the same day of the same month, and the
    first of March after a 29th of February. *)
Definition year_later (ymd : Z * Z * Z) : Z * Z * Z :=
  let '(y, m, d) := ymd in
  if (m =? 1) && (d =? 29) then (y + 1, 2, 1) else (y + 1, m, d).

Definition plan_later (plan : string) (ymd : Z * Z * Z) : Z * Z * Z :=
  if String.eqb plan "monthly" then month_later ymd else year_later ymd.

(** The record the Blobs revision builds (lines 156 to 167). *)
Definition member_of (payload : value) (n : identity) (startISO expiryISO : string) : value :=
  VObject [("email", JS.str_or_null (id_email n));
           ("wallet", JS.str_or_null (id_wallet n));
           ("plan", VString (id_plan n));
           ("amount", JS.or_else (field payload "amount") VNull);
           ("currency", JS.or_else (field payload "currency") VNull);
           ("txHash", JS.or_else (field payload "txHash") VNull);
           ("started_at", VString startISO);
           ("expires_at", VString expiryISO);
           ("provider", VString "helio");
           ("status", VString "active")].

(** The two conversions the Supabase revision makes besides, on lines 47
    and 48: the amount by [Number] and the currency by [toUpperCase]. *)
Record converted (rt : Runtime) (payload : value) (amount : number) (cur : string)
    : Prop := {
  cv_amount :
    JS.ToNumber rt (JS.or_else (field payload "amount") (VNumber num_zero)) = Normal amount;
  cv_currency :
    JS.call_toUpperCase rt (JS.or_else (field payload "currency") (VString "USDT")) =
      Normal cur
}.

(** Both variables of the Supabase client are set. *)
Definition supabase_env_set (host : Host) : bool :=
  negb (Env.unset (SUPABASE_URL host) || Env.unset (SUPABASE_SERVICE_ROLE host)).

(** The Supabase client is configured: both variables are set, and
    [createClient] returns a client for them. *)
Definition supabase_configured (rt : Runtime) (host : Host) : Prop :=
  supabase_env_set host = true /\
  Supabase.createClient rt (SUPABASE_URL host) (SUPABASE_SERVICE_ROLE host) = Normal tt.

(** The arguments of [ensure_user] and the row the Supabase revision
    inserts (lines 62 and 80 to 90). *)
Definition ensure_user_args (n : identity) : value :=
  VObject [("_email", JS.str_or_null (id_email n));
           ("_wallet", JS.str_or_null (id_wallet n))].

Definition subscription_of (payload : value) (n : identity)
    (user_id : value) (amount : number) (currency startISO expiryISO : string) : value :=
  VObject [("user_id", user_id);
           ("plan", VString (id_plan n));
           ("amount", VNumber amount);
           ("currency", VString currency);
           ("tx_hash", JS.or_else (field payload "txHash") VNull);
           ("provider", VString "helio");
           ("status", VString "active");
           ("started_at", VString startISO);
           ("expires_at", VString expiryISO)].

Module Spec.

(** Section 4.2, step 8, and 4.3, step 3: the key prefers the email and
    falls back to the lower-cased wallet. *)
Definition identity_key (rt : Runtime) (email wallet : string) : string :=
  if JSString.is_empty email
  then "wallet:" +:+ JS.toLowerCase rt wallet
  else "email:" +:+ email.

(** Section 4.3, step 2: trim and lower-case for the email, trim for
    the wallet. *)
Definition normalize_email (rt : Runtime) (s : string) : string :=
  JS.toLowerCase rt (JS.trim rt s).
Definition normalize_wallet (rt : Runtime) (s : string) : string := JS.trim rt s.

(** Section 4.2, step 7, as its example reads it: one calendar month
    later, the day clamped to the last valid day of that month. *)
Definition add_month_clamped (t : Z) : Z :=
  let y := JSDate.YearFromTime t in
  let m := JSDate.MonthFromTime t + 1 in
  let ym := y + m / 12 in
  let mn := m mod 12 in
  let d := Z.min (JSDate.DateFromTime t) (JSDate.DaysInMonth ym mn) in
  JSDate.MakeDate (JSDate.MakeDay ym mn d) (JSDate.TimeWithinDay t).

(** [p] and [q] are one identity up to the case of its letters and to
    white space around it. *)
Definition variation (p q : string) : Prop :=
  exists before after core before' after' core',
    JSString.blank before = true /\ JSString.blank after = true /\
    JSString.blank before' = true /\ JSString.blank after' = true /\
    p = before +:+ core +:+ after /\
    q = before' +:+ core' +:+ after' /\
    JSString.toLowerCase core = JSString.toLowerCase core'.

(** Section 4.3, steps 4 to 6: the answer to a query from what the
    store holds under the key. *)
Definition membership_response (rt : Runtime) (now : Z) (found : option value) : Response.t :=
  match found with
  | Some record =>
      if JS.truthy record then
        let active :=
          match field record "expires_at" with
          | VString text =>
              match Date_parse rt text with
              | Some expiry => now <? expiry
              | None => false
              end
          | _ => false
          end in
        if active
        then json 200 (VObject [("ok", VBool true); ("active", VBool true);
                                ("record", record)])
        else json 200 (VObject [("ok", VBool true); ("active", VBool false);
                                ("reason", VString "expired")])
      else json 200 (VObject [("ok", VBool true); ("active", VBool false);
                              ("reason", VString "not_found")])
  | None => json 200 (VObject [("ok", VBool true); ("active", VBool false);
                               ("reason", VString "not_found")])
  end.

End Spec.

(** ** Concrete runtimes, hosts and requests for the examples *)

Module Examples.

Definition quote : string := String (ascii_of_N 34) EmptyString.

(** The JSON text of a value without numbers and without characters to
    escape. *)
Fixpoint text_of (v : value) : string :=
  match v with
  | VUndefined | VNull | VNumber _ => "null"
  | VBool true => "true"
  | VBool false => "false"
  | VString s => quote +:+ s +:+ quote
  | VArray xs => "[" +:+ JSString.join "," (map text_of xs) +:+ "]"
  | VObject ps =>
      "{" +:+ JSString.join ","
                (map (fun kx => match kx with
                                | (k, x) => quote +:+ k +:+ quote +:+ ":" +:+ text_of x
                                end) ps) +:+ "}"
  end.

(** The pieces of [s] between the occurrences of [sep]. *)
Fixpoint split_on (sep : ascii) (s : string) : list string :=
  match s with
  | EmptyString => [EmptyString]
  | String c s' =>
      if Ascii.eqb c sep then EmptyString :: split_on sep s'
      else match split_on sep s' with
           | [] => [String c EmptyString]
           | x :: xs => String c x :: xs
           end
  end.

Fixpoint plus_to_space (s : string) : string :=
  match s with
  | EmptyString => EmptyString
  | String c s' => String (if Ascii.eqb c "+" then " "%char else c) (plus_to_space s')
  end.

(** The pairs of a query string without percent escapes. *)
Definition query_pairs (s : string) : list (string * string) :=
  if JSString.is_empty s then []
  else map (fun piece =>
              match split_on "=" piece with
              | [] => (EmptyString, EmptyString)
              | [k] => (plus_to_space k, EmptyString)
              | k :: v :: rest =>
                  (plus_to_space k,
                   plus_to_space (JSString.join "=" (v :: rest)))
              end) (split_on "&" s).

(** A runtime that reads the JSON texts of [payloads] and of the empty
    object, the ISO texts of the instants [dates], and query strings
    without escapes; the examples hold no number, and the URL of their
    Supabase service is on https. *)
Definition runtime (payloads : list value) (dates : list Z) : Runtime :=
  {| JSON_parse := fun s =>
       List.find (fun v => String.eqb (text_of v) s) (VObject [] :: payloads);
     Date_parse := fun s =>
       List.find (fun t => String.eqb (JSDate.ISOString t) s) dates;
     NumberToString := fun _ => "NaN";
     StringToNumber := fun _ => S754_nan;
     URLSearchParams_parse := query_pairs;
     URLSearchParams_toString := fun _ => EmptyString;
     String_trim := JSString.trim;
     String_toLowerCase := JSString.toLowerCase;
     String_toUpperCase := JSString.toUpperCase;
     createClient_accepts := fun url _ => String.prefix "https://" url |}.

(** Hosts in the time zone UTC. *)
Definition host_at (now : Z) : Host :=
  {| HELIO_WEBHOOK_SECRET := Some "s3cret";
     SUPABASE_URL := Some "https://db.example";
     SUPABASE_SERVICE_ROLE := Some "role";
     clock := now;
     tza := fun _ _ => 0;
     tza_range := fun _ _ => conj eq_refl eq_refl |}.

Definition host_without_secret : Host :=
  {| HELIO_WEBHOOK_SECRET := None;
     SUPABASE_URL := Some "https://db.example";
     SUPABASE_SERVICE_ROLE := Some "role";
     clock := 0;
     tza := fun _ _ => 0;
     tza_range := fun _ _ => conj eq_refl eq_refl |}.

(** A POST that carries the secret in the header called [name]. *)
Definition post (name : string) (body : option string) : Event.t :=
  {| Event.httpMethod := "POST";
     Event.headers := {[ name := "s3cret" ]};
     Event.body := body;
     Event.rawQuery := None;
     Event.queryStringParameters := None |}.

Definition notify (payload : value) : Event.t :=
  post "x-helio-signature" (Some (text_of payload)).

Definition get (query : string) : Event.t :=
  {| Event.httpMethod := "GET";
     Event.headers := ∅;
     Event.body := None;
     Event.rawQuery := Some query;
     Event.queryStringParameters := None |}.

(** 2023-01-31T12:00:00.000Z, and the 28th of February and the 3rd of
    March of that year at noon. *)
Definition jan31 : Z := 1675166400000.
Definition feb28 : Z := 1677585600000.
Definition mar03 : Z := 1677844800000.
(** 2024-01-31T12:00:00.000Z. *)
Definition jan31_next : Z := 1706702400000.

Definition payload_monthly : value :=
  VObject [("event", VString "payment_succeeded");
           ("plan", VString "Monthly");
           ("email", VString " Ada@Example.com ");
           ("wallet", VString "0xABC");
           ("currency", VString "usdt")].

Definition payload_yearly_wallet : value :=
  VObject [("event", VString "payment_succeeded");
           ("plan", VString "yearly");
           ("wallet", VString " 0xABC ")].

Definition payload_weekly : value :=
  VObject [("event", VString "payment_succeeded");
           ("plan", VString "weekly");
           ("email", VString "ada@example.com")].

Definition payload_weekly_email_true : value :=
  VObject [("event", VString "payment_succeeded");
           ("plan", VString "weekly");
           ("email", VBool true)].

(** The normalised fields of the payloads above. *)
Definition identity_monthly : identity :=
  {| id_plan := "monthly"; id_email := "ada@example.com"; id_wallet := "0xABC" |}.

Definition identity_weekly : identity :=
  {| id_plan := "weekly"; id_email := "ada@example.com"; id_wallet := EmptyString |}.

Definition rt : Runtime :=
  runtime [payload_monthly; payload_yearly_wallet; payload_weekly; payload_weekly_email_true]
          [mar03; jan31_next].

(** A Supabase service that accepts every request. *)
Definition supabase : Supabase.client :=
  {| Supabase.answer := fun _ =>
       {| Supabase.data := VObject [("id", VString "sub-1")]; Supabase.error := VNull |};
     Supabase.sent := [] |}.

End Examples.

(** ** More requests and services *)

Module Cases.

(** 2023-02-01T12:00:00.000Z and 2023-03-01T12:00:00.000Z. *)
Definition feb01 : Z := 1675252800000.
Definition mar01 : Z := 1677672000000.

Definition payload_refunded : value :=
  VObject [("event", VString "payment_refunded");
           ("plan", VString "monthly");
           ("email", VString "ada@example.com")].

Definition payload_blank_email : value :=
  VObject [("event", VString "payment_succeeded");
           ("plan", VString "yearly");
           ("email", VString "   ");
           ("wallet", VString " 0xABC ")].

Definition identity_blank_email : identity :=
  {| id_plan := "yearly"; id_email := EmptyString; id_wallet := "0xABC" |}.

(** A plan and an amount that [String] and [Number] cannot convert. *)
Definition payload_plan_object : value :=
  VObject [("event", VString "payment_succeeded");
           ("plan", VObject [("toString", VString "x")]);
           ("email", VString "ada@example.com")].

Definition payload_amount_object : value :=
  VObject [("event", VString "payment_succeeded");
           ("plan", VString "monthly");
           ("email", VString "ada@example.com");
           ("amount", VObject [("toString", VString "x")])].

(** A wallet of 600 characters: its key is longer than 600 bytes. *)
Definition long_wallet : string := String.concat EmptyString (repeat "a" 600).

Definition payload_long_wallet : value :=
  VObject [("event", VString "payment_succeeded");
           ("plan", VString "monthly");
           ("wallet", VString long_wallet)].

Definition rt : Runtime :=
  Examples.runtime [VNull; payload_refunded; payload_blank_email; Examples.payload_monthly;
                    Examples.payload_yearly_wallet; payload_plan_object;
                    payload_amount_object; payload_long_wallet]
                   [Examples.mar03; Examples.jan31_next].

(** A runtime that knows, beyond ASCII, the capital letters of Latin-1
    and the no-break space, as the tables of Unicode have them: in
    UTF-8 a capital letter U+00C0 to U+00DE (without U+00D7) is the
    byte 195 followed by a byte from 128 to 158 (without 151), the
    small letter is 32 further, and U+00A0 is the bytes 194 and 160.
    That is all the strings of the examples hold. *)
Fixpoint latin1_lower (s : string) : string :=
  match s with
  | EmptyString => EmptyString
  | String c1 s1 =>
      match s1 with
      | String c2 s2 =>
          if (N_of_ascii c1 =? 195)%N
          then
            let n := N_of_ascii c2 in
            String c1
              (String (if ((128 <=? n) && (n <=? 158) && negb (n =? 151))%N
                       then ascii_of_N (n + 32) else c2)
                      (latin1_lower s2))
          else String (JSString.lower_char c1) (latin1_lower s1)
      | EmptyString => String (JSString.lower_char c1) EmptyString
      end
  end.

(** Strips the ASCII white space and the two bytes [a], [b] from the
    start of a string. *)
Fixpoint strip_start (a b : N) (s : string) : string :=
  match s with
  | EmptyString => EmptyString
  | String c1 s1 =>
      if JSString.is_space c1 then strip_start a b s1
      else
        match s1 with
        | String c2 s2 =>
            if ((N_of_ascii c1 =? a) && (N_of_ascii c2 =? b))%N
            then strip_start a b s2 else s
        | EmptyString => s
        end
  end.

Definition latin1_trim (s : string) : string :=
  String.rev (strip_start 160 194 (String.rev (strip_start 194 160 s))).

(** U+00A0. *)
Definition nbsp : string := String (ascii_of_N 194) (String (ascii_of_N 160) EmptyString).

Definition payload_latin1 : value :=
  VObject [("event", VString "payment_succeeded");
           ("plan", VString "monthly");
           ("email", VString "ÄDA@Example.com")].

Definition payload_nbsp : value :=
  VObject [("event", VString "payment_succeeded");
           ("plan", VString "monthly");
           ("email", VString nbsp)].

Definition rt_latin1 : Runtime :=
  let base := Examples.runtime [payload_latin1; payload_nbsp] [] in
  {| JSON_parse := JSON_parse base;
     Date_parse := Date_parse base;
     NumberToString := NumberToString base;
     StringToNumber := StringToNumber base;
     URLSearchParams_parse := URLSearchParams_parse base;
     URLSearchParams_toString := URLSearchParams_toString base;
     String_trim := latin1_trim;
     String_toLowerCase := latin1_lower;
     String_toUpperCase := String_toUpperCase base;
     createClient_accepts := createClient_accepts base |}.

(** A request of method [method] without headers, body or query. *)
Definition bare (method : string) : Event.t :=
  {| Event.httpMethod := method;
     Event.headers := ∅;
     Event.body := None;
     Event.rawQuery := None;
     Event.queryStringParameters := None |}.

Definition host_without_supabase : Host :=
  {| HELIO_WEBHOOK_SECRET := Some "s3cret";
     SUPABASE_URL := None;
     SUPABASE_SERVICE_ROLE := Some "role";
     clock := Examples.jan31;
     tza := fun _ _ => 0;
     tza_range := fun _ _ => conj eq_refl eq_refl |}.

(** A zone with daylight saving, as New York in the spring of 2023:
    five hours behind UTC until 12 March, 07:00 UTC, four hours behind
    from then on; local times up to 03:00 of that day are read with the
    earlier offset. *)
Definition new_york (t : Z) (isUTC : bool) : Z :=
  if t <? (if isUTC then 1678604400000 else 1678590000000)
  then -18000000 else -14400000.

Definition host_new_york (now : Z) : Host :=
  {| HELIO_WEBHOOK_SECRET := Some "s3cret";
     SUPABASE_URL := Some "https://db.example";
     SUPABASE_SERVICE_ROLE := Some "role";
     clock := now;
     tza := new_york;
     tza_range := fun t isUTC =>
       match t <? (if isUTC then 1678604400000 else 1678590000000) as b
         return - JSDate.msPerDay < (if b then -18000000 else -14400000) < JSDate.msPerDay
       with
       | true => conj eq_refl eq_refl
       | false => conj eq_refl eq_refl
       end |}.

(** 2023-02-15T12:00:00.000Z. *)
Definition feb15 : Z := 1676462400000.

(** A service whose [ensure_user] fails. *)
Definition supabase_refusing : Supabase.client :=
  {| Supabase.answer := fun r =>
       match r with
       | Supabase.Rpc _ _ =>
           {| Supabase.data := VNull; Supabase.error := VObject [("message", VString "denied")] |}
       | Supabase.Insert _ _ _ =>
           {| Supabase.data := VObject [("id", VString "sub-1")]; Supabase.error := VNull |}
       end;
     Supabase.sent := [] |}.

(** A service that knows the user and refuses the row. *)
Definition supabase_rejecting_row : Supabase.client :=
  {| Supabase.answer := fun r =>
       match r with
       | Supabase.Rpc _ _ =>
           {| Supabase.data := VString "user-7"; Supabase.error := VNull |}
       | Supabase.Insert _ _ _ =>
           {| Supabase.data := VNull; Supabase.error := VObject [("code", VString "23505")] |}
       end;
     Supabase.sent := [] |}.

(** A service that knows the user and returns the row it kept. *)
Definition supabase_keeping_row : Supabase.client :=
  {| Supabase.answer := fun r =>
       match r with
       | Supabase.Rpc _ _ =>
           {| Supabase.data := VString "user-7"; Supabase.error := VNull |}
       | Supabase.Insert _ _ _ =>
           {| Supabase.data := VObject [("id", VString "sub-1");
                                        ("expires_at", VString "2023-03-03T12:00:00+00:00")];
              Supabase.error := VNull |}
       end;
     Supabase.sent := [] |}.

End Cases.

(** * Properties *)

(** ** Years, months and days *)

Module JSDateFacts.
Import JSDate.

Ltac divmod := Z.div_mod_to_equations; lia.

Lemma leap_cases y : leap y = 0 \/ leap y = 1.
Proof. unfold leap. destruct (DaysInYear y =? 366); lia. Qed.

Lemma DaysInYear_leap y : DaysInYear y = 365 + leap y.
Proof.
  unfold leap, DaysInYear.
  repeat match goal with |- context [negb (?a =? ?b)] => destruct (Z.eqb_spec a b); cbn [negb] end;
    reflexivity.
Qed.

Lemma DayFromYear_succ y : DayFromYear (y + 1) = DayFromYear y + DaysInYear y.
Proof.
  unfold DayFromYear, DaysInYear.
  repeat match goal with |- context [?a =? ?b] => destruct (Z.eqb_spec a b) end; cbn [negb];
    divmod.
Qed.

Lemma DayFromYear_mono y1 y2 : y1 <= y2 -> DayFromYear y1 <= DayFromYear y2.
Proof. unfold DayFromYear. intros. divmod. Qed.

Lemma YearFromDay_bounds d :
  DayFromYear (YearFromDay d) <= d < DayFromYear (YearFromDay d + 1).
Proof.
  unfold YearFromDay.
  set (y0 := 1970 + 400 * d / 146097).
  destruct (Z.ltb_spec d (DayFromYear y0)) as [Hlt|Hge].
  - replace (y0 - 1 + 1) with y0 by lia. split; [|lia].
    unfold DayFromYear in *. subst y0. divmod.
  - destruct (Z.leb_spec (DayFromYear (y0 + 1)) d) as [Hle|Hgt]; [|lia].
    split; [lia|]. unfold DayFromYear in *. subst y0. divmod.
Qed.

Lemma YearFromDay_unique d y :
  DayFromYear y <= d < DayFromYear (y + 1) -> YearFromDay d = y.
Proof.
  intros [Hlo Hhi].
  pose proof (YearFromDay_bounds d) as [Hlo' Hhi'].
  destruct (Z.lt_trichotomy (YearFromDay d) y) as [H|[H|H]]; [|exact H|].
  - pose proof (DayFromYear_mono (YearFromDay d + 1) y ltac:(lia)). lia.
  - pose proof (DayFromYear_mono (y + 1) (YearFromDay d) ltac:(lia)). lia.
Qed.

Ltac split_ltb :=
  repeat match goal with
         | |- context [?a <? ?b] => destruct (Z.ltb_spec a b)
         | H : context [?a <? ?b] |- _ => destruct (Z.ltb_spec a b)
         end.

Ltac month_cases m H :=
  assert (m = 0 \/ m = 1 \/ m = 2 \/ m = 3 \/ m = 4 \/ m = 5 \/ m = 6 \/
          m = 7 \/ m = 8 \/ m = 9 \/ m = 10 \/ m = 11) as H by lia;
  repeat (destruct H as [H|H]; [subst m|]); [..|subst m].

(** The tables of [MonthFromTime] and [DateFromTime] invert
    [month_start]. *)
Lemma month_date_start y dwy :
  0 <= dwy < 365 + leap y ->
  let m := month_of (leap y) dwy in
  let d := date_of (leap y) dwy in
  0 <= m <= 11 /\ 1 <= d <= DaysInMonth y m /\
  dwy = month_start (leap y) m + d - 1.
Proof.
  intros Hr. cbv zeta. unfold date_of.
  destruct (leap_cases y) as [Hl|Hl].
  - unfold month_of, DaysInMonth; rewrite Hl in *; split_ltb; cbn; lia.
  - unfold month_of, DaysInMonth; rewrite Hl in *; split_ltb; cbn; lia.
Qed.

Lemma month_of_start y m d :
  0 <= m <= 11 -> 1 <= d <= DaysInMonth y m ->
  month_of (leap y) (month_start (leap y) m + d - 1) = m /\
  date_of (leap y) (month_start (leap y) m + d - 1) = d.
Proof.
  intros Hm Hd. unfold date_of.
  destruct (leap_cases y) as [Hl|Hl]; unfold DaysInMonth in Hd; rewrite Hl in *;
    month_cases m Hc; cbn in Hd |- *; unfold month_of; split_ltb; try lia; cbn; lia.
Qed.

Lemma month_start_next y m :
  0 <= m <= 10 -> month_start (leap y) (m + 1) = month_start (leap y) m + DaysInMonth y m.
Proof.
  intros Hm. month_cases m Hc; try lia;
    match goal with
    | |- context [month_start _ (?a + 1)] =>
        let v := eval vm_compute in (a + 1) in change (a + 1) with v
    end; unfold DaysInMonth, month_start; lia.
Qed.

Lemma month_start_last y : month_start (leap y) 11 + DaysInMonth y 11 = DaysInYear y.
Proof. rewrite DaysInYear_leap. unfold month_start, DaysInMonth. lia. Qed.

Lemma DaysInMonth_range y m : 28 <= DaysInMonth y m <= 31.
Proof.
  unfold DaysInMonth. destruct (leap_cases y).
  all: destruct m as [|p|p]; try lia;
    repeat (destruct p as [p|p|]; try lia).
Qed.

Lemma leap_mod4 y : leap y = 1 -> y mod 4 = 0.
Proof.
  unfold leap, DaysInYear.
  destruct (Z.eqb_spec (y mod 4) 0) as [H|H]; [intros _; exact H|].
  cbn [negb]. change (365 =? 366) with false. cbv iota. discriminate.
Qed.

Lemma leap_not_mod4 y : y mod 4 <> 0 -> leap y = 0.
Proof.
  intros H. unfold leap, DaysInYear.
  destruct (Z.eqb_spec (y mod 4) 0) as [H'|_]; [contradiction|]. reflexivity.
Qed.

Lemma leap_succ y : leap y = 1 -> leap (y + 1) = 0.
Proof. intros H%leap_mod4. apply leap_not_mod4. divmod. Qed.

Lemma month_start_bound y m :
  0 <= m <= 11 ->
  0 <= month_start (leap y) m /\ month_start (leap y) m + DaysInMonth y m <= 365 + leap y.
Proof.
  intros Hm. destruct (leap_cases y) as [Hl|Hl];
    month_cases m Hc; try lia; unfold month_start, DaysInMonth; lia.
Qed.

Lemma Day_MakeDate D tod :
  0 <= tod < msPerDay -> Day (MakeDate D tod) = D /\ TimeWithinDay (MakeDate D tod) = tod.
Proof. unfold Day, TimeWithinDay, MakeDate, msPerDay. intros. divmod. Qed.

Lemma time_split t :
  t = MakeDate (Day t) (TimeWithinDay t) /\ 0 <= TimeWithinDay t < msPerDay.
Proof. unfold Day, TimeWithinDay, MakeDate, msPerDay. divmod. Qed.

Lemma MakeDay_in_year y m d :
  0 <= m <= 11 -> MakeDay y m d = DayFromYear y + month_start (leap y) m + d - 1.
Proof.
  intros Hm. unfold MakeDay.
  rewrite (Z.div_small m 12), (Z.mod_small m 12), Z.add_0_r by lia. reflexivity.
Qed.

Lemma MakeDay_date y m d k : MakeDay y m (d + k) = MakeDay y m d + k.
Proof. unfold MakeDay. lia. Qed.

(** Every time value is the [MakeDay] of its own year, month and date. *)
Lemma civil_decompose t :
  0 <= MonthFromTime t <= 11 /\
  1 <= DateFromTime t <= DaysInMonth (YearFromTime t) (MonthFromTime t) /\
  Day t = MakeDay (YearFromTime t) (MonthFromTime t) (DateFromTime t).
Proof.
  unfold MonthFromTime, DateFromTime, InLeapYear, DayWithinYear.
  pose proof (YearFromDay_bounds (Day t)) as Hb.
  rewrite DayFromYear_succ, DaysInYear_leap in Hb. fold (YearFromTime t) in Hb.
  destruct (month_date_start (YearFromTime t) (Day t - DayFromYear (YearFromTime t)))
    as (Hm & Hd & Heq); [lia|].
  split; [exact Hm|]. split; [exact Hd|].
  rewrite MakeDay_in_year by exact Hm. lia.
Qed.

(** [MakeDay] is inverted by the three field functions. *)
Lemma MakeDay_civil y m d tod :
  0 <= m <= 11 -> 1 <= d <= DaysInMonth y m -> 0 <= tod < msPerDay ->
  YearFromTime (MakeDate (MakeDay y m d) tod) = y /\
  MonthFromTime (MakeDate (MakeDay y m d) tod) = m /\
  DateFromTime (MakeDate (MakeDay y m d) tod) = d.
Proof.
  intros Hm Hd Ht.
  destruct (Day_MakeDate (MakeDay y m d) tod Ht) as [HD _].
  pose proof (month_start_bound y m Hm) as [Hs0 Hs1].
  assert (Hy : YearFromTime (MakeDate (MakeDay y m d) tod) = y).
  { unfold YearFromTime. rewrite HD. apply YearFromDay_unique.
    rewrite DayFromYear_succ, DaysInYear_leap, MakeDay_in_year by exact Hm. lia. }
  split; [exact Hy|].
  unfold MonthFromTime, DateFromTime, InLeapYear, DayWithinYear.
  rewrite Hy, HD, MakeDay_in_year by exact Hm.
  replace (DayFromYear y + month_start (leap y) m + d - 1 - DayFromYear y)
    with (month_start (leap y) m + d - 1) by lia.
  apply month_of_start; assumption.
Qed.

(** One month later: [setMonth] adds the length of the current month. *)
Lemma MakeDay_month_succ y m d :
  0 <= m <= 11 -> MakeDay y (m + 1) d = MakeDay y m d + DaysInMonth y m.
Proof.
  intros Hm. destruct (Z.eq_dec m 11) as [->|Hne].
  - rewrite (MakeDay_in_year y 11) by lia. unfold MakeDay.
    change ((11 + 1) / 12) with 1. change ((11 + 1) mod 12) with 0.
    rewrite DayFromYear_succ. pose proof (month_start_last y).
    unfold month_start at 1. lia.
  - rewrite !MakeDay_in_year by lia. rewrite month_start_next by lia. lia.
Qed.

(** One year later: 365 days, or 366 across a leap day. *)
Lemma MakeDay_year_succ y m d :
  0 <= m <= 11 ->
  MakeDay (y + 1) m d = MakeDay y m d + 365 + (if m <=? 1 then leap y else leap (y + 1)).
Proof.
  intros Hm. rewrite !MakeDay_in_year by lia.
  rewrite DayFromYear_succ, DaysInYear_leap.
  destruct (Z.leb_spec m 1);
    month_cases m Hc; try lia; unfold month_start; lia.
Qed.

End JSDateFacts.
Import JSDateFacts.

(** ** The ISO text of a time value *)

Module ISOFacts.
Import JSDate.

Lemma length_app (s1 s2 : string) :
  String.length (s1 +:+ s2) = (String.length s1 + String.length s2)%nat.
Proof. induction s1 as [|c s1 IH]; simpl; [reflexivity|]. now rewrite IH. Qed.

(** Two texts that start with pieces of one length share the pieces. *)
Lemma app_inv_length (s1 s2 t1 t2 : string) :
  String.length s1 = String.length s2 -> s1 +:+ t1 = s2 +:+ t2 -> s1 = s2 /\ t1 = t2.
Proof.
  revert s2. induction s1 as [|c s1 IH]; intros [|c' s2]; simpl; try discriminate.
  - auto.
  - intros [= Hlen] [= -> Happ]. destruct (IH _ Hlen Happ) as [-> ->]. auto.
Qed.

Lemma length_pad n z : String.length (pad n z) = n.
Proof.
  revert z. induction n as [|n IH]; intros z; simpl; [reflexivity|].
  rewrite length_app, IH. simpl. lia.
Qed.

Lemma digit_inj a b : digit a = digit b -> a mod 10 = b mod 10.
Proof.
  unfold digit. intros H.
  pose proof (Z.mod_pos_bound a 10 ltac:(lia)).
  pose proof (Z.mod_pos_bound b 10 ltac:(lia)).
  apply (f_equal N_of_ascii) in H.
  rewrite !N_ascii_embedding in H by lia. lia.
Qed.

Lemma pad_inj n a b :
  0 <= a < 10 ^ Z.of_nat n -> 0 <= b < 10 ^ Z.of_nat n -> pad n a = pad n b -> a = b.
Proof.
  revert a b. induction n as [|n IH]; intros a b Ha Hb H.
  - change (10 ^ Z.of_nat 0) with 1 in *. lia.
  - rewrite Nat2Z.inj_succ, Z.pow_succ_r in Ha, Hb by lia.
    cbn [pad] in H.
    apply app_inv_length in H as [Hhi [= Hlo%digit_inj]]; [|now rewrite !length_pad].
    apply IH in Hhi; [|divmod..]. divmod.
Qed.

Lemma length_year_string y :
  String.length (year_string y) = if (0 <=? y) && (y <=? 9999) then 4%nat else 7%nat.
Proof.
  unfold year_string.
  destruct ((0 <=? y) && (y <=? 9999)); [apply length_pad|].
  destruct (0 <=? y); now rewrite length_app, length_pad.
Qed.

Lemma year_string_inj y1 y2 :
  -1000000 < y1 < 1000000 -> -1000000 < y2 < 1000000 ->
  year_string y1 = year_string y2 -> y1 = y2.
Proof.
  intros H1 H2 H. pose proof (f_equal String.length H) as Hlen.
  rewrite !length_year_string in Hlen. unfold year_string in H.
  destruct (Z.leb_spec 0 y1), (Z.leb_spec y1 9999), (Z.leb_spec 0 y2), (Z.leb_spec y2 9999);
    cbn [andb] in *; try discriminate; try lia.
  - apply pad_inj in H; [exact H|change (10 ^ Z.of_nat 4) with 10000; lia..].
  - apply app_inv_length in H as [_ H]; [|reflexivity].
    apply pad_inj in H; [exact H|change (10 ^ Z.of_nat 6) with 1000000; lia..].
  - apply app_inv_length in H as [_ H]; [|reflexivity].
    apply pad_inj in H; [lia|change (10 ^ Z.of_nat 6) with 1000000; lia..].
Qed.

Lemma YearFromDay_range d :
  -100000000 <= d <= 100000000 -> -1000000 < YearFromDay d < 1000000.
Proof.
  intros Hd. unfold YearFromDay.
  destruct (_ <? _); [|destruct (_ <=? _)]; divmod.
Qed.

Lemma YearFromTime_range t :
  Z.abs t <= maxTime -> -1000000 < YearFromTime t < 1000000.
Proof.
  intros Ht. apply YearFromDay_range. unfold Day, maxTime, msPerDay in *. divmod.
Qed.

Lemma field_range t :
  0 <= MonthFromTime t + 1 < 10 ^ Z.of_nat 2 /\
  0 <= DateFromTime t < 10 ^ Z.of_nat 2 /\
  0 <= HourFromTime t < 10 ^ Z.of_nat 2 /\
  0 <= MinFromTime t < 10 ^ Z.of_nat 2 /\
  0 <= SecFromTime t < 10 ^ Z.of_nat 2 /\
  0 <= msFromTime t < 10 ^ Z.of_nat 3.
Proof.
  change (10 ^ Z.of_nat 2) with 100. change (10 ^ Z.of_nat 3) with 1000.
  destruct (civil_decompose t) as (Hm & Hd & _).
  pose proof (DaysInMonth_range (YearFromTime t) (MonthFromTime t)).
  unfold HourFromTime, MinFromTime, SecFromTime, msFromTime, msPerSecond.
  repeat split; try lia; divmod.
Qed.

(** The time within the day is its hour, minute, second and ms. *)
Lemma time_of_fields t1 t2 :
  HourFromTime t1 = HourFromTime t2 -> MinFromTime t1 = MinFromTime t2 ->
  SecFromTime t1 = SecFromTime t2 -> msFromTime t1 = msFromTime t2 ->
  TimeWithinDay t1 = TimeWithinDay t2.
Proof.
  unfold HourFromTime, MinFromTime, SecFromTime, msFromTime, TimeWithinDay,
    msPerHour, msPerMinute, msPerSecond, msPerDay.
  intros. divmod.
Qed.

(** [toISOString] tells the time values of the [Date] range apart. *)
Lemma ISOString_inj t1 t2 :
  Z.abs t1 <= maxTime -> Z.abs t2 <= maxTime ->
  ISOString t1 = ISOString t2 -> t1 = t2.
Proof.
  intros H1 H2 H.
  pose proof (YearFromTime_range t1 H1) as Hy1.
  pose proof (YearFromTime_range t2 H2) as Hy2.
  destruct (field_range t1) as (Hm1 & Hd1 & Hh1 & Hmi1 & Hs1 & Hms1).
  destruct (field_range t2) as (Hm2 & Hd2 & Hh2 & Hmi2 & Hs2 & Hms2).
  pose proof (f_equal String.length H) as Hlen.
  unfold ISOString in H, Hlen.
  repeat (rewrite !length_app in Hlen; rewrite ?length_pad in Hlen).
  assert (Hylen : String.length (year_string (YearFromTime t1)) =
                  String.length (year_string (YearFromTime t2))) by (simpl in Hlen; lia).
  apply app_inv_length in H as [Hy H]; [|exact Hylen].
  apply year_string_inj in Hy; [|assumption..].
  apply app_inv_length in H as [_ H]; [|reflexivity].
  apply app_inv_length in H as [Hm H]; [|now rewrite !length_pad].
  apply pad_inj in Hm; [|assumption..].
  apply app_inv_length in H as [_ H]; [|reflexivity].
  apply app_inv_length in H as [Hd H]; [|now rewrite !length_pad].
  apply pad_inj in Hd; [|assumption..].
  apply app_inv_length in H as [_ H]; [|reflexivity].
  apply app_inv_length in H as [Hh H]; [|now rewrite !length_pad].
  apply pad_inj in Hh; [|assumption..].
  apply app_inv_length in H as [_ H]; [|reflexivity].
  apply app_inv_length in H as [Hmi H]; [|now rewrite !length_pad].
  apply pad_inj in Hmi; [|assumption..].
  apply app_inv_length in H as [_ H]; [|reflexivity].
  apply app_inv_length in H as [Hs H]; [|now rewrite !length_pad].
  apply pad_inj in Hs; [|assumption..].
  apply app_inv_length in H as [_ H]; [|reflexivity].
  apply app_inv_length in H as [Hms _]; [|now rewrite !length_pad].
  apply pad_inj in Hms; [|assumption..].
  destruct (civil_decompose t1) as (_ & _ & HD1).
  destruct (civil_decompose t2) as (_ & _ & HD2).
  assert (HD : Day t1 = Day t2) by (rewrite HD1, HD2, Hy, Hd; f_equal; lia).
  pose proof (time_of_fields t1 t2 Hh Hmi Hs Hms) as Htod.
  destruct (time_split t1) as [E1 _]. destruct (time_split t2) as [E2 _].
  transitivity (MakeDate (Day t1) (TimeWithinDay t1)); [exact E1|].
  rewrite HD, Htod. symmetry. exact E2.
Qed.
Lemma iso_text_unique s t1 t2 : iso_text_of s t1 -> iso_text_of s t2 -> t1 = t2.
Proof. intros [H1 E1] [H2 E2]. apply ISOString_inj; congruence. Qed.

End ISOFacts.
Import ISOFacts.

(** ** Strings *)

Module JSStringFacts.
Import JSString.

Lemma is_space_lower c : is_space (lower_char c) = is_space c.
Proof. destruct c as [[] [] [] [] [] [] [] []]; reflexivity. Qed.

Lemma trimStart_blank ws : blank ws = true -> trimStart ws = EmptyString.
Proof.
  induction ws as [|c ws IH]; simpl; [reflexivity|].
  intros [Hc Hws]%andb_true_iff. rewrite Hc. auto.
Qed.

Lemma trimStart_blank_app ws x : blank ws = true -> trimStart (ws +:+ x) = trimStart x.
Proof.
  induction ws as [|c ws IH]; simpl; [reflexivity|].
  intros [Hc Hws]%andb_true_iff. rewrite Hc. auto.
Qed.

Lemma trimEnd_blank ws : blank ws = true -> trimEnd ws = EmptyString.
Proof.
  induction ws as [|c ws IH]; simpl; [reflexivity|].
  intros [Hc Hws]%andb_true_iff. rewrite IH, Hc by exact Hws. reflexivity.
Qed.

Lemma trimEnd_app_blank x ws : blank ws = true -> trimEnd (x +:+ ws) = trimEnd x.
Proof.
  intros Hws. induction x as [|c x IH]; simpl.
  - now apply trimEnd_blank.
  - now rewrite IH.
Qed.

Lemma trim_app_blank x ws : blank ws = true -> trim (x +:+ ws) = trim x.
Proof.
  intros Hws. unfold trim. induction x as [|c x IH]; simpl.
  - rewrite trimStart_blank by exact Hws. reflexivity.
  - destruct (is_space c); [exact IH|].
    change (String c (x +:+ ws)) with (String c x +:+ ws).
    now apply trimEnd_app_blank.
Qed.

(** White space around a string does not change its [trim]. *)
Lemma trim_padded before x after :
  blank before = true -> blank after = true ->
  trim (before +:+ x +:+ after) = trim x.
Proof.
  intros Hb Ha. rewrite <- (trim_app_blank x after Ha).
  unfold trim. now rewrite trimStart_blank_app.
Qed.

Lemma toLowerCase_trimStart s : trimStart (toLowerCase s) = toLowerCase (trimStart s).
Proof.
  induction s as [|c s IH]; simpl; [reflexivity|].
  rewrite is_space_lower. destruct (is_space c); [exact IH|reflexivity].
Qed.

Lemma toLowerCase_trimEnd s : trimEnd (toLowerCase s) = toLowerCase (trimEnd s).
Proof.
  induction s as [|c s IH]; simpl; [reflexivity|].
  rewrite IH, is_space_lower.
  destruct (trimEnd s); cbn; [destruct (is_space c)|]; reflexivity.
Qed.

(** [trim] and [toLowerCase] commute. *)
Lemma toLowerCase_trim s : trim (toLowerCase s) = toLowerCase (trim s).
Proof. unfold trim. now rewrite toLowerCase_trimStart, toLowerCase_trimEnd. Qed.

Lemma is_empty_toLowerCase s : is_empty (toLowerCase s) = is_empty s.
Proof. destruct s; reflexivity. Qed.

(** [trim] and the case mappings keep a string within ASCII. *)
Lemma plain_trimStart s : plain s = true -> plain (trimStart s) = true.
Proof.
  induction s as [|c s IH]; simpl; [reflexivity|].
  intros [Hc Hs]%andb_true_iff. destruct (is_space c); [auto|].
  simpl. now rewrite Hc, Hs.
Qed.

Lemma plain_trimEnd s : plain s = true -> plain (trimEnd s) = true.
Proof.
  induction s as [|c s IH]; simpl; [reflexivity|].
  intros [Hc Hs]%andb_true_iff. specialize (IH Hs).
  destruct (trimEnd s) as [|c' r].
  - destruct (is_space c); simpl; [reflexivity|now rewrite Hc].
  - change (plain (String c (String c' r))) with
      ((N_of_ascii c <? 128)%N && plain (String c' r)). now rewrite Hc, IH.
Qed.

Lemma plain_trim s : plain s = true -> plain (trim s) = true.
Proof. intros H. unfold trim. now apply plain_trimEnd, plain_trimStart. Qed.

Lemma plain_lower_char c :
  (N_of_ascii c <? 128)%N = true -> (N_of_ascii (lower_char c) <? 128)%N = true.
Proof. destruct c as [[] [] [] [] [] [] [] []]; intros H; try discriminate H; reflexivity. Qed.

Lemma plain_upper_char c :
  (N_of_ascii c <? 128)%N = true -> (N_of_ascii (upper_char c) <? 128)%N = true.
Proof. destruct c as [[] [] [] [] [] [] [] []]; intros H; try discriminate H; reflexivity. Qed.

Lemma plain_toLowerCase s : plain s = true -> plain (toLowerCase s) = true.
Proof.
  induction s as [|c s IH]; simpl; [reflexivity|].
  intros [Hc Hs]%andb_true_iff. now rewrite (plain_lower_char c Hc), IH.
Qed.

Lemma plain_toUpperCase s : plain s = true -> plain (toUpperCase s) = true.
Proof.
  induction s as [|c s IH]; simpl; [reflexivity|].
  intros [Hc Hs]%andb_true_iff. now rewrite (plain_upper_char c Hc), IH.
Qed.

(** White space is ASCII. *)
Lemma blank_plain s : blank s = true -> plain s = true.
Proof.
  induction s as [|c s IH]; simpl; [reflexivity|].
  intros [Hc Hs]%andb_true_iff. rewrite (IH Hs), andb_true_r.
  destruct c as [[] [] [] [] [] [] [] []]; try discriminate Hc; reflexivity.
Qed.

End JSStringFacts.
Import JSStringFacts.

(** ** The expiry computation *)

Module ExpiryFacts.
Import JSDate.

Lemma includes_plans plan :
  JS.includes ["monthly"; "yearly"] plan = true <-> plan = "monthly" \/ plan = "yearly".
Proof.
  unfold JS.includes. cbn [existsb]. rewrite !orb_true_iff, !String.eqb_eq.
  intuition discriminate.
Qed.

Lemma month_span_range t : 28 <= month_span t <= 31.
Proof. apply DaysInMonth_range. Qed.

Lemma year_span_range t : 365 <= year_span t <= 366.
Proof.
  unfold year_span.
  destruct (JSDate.MonthFromTime t <=? 1);
    [destruct (leap_cases (YearFromTime t))|destruct (leap_cases (YearFromTime t + 1))]; lia.
Qed.

Lemma plan_span_range plan t : 28 <= plan_span plan t <= 366.
Proof.
  unfold plan_span. pose proof (month_span_range t). pose proof (year_span_range t).
  destruct (String.eqb plan "monthly"); lia.
Qed.

(** A time value moved by whole days keeps its time within the day. *)
Lemma shift_days t k :
  t + k * msPerDay = MakeDate (Day t + k) (TimeWithinDay t).
Proof. destruct (time_split t) as [Ht _]. unfold MakeDate in *. lia. Qed.

Lemma setMonth_next tz now :
  setMonth tz (Some now) (plus_one (getMonth tz (Some now))) =
  TimeClip (UTC tz (LocalTime tz now + month_span (LocalTime tz now) * msPerDay)).
Proof.
  unfold setMonth, getMonth, plus_one, month_span.
  destruct (civil_decompose (LocalTime tz now)) as (Hm & _ & HD).
  rewrite MakeDay_month_succ by exact Hm. rewrite <- HD.
  now rewrite <- shift_days.
Qed.

Lemma setFullYear_next tz now :
  setFullYear tz (Some now) (plus_one (getFullYear tz (Some now))) =
  TimeClip (UTC tz (LocalTime tz now + year_span (LocalTime tz now) * msPerDay)).
Proof.
  unfold setFullYear, getFullYear, plus_one, year_span.
  destruct (civil_decompose (LocalTime tz now)) as (Hm & _ & HD).
  rewrite MakeDay_year_succ by exact Hm.
  now rewrite <- Z.add_assoc, <- HD, <- shift_days.
Qed.

Lemma TimeClip_some t : Z.abs t <= maxTime -> TimeClip t = Some t.
Proof.
  intros H. unfold TimeClip. destruct (Z.leb_spec (Z.abs t) maxTime); [reflexivity|lia].
Qed.

(** The expiry of a valid plan: the instant of the local time of the
    start moved by [plan_span] days. *)
Lemma compute_expires_span tz plan now :
  JS.includes ["monthly"; "yearly"] plan = true ->
  Z.abs now <= maxTime ->
  compute_expires tz plan (Some now) = TimeClip (UTC tz (local_expiry tz plan now)).
Proof.
  intros Hp Hr. unfold compute_expires, Date_copy, local_expiry, plan_span.
  rewrite (TimeClip_some now Hr).
  apply includes_plans in Hp as [-> | ->].
  - change ("monthly" =? "monthly")%string with true.
    change ("monthly" =? "yearly")%string with false. cbv iota. apply setMonth_next.
  - change ("yearly" =? "monthly")%string with false.
    change ("yearly" =? "yearly")%string with true. cbv iota. apply setFullYear_next.
Qed.

Lemma compute_expires_invalid tz plan now :
  maxTime < Z.abs now -> compute_expires tz plan (Some now) = None.
Proof.
  intros Hr. unfold compute_expires, Date_copy, TimeClip.
  destruct (Z.leb_spec (Z.abs now) maxTime) as [?|_]; [lia|].
  destruct (String.eqb plan "monthly"), (String.eqb plan "yearly"); reflexivity.
Qed.

Lemma compute_expires_value tz plan now exp :
  JS.includes ["monthly"; "yearly"] plan = true ->
  compute_expires tz plan (Some now) = Some exp ->
  exp = UTC tz (local_expiry tz plan now).
Proof.
  intros Hp He.
  destruct (Z.le_gt_cases (Z.abs now) maxTime) as [Hr|Hr].
  - rewrite compute_expires_span in He by assumption.
    unfold TimeClip in He. destruct (_ <=? _) in He; [|discriminate].
    now injection He as <-.
  - rewrite compute_expires_invalid in He by lia. discriminate.
Qed.

(** The instant of the local expiry, by the two offsets. *)
Lemma UTC_local_expiry tz plan now :
  UTC tz (local_expiry tz plan now) =
  now + plan_span plan (LocalTime tz now) * msPerDay +
  (tz now true - tz (local_expiry tz plan now) false).
Proof. unfold UTC, local_expiry, LocalTime. lia. Qed.

Lemma UTC_local_expiry_steady tz plan now :
  steady tz plan now ->
  UTC tz (local_expiry tz plan now) = now + plan_span plan (LocalTime tz now) * msPerDay.
Proof. intros H. rewrite UTC_local_expiry, H. lia. Qed.

Section Offsets.
Variable tz : Z -> bool -> Z.
Hypothesis Hrange : forall t isUTC, - msPerDay < tz t isUTC < msPerDay.

(** The expiry is at least 26 days and at most 368 days after the
    start, whatever the offsets. *)
Lemma UTC_local_expiry_range plan now :
  now + 26 * msPerDay < UTC tz (local_expiry tz plan now) < now + 368 * msPerDay.
Proof.
  rewrite UTC_local_expiry.
  pose proof (plan_span_range plan (LocalTime tz now)).
  pose proof (Hrange now true). pose proof (Hrange (local_expiry tz plan now) false).
  unfold msPerDay in *. lia.
Qed.

(** Whenever an expiry is computed for a valid plan it is the instant
    of the local expiry, and later than the start. *)
Lemma compute_expires_later plan now exp :
  JS.includes ["monthly"; "yearly"] plan = true ->
  compute_expires tz plan (Some now) = Some exp ->
  exp = UTC tz (local_expiry tz plan now) /\ now < exp.
Proof.
  intros Hp He.
  destruct (Z.le_gt_cases (Z.abs now) maxTime) as [Hr|Hr].
  - rewrite compute_expires_span in He by assumption.
    unfold TimeClip in He. destruct (_ <=? _) in He; [|discriminate].
    injection He as <-. split; [reflexivity|].
    pose proof (UTC_local_expiry_range plan now). unfold msPerDay in *. lia.
  - rewrite compute_expires_invalid in He by lia. discriminate.
Qed.

Lemma compute_expires_clipped plan now exp :
  JS.includes ["monthly"; "yearly"] plan = true ->
  compute_expires tz plan (Some now) = Some exp ->
  Z.abs now <= maxTime /\ Z.abs exp <= maxTime.
Proof.
  intros Hp He.
  destruct (Z.le_gt_cases (Z.abs now) maxTime) as [Hr|Hr].
  - split; [exact Hr|]. rewrite compute_expires_span in He by assumption.
    unfold TimeClip in He.
    destruct (Z.leb_spec (Z.abs (UTC tz (local_expiry tz plan now))) maxTime)
      as [Hle|_]; [|discriminate].
    now injection He as <-.
  - rewrite compute_expires_invalid in He by lia. discriminate.
Qed.

Lemma compute_expires_in_range plan now :
  JS.includes ["monthly"; "yearly"] plan = true ->
  - maxTime <= now <= maxTime - 368 * msPerDay ->
  compute_expires tz plan (Some now) = Some (UTC tz (local_expiry tz plan now)).
Proof.
  intros Hp Hr. pose proof (UTC_local_expiry_range plan now) as Hb.
  unfold maxTime, msPerDay in Hr, Hb.
  rewrite compute_expires_span by (unfold maxTime; first [assumption|lia]).
  apply TimeClip_some. unfold maxTime. lia.
Qed.
End Offsets.

Lemma MakeDay_december y d : MakeDay y (11 + 1) d = MakeDay (y + 1) 0 d.
Proof.
  unfold MakeDay. change ((11 + 1) / 12) with 1. change ((11 + 1) mod 12) with 0.
  change (0 / 12) with 0. change (0 mod 12) with 0.
  replace (y + 1 + 0) with (y + 1) by lia. unfold month_start. lia.
Qed.

(** The calendar date one month later, with the rollover of [MakeDay]. *)
Lemma month_later_civil t :
  civil (t + month_span t * msPerDay) = month_later (civil t) /\
  TimeWithinDay (t + month_span t * msPerDay) = TimeWithinDay t.
Proof.
  destruct (civil_decompose t) as (Hm & Hd & HD).
  destruct (time_split t) as [_ Htod].
  rewrite shift_days. unfold month_span. rewrite HD, <- MakeDay_month_succ by exact Hm.
  split; [|apply Day_MakeDate, Htod].
  unfold civil, month_later.
  set (y := YearFromTime t) in *. set (m := MonthFromTime t) in *.
  set (d := DateFromTime t) in *. clearbody y m d.
  pose proof (DaysInMonth_range y m).
  destruct (Z.eqb_spec m 11) as [->|Hne].
  - rewrite MakeDay_december.
    change (DaysInMonth (y + 1) 0) with 31. unfold DaysInMonth in Hd.
    destruct (Z.leb_spec d 31); [|lia].
    destruct (MakeDay_civil (y + 1) 0 d (TimeWithinDay t)) as (-> & -> & ->);
      [lia|unfold DaysInMonth; lia|exact Htod|reflexivity].
  - destruct (Z.leb_spec d (DaysInMonth y (m + 1))) as [Hle|Hgt].
    + destruct (MakeDay_civil y (m + 1) d (TimeWithinDay t)) as (-> & -> & ->);
        [lia|lia|exact Htod|reflexivity].
    + assert (Hshort : DaysInMonth y (m + 1) < 31) by lia.
      assert (Hm2 : 0 <= m + 1 <= 10 /\ DaysInMonth y (m + 1 + 1) = 31).
      { clear - Hm Hne Hshort. month_cases m Hc; try lia;
          match goal with
          | H : context [DaysInMonth _ (?a + 1)] |- _ =>
              let v := eval vm_compute in (a + 1) in change (a + 1) with v in *
          end; unfold DaysInMonth in *; try lia;
          (split; [lia|reflexivity]). }
      destruct Hm2 as [Hm1 H31].
      pose proof (DaysInMonth_range y (m + 1)).
      replace (MakeDay y (m + 1) d)
        with (MakeDay y (m + 1 + 1) (d - DaysInMonth y (m + 1))).
      2:{ rewrite MakeDay_month_succ by lia.
          rewrite <- MakeDay_date. f_equal. lia. }
      destruct (MakeDay_civil y (m + 1 + 1) (d - DaysInMonth y (m + 1)) (TimeWithinDay t))
        as (-> & -> & ->); [lia|lia|exact Htod|reflexivity].
Qed.
(** The calendar date one year later. *)
Lemma year_later_civil t :
  civil (t + year_span t * msPerDay) = year_later (civil t) /\
  TimeWithinDay (t + year_span t * msPerDay) = TimeWithinDay t.
Proof.
  destruct (civil_decompose t) as (Hm & Hd & HD).
  destruct (time_split t) as [_ Htod].
  rewrite shift_days. unfold year_span.
  replace (Day t + (365 + (if MonthFromTime t <=? 1
                           then leap (YearFromTime t)
                           else leap (YearFromTime t + 1))))
    with (MakeDay (YearFromTime t + 1) (MonthFromTime t) (DateFromTime t))
    by (rewrite MakeDay_year_succ by exact Hm; lia).
  split; [|apply Day_MakeDate, Htod].
  unfold civil, year_later.
  set (y := YearFromTime t) in *. set (m := MonthFromTime t) in *.
  set (d := DateFromTime t) in *. clearbody y m d.
  destruct (Z.eqb_spec m 1) as [->|Hne]; cbn [andb].
  - unfold DaysInMonth in Hd.
    destruct (Z.eqb_spec d 29) as [->|Hd29].
    + assert (Hl : leap y = 1) by (destruct (leap_cases y); lia).
      apply leap_succ in Hl.
      replace (MakeDay (y + 1) 1 29) with (MakeDay (y + 1) 2 1).
      2:{ change 2 with (1 + 1). rewrite MakeDay_month_succ by lia.
          unfold DaysInMonth. rewrite Hl.
          change 29 with (1 + 28). rewrite MakeDay_date. lia. }
      destruct (MakeDay_civil (y + 1) 2 1 (TimeWithinDay t)) as (-> & -> & ->);
        [lia|unfold DaysInMonth; lia|exact Htod|reflexivity].
    + destruct (leap_cases y), (leap_cases (y + 1)).
      all: destruct (MakeDay_civil (y + 1) 1 d (TimeWithinDay t)) as (-> & -> & ->);
        [lia|unfold DaysInMonth; lia|exact Htod|reflexivity].
  - assert (Hdim : DaysInMonth (y + 1) m = DaysInMonth y m).
    { unfold DaysInMonth. destruct m as [|p|p]; try reflexivity.
      repeat (destruct p as [p|p|]; try reflexivity); lia. }
    destruct (MakeDay_civil (y + 1) m d (TimeWithinDay t)) as (-> & -> & ->);
      [lia|lia|exact Htod|reflexivity].
Qed.

Lemma plan_later_civil plan t :
  civil (t + plan_span plan t * msPerDay) = plan_later plan (civil t) /\
  TimeWithinDay (t + plan_span plan t * msPerDay) = TimeWithinDay t.
Proof.
  unfold plan_span, plan_later. destruct (String.eqb plan "monthly").
  - apply month_later_civil.
  - apply year_later_civil.
Qed.

End ExpiryFacts.
Import ExpiryFacts.

(** ** Runs of the Blobs revision *)

Lemma differs_refl s : Env.unset s = false -> Env.differs s s = false.
Proof.
  destruct s as [x|]; [intros _|discriminate]. cbn. now rewrite String.eqb_refl.
Qed.

Lemma differs_false a b : Env.differs a b = false -> a = b.
Proof.
  destruct a as [x|], b as [y|]; cbn; try discriminate; [|reflexivity].
  intros H%negb_false_iff%String.eqb_eq. now subst.
Qed.

Lemma get_prop_string_object payload k s :
  JS.get_prop payload k = Normal (VString s) -> exists ps, payload = VObject ps.
Proof. destruct payload; cbn; try discriminate. eauto. Qed.

Lemma not_strict_eq_string_false v s :
  JS.not_strict_eq_string v s = false <-> v = VString s.
Proof.
  destruct v; cbn; try (split; [discriminate|congruence]).
  rewrite negb_false_iff, String.eqb_eq. split; congruence.
Qed.

Lemma normalize_inv rt payload n :
  normalize rt payload = Normal n ->
  exists p' e',
    JS.ToString rt (JS.or_else (field payload "plan") (VString "")) = Normal p' /\
    JS.call_trim rt (JS.or_else (field payload "email") (VString "")) = Normal e' /\
    JS.call_trim rt (JS.or_else (field payload "wallet") (VString "")) =
      Normal (id_wallet n) /\
    id_email n = JS.toLowerCase rt e' /\
    id_plan n = JS.toLowerCase rt p'.
Proof.
  unfold normalize.
  destruct (JS.ToString rt (JS.or_else (field payload "plan") _)) as [p'|]; [|discriminate].
  destruct (JS.call_trim rt (JS.or_else (field payload "email") _)) as [e'|]; [|discriminate].
  destruct (JS.call_trim rt (JS.or_else (field payload "wallet") _)) as [w'|]; [|discriminate].
  intros [= <-]. exists p', e'. cbn. auto.
Qed.

Lemma identity_key_code rt email wallet :
  store_key rt email wallet = Spec.identity_key rt email wallet.
Proof. unfold store_key, Spec.identity_key. now destruct (JSString.is_empty email). Qed.

(** The keys of the handlers start with "email:" or "wallet:": the
    client accepts them as long as they are not longer than 600 bytes. *)
Lemma valid_key_identity rt email wallet :
  Blobs.valid_key (Spec.identity_key rt email wallet) =
  (Z.of_nat (String.length (Spec.identity_key rt email wallet)) <=? 600).
Proof.
  unfold Spec.identity_key, Blobs.valid_key.
  destruct (JSString.is_empty email).
  - change ("wallet:" +:+ JS.toLowerCase rt wallet)
      with (String "w" ("allet:" +:+ JS.toLowerCase rt wallet)). reflexivity.
  - change ("email:" +:+ email) with (String "e" ("mail:" +:+ email)). reflexivity.
Qed.

Section Accepted.
Variables (rt : Runtime) (host : Host) (event : Event.t) (n : identity) (exp : Z).

(** The run of the Blobs revision on a valid notification: the record
    is written when the client accepts the key, and the refusal of
    the key is caught. *)
Lemma blobs_run payload st :
  notified rt host event payload n ->
  plan_valid n = true -> identity_present n = true ->
  compute_expires (tza host) (id_plan n) (Some (clock host)) = Some exp ->
  let key := Spec.identity_key rt (id_email n) (id_wallet n) in
  WebhookBlobs.handler rt host event st =
    if Blobs.valid_key key
    then (Normal (json 200 (VObject [("ok", VBool true);
                                     ("saved", VBool true);
                                     ("key", VString key);
                                     ("expires_at", VString (JSDate.ISOString exp))])),
          <[key := JS.to_json (member_of payload n (JSDate.ISOString (clock host))
                                         (JSDate.ISOString exp))]> st)
    else (Normal (Response.plain 500 "Internal Server Error"), st).
Proof.
  intros [[Hm Hs Hsig] Hparse Hev Hn] Hplan Hid Hexp key.
  destruct (get_prop_string_object _ _ _ Hev) as [ps ->].
  apply normalize_inv in Hn as (p' & e' & Hps & He & Hw & Hemail & Hp).
  unfold plan_valid in Hplan. unfold identity_present in Hid.
  apply negb_true_iff in Hid.
  unfold WebhookBlobs.handler.
  cbv [JS.try_catch JS.bind JS.lift JS.ret Blobs.setJSON].
  fold (signature_of event).
  rewrite Hm, Hsig, Hs, (differs_refl _ Hs), Hparse.
  cbn [negb orb String.eqb Ascii.eqb Bool.eqb].
  cbn [JS.get_prop field] in *. injection Hev as Hev.
  cbv iota. rewrite Hev.
  cbv [JS.not_strict_eq_string]. rewrite String.eqb_refl. cbn [negb].
  rewrite Hps, He, Hw, <- Hp, <- Hemail, Hplan, Hid. cbn [negb toISOString].
  rewrite Hexp. cbn [toISOString]. rewrite identity_key_code. fold key.
  destruct (Blobs.valid_key key); reflexivity.
Qed.

Lemma blobs_saved payload st :
  notified rt host event payload n ->
  plan_valid n = true -> identity_present n = true ->
  compute_expires (tza host) (id_plan n) (Some (clock host)) = Some exp ->
  Blobs.valid_key (Spec.identity_key rt (id_email n) (id_wallet n)) = true ->
  WebhookBlobs.handler rt host event st =
    (Normal (json 200 (VObject [("ok", VBool true);
                                ("saved", VBool true);
                                ("key", VString (Spec.identity_key rt (id_email n)
                                                   (id_wallet n)));
                                ("expires_at", VString (JSDate.ISOString exp))])),
     <[Spec.identity_key rt (id_email n) (id_wallet n) :=
         JS.to_json (member_of payload n (JSDate.ISOString (clock host))
                               (JSDate.ISOString exp))]> st).
Proof.
  intros Hn Hplan Hid Hexp Hkey.
  rewrite (blobs_run payload st Hn Hplan Hid Hexp). cbv zeta. now rewrite Hkey.
Qed.

Lemma blobs_refused_key payload st :
  notified rt host event payload n ->
  plan_valid n = true -> identity_present n = true ->
  compute_expires (tza host) (id_plan n) (Some (clock host)) = Some exp ->
  Blobs.valid_key (Spec.identity_key rt (id_email n) (id_wallet n)) = false ->
  WebhookBlobs.handler rt host event st =
    (Normal (Response.plain 500 "Internal Server Error"), st).
Proof.
  intros Hn Hplan Hid Hexp Hkey.
  rewrite (blobs_run payload st Hn Hplan Hid Hexp). cbv zeta. now rewrite Hkey.
Qed.
End Accepted.

Lemma unset_or_differs a b :
  Env.unset b = false -> Env.unset a || Env.differs a b = false -> a = b.
Proof. intros _ [_ H]%orb_false_iff. now apply differs_false. Qed.

(** Every run of the Blobs revision leaves the store as it was, or is
    the run of [blobs_saved]. *)
Lemma blobs_inversion rt host event st r st' :
  WebhookBlobs.handler rt host event st = (r, st') ->
  st' = st \/
  exists payload n exp,
    notified rt host event payload n /\
    plan_valid n = true /\ identity_present n = true /\
    compute_expires (tza host) (id_plan n) (Some (clock host)) = Some exp /\
    Blobs.valid_key (Spec.identity_key rt (id_email n) (id_wallet n)) = true.
Proof.
  intros H. unfold WebhookBlobs.handler in H.
  cbv [JS.try_catch JS.bind JS.lift JS.ret Blobs.setJSON] in H.
  fold (signature_of event) in H.
  destruct (negb (String.eqb (Event.httpMethod event) "POST")) eqn:Hm;
    [left; congruence|].
  destruct (Env.unset (HELIO_WEBHOOK_SECRET host)) eqn:Hs; [left; congruence|].
  destruct (Env.unset (signature_of event) ||
            Env.differs (signature_of event) (HELIO_WEBHOOK_SECRET host)) eqn:Hsig;
    [left; congruence|].
  destruct (parse_body rt event) as [payload|] eqn:Hparse; [|left; congruence].
  destruct (JS.get_prop payload "event") as [ev|] eqn:Hev; [|left; congruence].
  destruct (JS.not_strict_eq_string ev "payment_succeeded") eqn:Hne; [left; congruence|].
  apply not_strict_eq_string_false in Hne as ->.
  destruct (get_prop_string_object _ _ _ Hev) as [ps ->].
  cbn [JS.get_prop] in H.
  destruct (JS.ToString rt (JS.or_else (JS.lookup_prop "plan" ps) (VString "")))
    as [p'|] eqn:Hps; [|left; congruence].
  destruct (JS.call_trim rt (JS.or_else (JS.lookup_prop "email" ps) (VString "")))
    as [e'|] eqn:He; [|left; congruence].
  destruct (JS.call_trim rt (JS.or_else (JS.lookup_prop "wallet" ps) (VString "")))
    as [w'|] eqn:Hw; [|left; congruence].
  match type of H with
  | context [negb (JS.includes ?l ?p)] => destruct (JS.includes l p) eqn:Hplan
  end; cbn [negb] in H; [|left; congruence].
  destruct (JSString.is_empty (JS.toLowerCase rt e') && JSString.is_empty w') eqn:Hid;
    [left; congruence|].
  cbn [toISOString] in H.
  match type of H with
  | context [compute_expires ?tz ?p ?t] => destruct (compute_expires tz p t) as [exp|] eqn:Hexp
  end; cbn [toISOString] in H; [|left; congruence].
  rewrite identity_key_code in H.
  destruct (Blobs.valid_key (Spec.identity_key rt (JS.toLowerCase rt e') w')) eqn:Hkey;
    [|left; congruence].
  right.
  exists (VObject ps),
    {| id_plan := JS.toLowerCase rt p'; id_email := JS.toLowerCase rt e'; id_wallet := w' |},
    exp.
  split; [|split; [exact Hplan|split; [|split; [exact Hexp|exact Hkey]]]].
  - split; [split| | |].
    + apply negb_false_iff, String.eqb_eq in Hm. exact Hm.
    + exact Hs.
    + now apply unset_or_differs.
    + exact Hparse.
    + exact Hev.
    + unfold normalize. cbn [field]. now rewrite Hps, He, Hw.
  - unfold identity_present. cbn [id_email id_wallet]. now rewrite Hid.
Qed.

(** ** JSON values *)

Lemma to_json_object_cons k x ps :
  JS.to_json (VObject ((k, x) :: ps)) =
  VObject (match JS.to_json x with
           | VUndefined => props_of (JS.to_json (VObject ps))
           | j => (k, j) :: props_of (JS.to_json (VObject ps))
           end).
Proof. reflexivity. Qed.

(** A property that JSON keeps is read back from the JSON text. *)
Lemma field_to_json ps k :
  JS.to_json (JS.lookup_prop k ps) <> VUndefined ->
  field (JS.to_json (VObject ps)) k = JS.to_json (JS.lookup_prop k ps).
Proof.
  induction ps as [|[k' x] ps IH]; intros Hne.
  - now destruct Hne.
  - rewrite to_json_object_cons. cbn [JS.lookup_prop] in *.
    destruct (String.eqb k k') eqn:E.
    + destruct (JS.to_json x) eqn:Ex; try (now destruct Hne);
        cbn [field JS.lookup_prop]; now rewrite E.
    + specialize (IH Hne). unfold field in IH.
      destruct (JS.to_json (VObject ps)) eqn:Eps; try discriminate.
      all: destruct (JS.to_json x); cbn [field JS.lookup_prop props_of];
        rewrite ?E; exact IH.
Qed.

Lemma to_json_truthy v : JS.truthy v = true -> JS.to_json v <> VUndefined.
Proof.
  destruct v as [| |b|n|s|xs|ps]; cbn; try discriminate.
  destruct n; discriminate.
Qed.

Lemma to_json_or_null v : JS.to_json (JS.or_else v VNull) <> VUndefined.
Proof.
  unfold JS.or_else. destruct (JS.truthy v) eqn:E; [now apply to_json_truthy|discriminate].
Qed.

Lemma to_json_str_or_null s : JS.to_json (JS.str_or_null s) = JS.str_or_null s.
Proof. unfold JS.str_or_null. now destruct (JSString.is_empty s). Qed.

Lemma truthy_str_or_null s : JS.truthy (JS.str_or_null s) = negb (JSString.is_empty s).
Proof. unfold JS.str_or_null. now destruct s. Qed.

(** The fields of the record the Blobs revision keeps. *)
Lemma member_fields payload n s e :
  let rec := JS.to_json (member_of payload n s e) in
  field rec "email" = JS.str_or_null (id_email n) /\
  field rec "wallet" = JS.str_or_null (id_wallet n) /\
  field rec "plan" = VString (id_plan n) /\
  field rec "amount" = JS.to_json (JS.or_else (field payload "amount") VNull) /\
  field rec "currency" = JS.to_json (JS.or_else (field payload "currency") VNull) /\
  field rec "started_at" = VString s /\
  field rec "expires_at" = VString e.
Proof.
  cbv zeta. unfold member_of.
  repeat split.
  all: rewrite field_to_json; cbn [JS.lookup_prop String.eqb Ascii.eqb Bool.eqb];
    rewrite ?to_json_str_or_null; try reflexivity; try discriminate;
    try apply to_json_or_null.
  all: unfold JS.str_or_null; destruct (JSString.is_empty _); discriminate.
Qed.

Lemma member_truthy payload n s e : JS.truthy (JS.to_json (member_of payload n s e)) = true.
Proof. reflexivity. Qed.

(** Writing a JSON value as JSON changes nothing. *)
Lemma to_json_idem v : JS.to_json (JS.to_json v) = JS.to_json v.
Proof.
  induction v as [| |b|n|s|xs IH|ps IH] using value_nested_ind; try reflexivity.
  - destruct n; reflexivity.
  - cbn [JS.to_json]. f_equal. rewrite map_map.
    induction IH as [|x xs Hx _ IHxs]; [reflexivity|].
    cbn [map]. f_equal; [|exact IHxs].
    destruct (JS.to_json x) eqn:E; try reflexivity; now rewrite Hx.
  - induction IH as [|[k x] ps Hx _ IHps]; [reflexivity|].
    cbn [snd] in Hx. rewrite to_json_object_cons.
    destruct (JS.to_json (VObject ps)) as [| | | | | |qs] eqn:Eps; try discriminate.
    cbn [props_of].
    destruct (JS.to_json x) eqn:E; try exact IHps.
    all: rewrite to_json_object_cons, Hx, IHps; reflexivity.
Qed.

(** ** Runs of the three revisions and of the query *)

(** *** The check of the secret, in the three revisions *)

Ltac open_handler :=
  cbv [WebhookBlobs.handler WebhookSupabase.handler WebhookPlaceholder.handler
       JS.try_catch JS.bind JS.lift JS.ret Blobs.setJSON Supabase.call];
  match goal with
  | |- context [Env.or_else (Event.headers ?e !! _) (Event.headers ?e !! _)] =>
      fold (signature_of e)
  end.

Section Auth.
Variables (rt : Runtime) (host : Host) (event : Event.t).
Hypothesis Hpost : Event.httpMethod event = "POST".

Lemma blobs_misconfigured st :
  Env.unset (HELIO_WEBHOOK_SECRET host) = true ->
  WebhookBlobs.handler rt host event st =
    (Normal (Response.plain 500 "Server misconfigured"), st).
Proof. intros Hs. open_handler. now rewrite Hpost, Hs. Qed.

Lemma supabase_misconfigured c :
  Env.unset (HELIO_WEBHOOK_SECRET host) = true ->
  WebhookSupabase.handler rt host event c =
    (Normal (json 500 (VObject [("ok", VBool false);
                                ("error", VString "Missing HELIO_WEBHOOK_SECRET")])), c).
Proof. intros Hs. open_handler. now rewrite Hpost, Hs. Qed.

Lemma placeholder_misconfigured u :
  Env.unset (HELIO_WEBHOOK_SECRET host) = true ->
  WebhookPlaceholder.handler rt host event u =
    (Normal (Response.plain 500 "Server misconfigured"), u).
Proof. intros Hs. open_handler. now rewrite Hpost, Hs. Qed.

Lemma rejects_signature :
  Env.unset (HELIO_WEBHOOK_SECRET host) = false ->
  signature_of event <> HELIO_WEBHOOK_SECRET host ->
  Env.unset (signature_of event) ||
    Env.differs (signature_of event) (HELIO_WEBHOOK_SECRET host) = true.
Proof.
  intros Hs Hne.
  destruct (Env.unset (signature_of event) || Env.differs _ _) eqn:E; [reflexivity|].
  destruct Hne. now apply unset_or_differs.
Qed.

Lemma blobs_unauthorized st :
  Env.unset (HELIO_WEBHOOK_SECRET host) = false ->
  signature_of event <> HELIO_WEBHOOK_SECRET host ->
  WebhookBlobs.handler rt host event st = (Normal (Response.plain 401 "Unauthorized"), st).
Proof.
  intros Hs Hne. open_handler. now rewrite Hpost, Hs, (rejects_signature Hs Hne).
Qed.

Lemma supabase_unauthorized c :
  Env.unset (HELIO_WEBHOOK_SECRET host) = false ->
  signature_of event <> HELIO_WEBHOOK_SECRET host ->
  WebhookSupabase.handler rt host event c =
    (Normal (json 401 (VObject [("ok", VBool false); ("error", VString "Unauthorized")])), c).
Proof.
  intros Hs Hne. open_handler. now rewrite Hpost, Hs, (rejects_signature Hs Hne).
Qed.

Lemma placeholder_unauthorized u :
  Env.unset (HELIO_WEBHOOK_SECRET host) = false ->
  signature_of event <> HELIO_WEBHOOK_SECRET host ->
  WebhookPlaceholder.handler rt host event u =
    (Normal (Response.plain 401 "Unauthorized"), u).
Proof.
  intros Hs Hne. open_handler. now rewrite Hpost, Hs, (rejects_signature Hs Hne).
Qed.
End Auth.

(** After the check: no run of an authentic request ends in one of the
    two refusals of the check. *)
Ltac pass_check Ha :=
  destruct Ha as [Hm Hs Hsig]; open_handler;
  rewrite Hm, Hsig, Hs, (differs_refl _ Hs);
  cbn [negb orb String.eqb Ascii.eqb Bool.eqb]; cbv iota.

Ltac leaves H :=
  repeat match type of H with
         | context [match ?x with _ => _ end] =>
             lazymatch x with
             | context [match _ with _ => _ end] => fail
             | _ => destruct x eqn:?; cbv beta iota in H
             end
         end.

Lemma blobs_passes rt host event st resp st' :
  authentic host event ->
  WebhookBlobs.handler rt host event st = (Normal resp, st') ->
  Response.statusCode resp <> 401 /\ resp <> Response.plain 500 "Server misconfigured".
Proof.
  intros Ha. pass_check Ha. intros H. leaves H.
  all: apply (f_equal fst) in H; cbn [fst] in H; injection H as <-;
    unfold json, Response.plain; split; [cbn [Response.statusCode]|]; discriminate.
Qed.

Lemma supabase_passes rt host event c resp c' :
  authentic host event ->
  WebhookSupabase.handler rt host event c = (Normal resp, c') ->
  Response.statusCode resp <> 401 /\
  resp <> json 500 (VObject [("ok", VBool false);
                             ("error", VString "Missing HELIO_WEBHOOK_SECRET")]).
Proof.
  intros Ha. pass_check Ha. intros H. leaves H.
  all: apply (f_equal fst) in H; cbn [fst] in H; injection H as <-;
    unfold json, Response.plain; split; [cbn [Response.statusCode]|]; discriminate.
Qed.

Lemma placeholder_passes rt host event u resp u' :
  authentic host event ->
  WebhookPlaceholder.handler rt host event u = (Normal resp, u') ->
  Response.statusCode resp <> 401 /\ resp <> Response.plain 500 "Server misconfigured".
Proof.
  intros Ha. pass_check Ha. intros H. leaves H.
  all: apply (f_equal fst) in H; cbn [fst] in H; injection H as <-;
    unfold json, Response.plain; split; [cbn [Response.statusCode]|]; discriminate.
Qed.

(** *** An absent or empty body *)

Lemma parse_no_body rt event :
  no_body event -> parse_body rt event = match JSON_parse rt "{}" with
                                         | Some v => Normal v
                                         | None => Throw SyntaxError
                                         end.
Proof. unfold parse_body. now intros [-> | ->]. Qed.

Section EmptyBody.
Variables (rt : Runtime) (host : Host) (event : Event.t).
Hypothesis Hauth : authentic host event.
Hypothesis Hbody : no_body event.
Hypothesis Hparse : JSON_parse rt "{}" = Some (VObject []).

Lemma blobs_empty_body st : WebhookBlobs.handler rt host event st = (Normal ignored, st).
Proof.
  pose proof Hauth as Ha. pass_check Ha.
  now rewrite (parse_no_body rt event Hbody), Hparse.
Qed.

Lemma supabase_empty_body c : WebhookSupabase.handler rt host event c = (Normal ignored, c).
Proof.
  pose proof Hauth as Ha. pass_check Ha.
  now rewrite (parse_no_body rt event Hbody), Hparse.
Qed.

Lemma placeholder_empty_body u :
  WebhookPlaceholder.handler rt host event u = (Normal ignored, u).
Proof.
  pose proof Hauth as Ha. pass_check Ha.
  now rewrite (parse_no_body rt event Hbody), Hparse.
Qed.
End EmptyBody.

(** *** The validation step of the Blobs revision *)

Ltac enter_notified Hn :=
  let Ha := fresh "Ha" in
  let Hparse := fresh "Hparse" in
  let Hev := fresh "Hev" in
  let Hf := fresh "Hf" in
  destruct Hn as [Ha Hparse Hev Hf];
  let ps := fresh "ps" in
  destruct (get_prop_string_object _ _ _ Hev) as [ps ->];
  let p' := fresh "p'" in
  let e' := fresh "e'" in
  apply normalize_inv in Hf as (p' & e' & Hps & He & Hw & Hemail & Hp);
  pass_check Ha; rewrite Hparse;
  cbn [JS.get_prop field] in *; injection Hev as Hev; cbv iota; rewrite Hev;
  cbv [JS.not_strict_eq_string]; rewrite String.eqb_refl; cbn [negb];
  rewrite Hps, He, Hw, <- Hp, <- Hemail.

Lemma blobs_invalid_plan rt host event payload n st :
  notified rt host event payload n -> plan_valid n = false ->
  WebhookBlobs.handler rt host event st =
    (Normal (json 400 (VObject [("ok", VBool false); ("error", VString "Invalid plan")])), st).
Proof.
  intros Hn Hplan. unfold plan_valid in Hplan.
  enter_notified Hn. now rewrite Hplan.
Qed.

Lemma blobs_missing_identity rt host event payload n st :
  notified rt host event payload n -> plan_valid n = true -> identity_present n = false ->
  WebhookBlobs.handler rt host event st =
    (Normal (json 400 (VObject [("ok", VBool false);
                                ("error", VString "Email or wallet required")])), st).
Proof.
  intros Hn Hplan Hid. unfold plan_valid in Hplan. unfold identity_present in Hid.
  apply negb_false_iff in Hid.
  enter_notified Hn. now rewrite Hplan, Hid.
Qed.

(** A response other than 200 comes with the store as it was. *)
Lemma blobs_error_keeps_store rt host event st resp st' :
  WebhookBlobs.handler rt host event st = (Normal resp, st') ->
  Response.statusCode resp <> 200 -> st' = st.
Proof.
  intros H Hne. destruct (blobs_inversion _ _ _ _ _ _ H) as [Heq|Hsaved]; [exact Heq|].
  destruct Hsaved as (payload & n & exp & Hn & Hplan & Hid & Hexp & Hkey).
  rewrite (blobs_saved _ _ _ _ _ _ st Hn Hplan Hid Hexp Hkey) in H.
  apply (f_equal fst) in H. cbn [fst] in H. injection H as <-.
  exfalso. apply Hne. reflexivity.
Qed.

(** The handlers catch every exception. *)
Lemma blobs_responds rt host event st :
  exists resp, fst (WebhookBlobs.handler rt host event st) = Normal resp.
Proof.
  unfold WebhookBlobs.handler, JS.try_catch.
  match goal with |- context [let (_, _) := ?c st in _] => destruct (c st) as [[r|e] s'] end;
    cbn; eauto.
Qed.

(** *** The runs of the Supabase revision, step by step *)

Ltac enter_converted Hn Hc :=
  let Ha := fresh "Hamount" in
  let Hcur := fresh "Hcur" in
  destruct Hc as [Ha Hcur];
  enter_notified Hn; rewrite Ha, Hcur.

Lemma supabase_amount_throws rt host event payload n e c :
  notified rt host event payload n ->
  JS.ToNumber rt (JS.or_else (field payload "amount") (VNumber num_zero)) = Throw e ->
  WebhookSupabase.handler rt host event c =
    (Normal (Response.plain 500 "Internal Server Error"), c).
Proof. intros Hn Ha. enter_notified Hn. now rewrite Ha. Qed.

Lemma supabase_currency_throws rt host event payload n amount e c :
  notified rt host event payload n ->
  JS.ToNumber rt (JS.or_else (field payload "amount") (VNumber num_zero)) = Normal amount ->
  JS.call_toUpperCase rt (JS.or_else (field payload "currency") (VString "USDT")) = Throw e ->
  WebhookSupabase.handler rt host event c =
    (Normal (Response.plain 500 "Internal Server Error"), c).
Proof. intros Hn Ha Hc. enter_notified Hn. now rewrite Ha, Hc. Qed.

Lemma supabase_invalid_plan rt host event payload n amount cur c :
  notified rt host event payload n -> converted rt payload amount cur ->
  plan_valid n = false ->
  WebhookSupabase.handler rt host event c =
    (Normal (json 400 (VObject [("ok", VBool false); ("error", VString "Invalid plan")])), c).
Proof.
  intros Hn Hc Hplan. unfold plan_valid in Hplan.
  enter_converted Hn Hc. now rewrite Hplan.
Qed.

Lemma supabase_missing_identity rt host event payload n amount cur c :
  notified rt host event payload n -> converted rt payload amount cur ->
  plan_valid n = true -> identity_present n = false ->
  WebhookSupabase.handler rt host event c =
    (Normal (json 400 (VObject [("ok", VBool false);
                                ("error", VString "email or wallet required")])), c).
Proof.
  intros Hn Hc Hplan Hid. unfold plan_valid in Hplan. unfold identity_present in Hid.
  apply negb_false_iff in Hid.
  enter_converted Hn Hc.
  now rewrite Hplan, !truthy_str_or_null, !negb_involutive, Hid.
Qed.

Lemma supabase_env_not_set rt host event payload n amount cur c :
  notified rt host event payload n -> converted rt payload amount cur ->
  plan_valid n = true -> identity_present n = true ->
  supabase_env_set host = false ->
  WebhookSupabase.handler rt host event c =
    (Normal (json 500 (VObject [("ok", VBool false);
                                ("error", VString "Supabase env not set")])), c).
Proof.
  intros Hn Hc Hplan Hid Henv. unfold plan_valid in Hplan. unfold identity_present in Hid.
  apply negb_true_iff in Hid. apply negb_false_iff in Henv.
  enter_converted Hn Hc.
  now rewrite Hplan, !truthy_str_or_null, !negb_involutive, Hid, Henv.
Qed.

(** The variables are set and [createClient] refuses them: the
    exception is caught before any request. *)
Lemma supabase_client_refused rt host event payload n amount cur e c :
  notified rt host event payload n -> converted rt payload amount cur ->
  plan_valid n = true -> identity_present n = true ->
  supabase_env_set host = true ->
  Supabase.createClient rt (SUPABASE_URL host) (SUPABASE_SERVICE_ROLE host) = Throw e ->
  WebhookSupabase.handler rt host event c =
    (Normal (Response.plain 500 "Internal Server Error"), c).
Proof.
  intros Hn Hc Hplan Hid Henv Hcl. unfold plan_valid in Hplan. unfold identity_present in Hid.
  apply negb_true_iff in Hid. apply negb_true_iff in Henv.
  enter_converted Hn Hc.
  now rewrite Hplan, !truthy_str_or_null, !negb_involutive, Hid, Henv, Hcl.
Qed.

Lemma supabase_ensure_failed rt host event payload n amount cur c :
  notified rt host event payload n -> converted rt payload amount cur ->
  plan_valid n = true -> identity_present n = true ->
  supabase_configured rt host ->
  JS.truthy (Supabase.error
               (Supabase.answer c (Supabase.Rpc "ensure_user" (ensure_user_args n)))) = true ->
  WebhookSupabase.handler rt host event c =
    (Normal (json 500 (VObject [("ok", VBool false); ("error", VString "ensure_user failed")])),
     {| Supabase.answer := Supabase.answer c;
        Supabase.sent := Supabase.sent c ++ [Supabase.Rpc "ensure_user" (ensure_user_args n)] |}).
Proof.
  intros Hn Hc Hplan Hid [Henv Hcl] Hens.
  unfold plan_valid in Hplan. unfold identity_present in Hid.
  apply negb_true_iff in Hid. apply negb_true_iff in Henv. unfold ensure_user_args in *.
  enter_converted Hn Hc.
  rewrite Hplan, !truthy_str_or_null, !negb_involutive, Hid, Henv, Hcl.
  cbn [negb orb Supabase.answer Supabase.sent]. cbv iota. now rewrite Hens.
Qed.

Lemma supabase_no_expiry rt host event payload n amount cur c :
  notified rt host event payload n -> converted rt payload amount cur ->
  plan_valid n = true -> identity_present n = true ->
  supabase_configured rt host ->
  JS.truthy (Supabase.error
               (Supabase.answer c (Supabase.Rpc "ensure_user" (ensure_user_args n)))) = false ->
  compute_expires (tza host) (id_plan n) (Some (clock host)) = None ->
  WebhookSupabase.handler rt host event c =
    (Normal (Response.plain 500 "Internal Server Error"),
     {| Supabase.answer := Supabase.answer c;
        Supabase.sent := Supabase.sent c ++ [Supabase.Rpc "ensure_user" (ensure_user_args n)] |}).
Proof.
  intros Hn Hc Hplan Hid [Henv Hcl] Hens Hexp.
  unfold plan_valid in Hplan. unfold identity_present in Hid.
  apply negb_true_iff in Hid. apply negb_true_iff in Henv. unfold ensure_user_args in *.
  enter_converted Hn Hc.
  rewrite Hplan, !truthy_str_or_null, !negb_involutive, Hid, Henv, Hcl.
  cbn [negb orb Supabase.answer Supabase.sent]. cbv iota. rewrite Hens.
  cbn [toISOString]. now rewrite Hexp.
Qed.

(** The run that reaches the insert: the response is read off the reply
    of the service. *)
Lemma supabase_row rt host event payload n amount cur exp c :
  notified rt host event payload n -> converted rt payload amount cur ->
  plan_valid n = true -> identity_present n = true ->
  supabase_configured rt host ->
  let ensure := Supabase.answer c (Supabase.Rpc "ensure_user" (ensure_user_args n)) in
  JS.truthy (Supabase.error ensure) = false ->
  compute_expires (tza host) (id_plan n) (Some (clock host)) = Some exp ->
  let row := Supabase.Insert "subscriptions"
               (subscription_of payload n (Supabase.data ensure) amount cur
                  (JSDate.ISOString (clock host)) (JSDate.ISOString exp))
               "id, expires_at" in
  let sub := Supabase.answer c row in
  WebhookSupabase.handler rt host event c =
    (Normal
       (if JS.truthy (Supabase.error sub)
        then json 500 (VObject [("ok", VBool false);
                                ("error", VString "insert subscription failed")])
        else match Supabase.data sub with
             | VNull | VUndefined => Response.plain 500 "Internal Server Error"
             | d => json 200 (VObject [("ok", VBool true);
                                       ("saved", VBool true);
                                       ("user_id", Supabase.data ensure);
                                       ("subscription_id", field d "id");
                                       ("expires_at", field d "expires_at")])
             end),
     {| Supabase.answer := Supabase.answer c;
        Supabase.sent :=
          (Supabase.sent c ++ [Supabase.Rpc "ensure_user" (ensure_user_args n)]) ++ [row] |}).
Proof.
  intros Hn Hc Hplan Hid [Henv Hcl] ensure Hens Hexp row sub. subst sub row ensure.
  unfold plan_valid in Hplan. unfold identity_present in Hid.
  apply negb_true_iff in Hid. apply negb_true_iff in Henv.
  unfold ensure_user_args, subscription_of in *.
  enter_converted Hn Hc.
  rewrite Hplan, !truthy_str_or_null, !negb_involutive, Hid, Henv, Hcl.
  cbn [negb orb Supabase.answer Supabase.sent]. cbv iota. rewrite Hens.
  cbn [toISOString]. rewrite Hexp.
  cbn [toISOString Supabase.answer Supabase.sent]. cbv iota beta.
  match goal with
  | |- context [JS.truthy (Supabase.error ?r)] =>
      destruct (JS.truthy (Supabase.error r)); [reflexivity|];
      destruct (Supabase.data r); reflexivity
  end.
Qed.

Lemma supabase_saved rt host event payload n amount cur exp c :
  notified rt host event payload n -> converted rt payload amount cur ->
  plan_valid n = true -> identity_present n = true ->
  supabase_configured rt host ->
  JS.truthy (Supabase.error
               (Supabase.answer c (Supabase.Rpc "ensure_user" (ensure_user_args n)))) = false ->
  compute_expires (tza host) (id_plan n) (Some (clock host)) = Some exp ->
  exists resp,
    WebhookSupabase.handler rt host event c =
      (Normal resp,
       {| Supabase.answer := Supabase.answer c;
          Supabase.sent :=
            (Supabase.sent c ++ [Supabase.Rpc "ensure_user" (ensure_user_args n)]) ++
            [Supabase.Insert "subscriptions"
               (subscription_of payload n
                  (Supabase.data
                     (Supabase.answer c (Supabase.Rpc "ensure_user" (ensure_user_args n))))
                  amount cur (JSDate.ISOString (clock host)) (JSDate.ISOString exp))
               "id, expires_at"] |}).
Proof.
  intros Hn Hc Hplan Hid Henv Hens Hexp. eexists.
  exact (supabase_row _ _ _ _ _ _ _ _ c Hn Hc Hplan Hid Henv Hens Hexp).
Qed.

(** Every run of the Supabase revision sends nothing, or is a run of a
    valid notification with a configured client. *)
Lemma supabase_inversion rt host event c r c' :
  WebhookSupabase.handler rt host event c = (r, c') ->
  c' = c \/
  exists payload n amount cur,
    notified rt host event payload n /\ converted rt payload amount cur /\
    plan_valid n = true /\ identity_present n = true /\
    supabase_configured rt host.
Proof.
  intros H. unfold WebhookSupabase.handler in H.
  cbv [JS.try_catch JS.bind JS.lift JS.ret Supabase.call] in H.
  fold (signature_of event) in H.
  destruct (negb (String.eqb (Event.httpMethod event) "POST")) eqn:Hm;
    [left; congruence|].
  destruct (Env.unset (HELIO_WEBHOOK_SECRET host)) eqn:Hs; [left; congruence|].
  destruct (Env.unset (signature_of event) ||
            Env.differs (signature_of event) (HELIO_WEBHOOK_SECRET host)) eqn:Hsig;
    [left; congruence|].
  destruct (parse_body rt event) as [payload|] eqn:Hparse; [|left; congruence].
  destruct (JS.get_prop payload "event") as [ev|] eqn:Hev; [|left; congruence].
  destruct (JS.not_strict_eq_string ev "payment_succeeded") eqn:Hne; [left; congruence|].
  apply not_strict_eq_string_false in Hne as ->.
  destruct (get_prop_string_object _ _ _ Hev) as [ps ->].
  cbn [JS.get_prop] in H.
  destruct (JS.ToString rt (JS.or_else (JS.lookup_prop "plan" ps) (VString "")))
    as [p'|] eqn:Hps; [|left; congruence].
  destruct (JS.call_trim rt (JS.or_else (JS.lookup_prop "email" ps) (VString "")))
    as [e'|] eqn:He; [|left; congruence].
  destruct (JS.call_trim rt (JS.or_else (JS.lookup_prop "wallet" ps) (VString "")))
    as [w'|] eqn:Hw; [|left; congruence].
  destruct (JS.ToNumber rt (JS.or_else (JS.lookup_prop "amount" ps) (VNumber num_zero)))
    as [amount|] eqn:Hamount; [|left; congruence].
  destruct (JS.call_toUpperCase rt (JS.or_else (JS.lookup_prop "currency" ps)
                                      (VString "USDT")))
    as [cur|] eqn:Hcur; [|left; congruence].
  match type of H with
  | context [negb (JS.includes ?l ?p)] => destruct (JS.includes l p) eqn:Hplan
  end; cbn [negb] in H; [|left; congruence].
  rewrite !truthy_str_or_null, !negb_involutive in H.
  destruct (JSString.is_empty (JS.toLowerCase rt e') && JSString.is_empty w') eqn:Hid;
    [left; congruence|].
  destruct (Env.unset (SUPABASE_URL host) || Env.unset (SUPABASE_SERVICE_ROLE host)) eqn:Henv;
    [left; congruence|].
  destruct (Supabase.createClient rt (SUPABASE_URL host) (SUPABASE_SERVICE_ROLE host))
    as [[]|] eqn:Hcl; [|left; congruence].
  right.
  exists (VObject ps),
    {| id_plan := JS.toLowerCase rt p'; id_email := JS.toLowerCase rt e'; id_wallet := w' |},
    amount, cur.
  split; [|split; [split; assumption|split; [exact Hplan|split]]].
  - split; [split| | |].
    + apply negb_false_iff, String.eqb_eq in Hm. exact Hm.
    + exact Hs.
    + now apply unset_or_differs.
    + exact Hparse.
    + exact Hev.
    + unfold normalize. cbn [field]. now rewrite Hps, He, Hw.
  - unfold identity_present. cbn [id_email id_wallet]. now rewrite Hid.
  - split; [unfold supabase_env_set; now rewrite Henv|exact Hcl].
Qed.

(** *** The run of the query *)

(** With an identity the handler is the call of [getJSON] with the
    key of the identity, followed by lines 33 to 46, whatever the
    store does on the call. *)
Lemma query_reads_key store_getJSON rt host event st :
  Event.httpMethod event = "GET" ->
  let params := GetMembership.query_params rt event in
  let email :=
    Spec.normalize_email rt (default EmptyString (GetMembership.params_get params "email")) in
  let wallet :=
    Spec.normalize_wallet rt (default EmptyString (GetMembership.params_get params "wallet")) in
  JSString.is_empty email && JSString.is_empty wallet = false ->
  GetMembership.handler_on store_getJSON rt host event st =
    JS.try_catch
      (let* record := store_getJSON (Spec.identity_key rt email wallet) in
       GetMembership.answer rt host record)
      (fun _ => JS.ret (Response.plain 500 "Internal Server Error")) st.
Proof.
  intros Hget params email wallet Hid. unfold GetMembership.handler_on, JS.try_catch.
  fold params. fold (Spec.normalize_wallet rt
                       (default EmptyString (GetMembership.params_get params "wallet"))).
  fold (Spec.normalize_email rt
          (default EmptyString (GetMembership.params_get params "email"))).
  fold email wallet. rewrite Hget, Hid, identity_key_code. reflexivity.
Qed.

(** The read throws, and the handler answers 500. *)
Lemma query_run rt host event st :
  Event.httpMethod event = "GET" ->
  let params := GetMembership.query_params rt event in
  let email :=
    Spec.normalize_email rt (default EmptyString (GetMembership.params_get params "email")) in
  let wallet :=
    Spec.normalize_wallet rt (default EmptyString (GetMembership.params_get params "wallet")) in
  JSString.is_empty email && JSString.is_empty wallet = false ->
  GetMembership.handler rt host event st =
    (Normal (Response.plain 500 "Internal Server Error"), st).
Proof.
  intros Hget params email wallet Hid. unfold GetMembership.handler.
  now rewrite (query_reads_key Blobs.getJSON rt host event st Hget Hid).
Qed.

Lemma query_missing_param rt host event st :
  Event.httpMethod event = "GET" ->
  let params := GetMembership.query_params rt event in
  let email :=
    Spec.normalize_email rt (default EmptyString (GetMembership.params_get params "email")) in
  let wallet :=
    Spec.normalize_wallet rt (default EmptyString (GetMembership.params_get params "wallet")) in
  JSString.is_empty email && JSString.is_empty wallet = true ->
  GetMembership.handler rt host event st =
    (Normal (json 400 (VObject [("ok", VBool false); ("active", VBool false);
                                ("reason", VString "missing_param")])), st).
Proof.
  intros Hget params email wallet Hid.
  unfold GetMembership.handler, GetMembership.handler_on.
  cbv [JS.try_catch JS.bind JS.lift JS.ret Blobs.getJSON].
  fold params. fold (Spec.normalize_wallet rt
                       (default EmptyString (GetMembership.params_get params "wallet"))).
  fold (Spec.normalize_email rt
          (default EmptyString (GetMembership.params_get params "email"))).
  fold email wallet. now rewrite Hget, Hid.
Qed.

(** Lines 33 to 46 on a record that the store would return. *)
Lemma answer_not_found rt host record st :
  JS.truthy record = false ->
  GetMembership.answer rt host record st =
    (Normal (Spec.membership_response rt (clock host) None), st).
Proof. intros H. unfold GetMembership.answer. now rewrite H. Qed.

Lemma answer_found rt host record text st :
  JS.truthy record = true ->
  field record "expires_at" = VString text ->
  GetMembership.answer rt host record st =
    (Normal (Spec.membership_response rt (clock host) (Some record)), st).
Proof.
  intros Htr Hf. unfold GetMembership.answer, Spec.membership_response.
  rewrite Htr, Hf. cbn [negb].
  assert (Hprop : JS.get_prop record "expires_at" = Normal (VString text)).
  { destruct record; try discriminate; exact (f_equal Normal Hf). }
  cbv [JS.bind JS.lift JS.ret]. rewrite Hprop. cbn [JS.ToString].
  destruct (Date_parse rt text) as [e|]; [destruct (clock host <? e)|]; reflexivity.
Qed.

(** *** The string methods on ASCII strings *)

Section Plain.
Variable rt : Runtime.

Lemma trim_plain s : JSString.plain s = true -> JS.trim rt s = JSString.trim s.
Proof. intros H. unfold JS.trim. now rewrite H. Qed.

Lemma toLowerCase_plain s :
  JSString.plain s = true -> JS.toLowerCase rt s = JSString.toLowerCase s.
Proof. intros H. unfold JS.toLowerCase. now rewrite H. Qed.

Lemma toUpperCase_plain s :
  JSString.plain s = true -> JS.toUpperCase rt s = JSString.toUpperCase s.
Proof. intros H. unfold JS.toUpperCase. now rewrite H. Qed.

Lemma normalize_email_plain s :
  JSString.plain s = true ->
  Spec.normalize_email rt s = JSString.toLowerCase (JSString.trim s).
Proof.
  intros H. unfold Spec.normalize_email.
  now rewrite (trim_plain s H), (toLowerCase_plain _ (plain_trim s H)).
Qed.

Lemma normalize_wallet_plain s :
  JSString.plain s = true -> Spec.normalize_wallet rt s = JSString.trim s.
Proof. apply trim_plain. Qed.

Lemma trim_empty : JS.trim rt EmptyString = EmptyString.
Proof. reflexivity. Qed.

Lemma toLowerCase_empty : JS.toLowerCase rt EmptyString = EmptyString.
Proof. reflexivity. Qed.
End Plain.

(** *** What [normalize] yields *)

Lemma call_trim_string rt s :
  JS.call_trim rt (JS.or_else (VString s) (VString "")) = Normal (JS.trim rt s).
Proof. destruct s; reflexivity. Qed.

Lemma call_trim_falsy rt v :
  JS.truthy v = false -> JS.call_trim rt (JS.or_else v (VString "")) = Normal EmptyString.
Proof. intros H. unfold JS.or_else. now rewrite H. Qed.

Lemma call_trim_defined rt v :
  string_or_falsy v <-> exists s, JS.call_trim rt (JS.or_else v (VString "")) = Normal s.
Proof.
  split.
  - destruct v as [| |b|x|s|xs|ps]; cbn [string_or_falsy]; intros H;
      try (rewrite (call_trim_falsy rt _ H); eauto).
    rewrite call_trim_string. eauto.
  - intros [s H]. destruct v as [| |b|x|s'|xs|ps]; cbn [string_or_falsy]; try reflexivity;
      try exact I; unfold JS.or_else in H;
      match type of H with
      | context [JS.truthy ?v] => destruct (JS.truthy v); [discriminate|reflexivity]
      end.
Qed.

Lemma call_trim_throws rt v :
  ~ string_or_falsy v -> JS.call_trim rt (JS.or_else v (VString "")) = Throw TypeError.
Proof.
  intros H.
  destruct (JS.call_trim rt (JS.or_else v (VString ""))) as [s|e] eqn:E.
  - destruct H. apply (call_trim_defined rt). eauto.
  - unfold JS.call_trim in E. destruct (JS.or_else v (VString "")); congruence.
Qed.

(** [String] of a value that is no array and no object does not throw. *)
Lemma ToString_primitive rt v :
  (forall xs, v <> VArray xs) -> (forall ps, v <> VObject ps) ->
  exists s, JS.ToString rt v = Normal s.
Proof.
  destruct v as [| |[]|x|s|xs|ps]; intros Ha Ho; cbn [JS.ToString]; eauto.
  - now destruct (Ha xs).
  - now destruct (Ho ps).
Qed.

Lemma ToString_string rt s :
  JS.ToString rt (JS.or_else (VString s) (VString "")) = Normal s.
Proof. destruct s; reflexivity. Qed.

Lemma ToString_falsy rt v :
  JS.truthy v = false -> JS.ToString rt (JS.or_else v (VString "")) = Normal EmptyString.
Proof. intros H. unfold JS.or_else. now rewrite H. Qed.

Lemma normalize_defined rt payload :
  (exists p', JS.ToString rt (JS.or_else (field payload "plan") (VString "")) = Normal p') /\
  string_or_falsy (field payload "email") /\ string_or_falsy (field payload "wallet") <->
  exists n, normalize rt payload = Normal n.
Proof.
  rewrite !(call_trim_defined rt). unfold normalize. split.
  - intros ([p' Hp] & [e He] & [w Hw]). rewrite Hp, He, Hw. eauto.
  - intros [n H].
    destruct (JS.ToString rt (JS.or_else (field payload "plan") _)) as [p'|]; [|discriminate].
    destruct (JS.call_trim rt (JS.or_else (field payload "email") _)) as [e|]; [|discriminate].
    destruct (JS.call_trim rt (JS.or_else (field payload "wallet") _)) as [w|]; [|discriminate].
    split; [eauto|split; eauto].
Qed.

Section Normalised.
Variables (rt : Runtime) (payload : value) (n : identity).
Hypothesis Hn : normalize rt payload = Normal n.

Lemma normalize_plan p' :
  JS.ToString rt (JS.or_else (field payload "plan") (VString "")) = Normal p' ->
  id_plan n = JS.toLowerCase rt p'.
Proof.
  intros H. apply normalize_inv in Hn as (p & e' & Hp & _ & _ & _ & Hplan).
  rewrite H in Hp. injection Hp as <-. exact Hplan.
Qed.

Lemma normalize_plan_string s :
  field payload "plan" = VString s -> id_plan n = JS.toLowerCase rt s.
Proof. intros Hs. apply normalize_plan. rewrite Hs. apply ToString_string. Qed.

Lemma normalize_email_string s :
  field payload "email" = VString s -> id_email n = Spec.normalize_email rt s.
Proof.
  intros Hs. apply normalize_inv in Hn as (p' & e' & _ & He & _ & Hemail & _).
  rewrite Hs, call_trim_string in He. injection He as <-. exact Hemail.
Qed.

Lemma normalize_email_falsy :
  JS.truthy (field payload "email") = false -> id_email n = EmptyString.
Proof.
  intros Hs. apply normalize_inv in Hn as (p' & e' & _ & He & _ & Hemail & _).
  rewrite (call_trim_falsy _ _ Hs) in He. injection He as <-. exact Hemail.
Qed.

Lemma normalize_wallet_string s :
  field payload "wallet" = VString s -> id_wallet n = Spec.normalize_wallet rt s.
Proof.
  intros Hs. apply normalize_inv in Hn as (p' & e' & _ & _ & Hw & _ & _).
  rewrite Hs, call_trim_string in Hw. now injection Hw as <-.
Qed.

Lemma normalize_wallet_falsy :
  JS.truthy (field payload "wallet") = false -> id_wallet n = EmptyString.
Proof.
  intros Hs. apply normalize_inv in Hn as (p' & e' & _ & _ & Hw & _ & _).
  rewrite (call_trim_falsy _ _ Hs) in Hw. now injection Hw as <-.
Qed.
End Normalised.

(** *** Variations of an identity *)

Lemma variation_normalize p q :
  Spec.variation p q ->
  JSString.toLowerCase (JSString.trim q) = JSString.toLowerCase (JSString.trim p).
Proof.
  intros (b & a & c & b' & a' & c' & Hb & Ha & Hb' & Ha' & -> & -> & Hcore).
  rewrite !trim_padded by assumption.
  now rewrite <- !toLowerCase_trim, Hcore.
Qed.

Lemma variation_refl p : Spec.variation p p.
Proof.
  assert (Hp : p = p +:+ EmptyString).
  { induction p as [|c p IH]; [reflexivity|].
    change (String c p = String c (p +:+ EmptyString)). now rewrite <- IH. }
  exists EmptyString, EmptyString, p, EmptyString, EmptyString, p.
  repeat split; exact Hp.
Qed.

(** *** The currency and the amount of the Supabase revision *)

Lemma currency_upper rt s cur :
  JSString.is_empty s = false ->
  JS.call_toUpperCase rt (JS.or_else (VString s) (VString "USDT")) = Normal cur ->
  cur = JS.toUpperCase rt s.
Proof. destruct s; [discriminate|]. intros _ [= <-]. reflexivity. Qed.

Lemma currency_default rt v cur :
  JS.truthy v = false ->
  JS.call_toUpperCase rt (JS.or_else v (VString "USDT")) = Normal cur -> cur = "USDT".
Proof. intros H. unfold JS.or_else. rewrite H. now intros [= <-]. Qed.

Lemma amount_default rt v :
  JS.truthy v = false ->
  JS.ToNumber rt (JS.or_else v (VNumber num_zero)) = Normal num_zero.
Proof. intros H. unfold JS.or_else. now rewrite H. Qed.

Lemma amount_number rt x :
  JS.truthy (VNumber x) = true ->
  JS.ToNumber rt (JS.or_else (VNumber x) (VNumber num_zero)) = Normal x.
Proof. intros H. unfold JS.or_else. now rewrite H. Qed.

Lemma amount_string rt s :
  JSString.is_empty s = false ->
  JS.ToNumber rt (JS.or_else (VString s) (VNumber num_zero)) = Normal (StringToNumber rt s).
Proof. destruct s; [discriminate|reflexivity]. Qed.

(** *** The examples are notifications *)

Lemma notified_monthly now :
  notified Examples.rt (Examples.host_at now) (Examples.notify Examples.payload_monthly)
    Examples.payload_monthly Examples.identity_monthly.
Proof. split; [split| | |]; vm_compute; reflexivity. Qed.

Lemma notified_weekly now :
  notified Examples.rt (Examples.host_at now) (Examples.notify Examples.payload_weekly)
    Examples.payload_weekly Examples.identity_weekly.
Proof. split; [split| | |]; vm_compute; reflexivity. Qed.

Lemma converted_monthly :
  converted Examples.rt Examples.payload_monthly num_zero "USDT".
Proof. split; vm_compute; reflexivity. Qed.

Lemma authentic_post now name body :
  name = "x-helio-signature" \/ name = "X-Helio-Signature" ->
  authentic (Examples.host_at now) (Examples.post name body).
Proof. intros [-> | ->]; split; vm_compute; reflexivity. Qed.

(** ** Blank strings, keys, and more runs *)

(** *** Blank strings *)

(** A string trims to the empty string exactly when it is blank. *)
Lemma is_empty_trim s : JSString.is_empty (JSString.trim s) = JSString.blank s.
Proof.
  unfold JSString.trim. induction s as [|c s IH]; simpl; [reflexivity|].
  destruct (JSString.is_space c) eqn:Hc; simpl; [exact IH|].
  destruct (JSString.trimEnd s); [rewrite Hc|]; reflexivity.
Qed.

Lemma is_empty_normalize_email rt s :
  JSString.plain s = true ->
  JSString.is_empty (Spec.normalize_email rt s) = JSString.blank s.
Proof.
  intros H. now rewrite (normalize_email_plain rt s H), is_empty_toLowerCase, is_empty_trim.
Qed.

Lemma is_empty_normalize_wallet rt s :
  JSString.plain s = true ->
  JSString.is_empty (Spec.normalize_wallet rt s) = JSString.blank s.
Proof. intros H. now rewrite (normalize_wallet_plain rt s H), is_empty_trim. Qed.

(** *** The keys *)

Lemma email_key_inj e1 e2 : "email:" +:+ e1 = "email:" +:+ e2 -> e1 = e2.
Proof. intros H. now apply app_inv_length in H as [_ H]. Qed.

Lemma wallet_key_inj w1 w2 : "wallet:" +:+ w1 = "wallet:" +:+ w2 -> w1 = w2.
Proof. intros H. now apply app_inv_length in H as [_ H]. Qed.

Lemma email_key_not_wallet_key e w : "email:" +:+ e <> "wallet:" +:+ w.
Proof.
  change ("email:" +:+ e) with (String "e" ("mail:" +:+ e)).
  change ("wallet:" +:+ w) with (String "w" ("allet:" +:+ w)). discriminate.
Qed.

Lemma identity_key_eq rt e1 w1 e2 w2 :
  Spec.identity_key rt e1 w1 = Spec.identity_key rt e2 w2 <->
  (JSString.is_empty e1 = false /\ e1 = e2) \/
  (JSString.is_empty e1 = true /\ JSString.is_empty e2 = true /\
   JS.toLowerCase rt w1 = JS.toLowerCase rt w2).
Proof.
  unfold Spec.identity_key.
  destruct (JSString.is_empty e1) eqn:E1, (JSString.is_empty e2) eqn:E2; split.
  - intros H%wallet_key_inj. auto.
  - intros [[? _]|(_ & _ & ->)]; [discriminate|reflexivity].
  - intros H. symmetry in H. now apply email_key_not_wallet_key in H.
  - intros [[? _]|(_ & ? & _)]; discriminate.
  - intros H. now apply email_key_not_wallet_key in H.
  - intros [[_ ->]|(? & _)]; [congruence|discriminate].
  - intros H%email_key_inj. auto.
  - intros [[_ ->]|(? & _)]; [reflexivity|discriminate].
Qed.

(** *** Payloads that are no notification of a succeeded payment *)

Lemma get_prop_defined payload k :
  payload <> VNull -> payload <> VUndefined ->
  JS.get_prop payload k = Normal (field payload k).
Proof. destruct payload; intros H1 H2; try reflexivity; congruence. Qed.

Lemma not_strict_eq_string_true v s :
  v <> VString s -> JS.not_strict_eq_string v s = true.
Proof.
  intros H. destruct (JS.not_strict_eq_string v s) eqn:E; [reflexivity|].
  apply not_strict_eq_string_false in E. contradiction.
Qed.

Section OtherEvent.
Variables (rt : Runtime) (host : Host) (event : Event.t) (payload : value).
Hypothesis Hauth : authentic host event.
Hypothesis Hparse : parse_body rt event = Normal payload.
Hypothesis Hnull : payload <> VNull.
Hypothesis Hundef : payload <> VUndefined.
Hypothesis Hev : field payload "event" <> VString "payment_succeeded".

Lemma blobs_other_event st : WebhookBlobs.handler rt host event st = (Normal ignored, st).
Proof.
  pose proof Hauth as Ha. pass_check Ha.
  now rewrite Hparse, (get_prop_defined _ _ Hnull Hundef), (not_strict_eq_string_true _ _ Hev).
Qed.

Lemma supabase_other_event c : WebhookSupabase.handler rt host event c = (Normal ignored, c).
Proof.
  pose proof Hauth as Ha. pass_check Ha.
  now rewrite Hparse, (get_prop_defined _ _ Hnull Hundef), (not_strict_eq_string_true _ _ Hev).
Qed.

Lemma placeholder_other_event u :
  WebhookPlaceholder.handler rt host event u = (Normal ignored, u).
Proof.
  pose proof Hauth as Ha. pass_check Ha.
  now rewrite Hparse, (get_prop_defined _ _ Hnull Hundef), (not_strict_eq_string_true _ _ Hev).
Qed.
End OtherEvent.

(** *** A body that is no JSON text, or the text of [null] *)

Section Unreadable.
Variables (rt : Runtime) (host : Host) (event : Event.t).
Hypothesis Hauth : authentic host event.
Hypothesis Hparse : parse_body rt event = Throw SyntaxError \/
                    parse_body rt event = Normal VNull.

Lemma blobs_unreadable st :
  WebhookBlobs.handler rt host event st =
    (Normal (Response.plain 500 "Internal Server Error"), st).
Proof. pose proof Hauth as Ha. pass_check Ha. now destruct Hparse as [-> | ->]. Qed.

Lemma supabase_unreadable c :
  WebhookSupabase.handler rt host event c =
    (Normal (Response.plain 500 "Internal Server Error"), c).
Proof. pose proof Hauth as Ha. pass_check Ha. now destruct Hparse as [-> | ->]. Qed.

Lemma placeholder_unreadable u :
  WebhookPlaceholder.handler rt host event u =
    (Normal (Response.plain 500 "Internal Server Error"), u).
Proof. pose proof Hauth as Ha. pass_check Ha. now destruct Hparse as [-> | ->]. Qed.
End Unreadable.

(** *** The store after an accepted notification *)

Lemma expires_in_range host plan :
  JS.includes ["monthly"; "yearly"] plan = true -> clock_in_range host ->
  compute_expires (tza host) plan (Some (clock host)) =
    Some (JSDate.UTC (tza host) (local_expiry (tza host) plan (clock host))).
Proof.
  intros Hplan Hclock.
  exact (compute_expires_in_range (tza host) (tza_range host) plan (clock host) Hplan Hclock).
Qed.

Lemma blobs_store_after rt host event payload n st :
  notified rt host event payload n ->
  plan_valid n = true -> identity_present n = true -> clock_in_range host ->
  let exp := JSDate.UTC (tza host) (local_expiry (tza host) (id_plan n) (clock host)) in
  let key := Spec.identity_key rt (id_email n) (id_wallet n) in
  snd (WebhookBlobs.handler rt host event st) =
    if Blobs.valid_key key
    then <[key := JS.to_json (member_of payload n (JSDate.ISOString (clock host))
                                        (JSDate.ISOString exp))]> st
    else st.
Proof.
  intros Hn Hplan Hid Hclock exp key.
  pose proof (expires_in_range host (id_plan n) Hplan Hclock) as Hexp.
  rewrite (blobs_run _ _ _ _ _ _ st Hn Hplan Hid Hexp). cbv zeta. fold key.
  now destruct (Blobs.valid_key key).
Qed.

(** *** Reading a property of a JSON text *)

Lemma field_to_json_cons k k' x ps :
  field (JS.to_json (VObject ((k', x) :: ps))) k =
  if String.eqb k k'
  then match JS.to_json x with
       | VUndefined => field (JS.to_json (VObject ps)) k
       | j => j
       end
  else field (JS.to_json (VObject ps)) k.
Proof.
  rewrite to_json_object_cons.
  destruct (JS.to_json x); cbn [field JS.lookup_prop JS.to_json props_of];
    destruct (String.eqb k k'); reflexivity.
Qed.

Lemma field_to_json_nil k : field (JS.to_json (VObject [])) k = VUndefined.
Proof. reflexivity. Qed.

Lemma to_json_or_undefined v :
  match JS.to_json v with VUndefined => VUndefined | j => j end = JS.to_json v.
Proof. now destruct (JS.to_json v). Qed.

(** *** More notifications *)

Lemma notified_monthly_again now :
  notified Cases.rt (Examples.host_at now) (Examples.notify Examples.payload_monthly)
    Examples.payload_monthly Examples.identity_monthly.
Proof. split; [split| | |]; vm_compute; reflexivity. Qed.

Lemma notified_yearly_wallet now :
  notified Cases.rt (Examples.host_at now) (Examples.notify Examples.payload_yearly_wallet)
    Examples.payload_yearly_wallet Cases.identity_blank_email.
Proof. split; [split| | |]; vm_compute; reflexivity. Qed.

Lemma notified_blank_email now :
  notified Cases.rt (Examples.host_at now) (Examples.notify Cases.payload_blank_email)
    Cases.payload_blank_email Cases.identity_blank_email.
Proof. split; [split| | |]; vm_compute; reflexivity. Qed.

Lemma notified_new_york now :
  notified Examples.rt (Cases.host_new_york now) (Examples.notify Examples.payload_monthly)
    Examples.payload_monthly Examples.identity_monthly.
Proof. split; [split| | |]; vm_compute; reflexivity. Qed.

(** ** The expiry (C1, C9) *)

(** C1, as the specification reads it, fails: a notification received on
    2023-01-31T12:00:00Z with plan "Monthly" is kept with the expiry
    2023-03-03T12:00:00Z, while one calendar month later with the day
    clamped to the end of February is 2023-02-28T12:00:00Z. *)
Lemma expiry_of_jan31_is_mar03 :
  let st' := snd (WebhookBlobs.handler Examples.rt (Examples.host_at Examples.jan31)
                    (Examples.notify Examples.payload_monthly) ∅) in
  exists rec,
    st' !! "email:ada@example.com" = Some rec /\
    field rec "plan" = VString "monthly" /\
    field rec "started_at" = VString "2023-01-31T12:00:00.000Z" /\
    field rec "expires_at" = VString "2023-03-03T12:00:00.000Z" /\
    JSDate.ISOString (Spec.add_month_clamped Examples.jan31) = "2023-02-28T12:00:00.000Z" /\
    field rec "expires_at" <> VString (JSDate.ISOString (Spec.add_month_clamped Examples.jan31)).
Proof.
  vm_compute. eexists. split; [reflexivity|].
  repeat split; discriminate.
Qed.

(** C1, amended: for every authentic and valid notification whose start
    instant leaves room for a year, the expiry that both persisting
    revisions compute is the instant that the zone of the host gives for
    the local time of the start advanced by [setMonth(getMonth() + 1)]
    (plan monthly) or [setFullYear(getFullYear() + 1)] (plan yearly):
    that local time has the time of day of the start and the date
    [plan_later] of the date of the start, which is the same day of the
    next month, or, when the next month is too short for the day, the
    overflow carried into the month after it (31 January gives 3 March,
    2 March in a leap year); the same day one year later, and 1 March
    after a 29 February. When the offset of the zone is the same at both
    ends, as in UTC, the expiry is the start plus the days of the current
    month, or plus 365 or 366 days. The Blobs revision keeps the ISO
    texts of the start and of that expiry in the record whenever the
    client accepts the key, and the Supabase revision in the row
    whenever the amount and the currency convert, the variables of the
    client are set, [createClient] accepts them and [ensure_user]
    answers without error. *)
Theorem expiry_is_start_after_rollover rt host event payload n :
  notified rt host event payload n ->
  plan_valid n = true -> identity_present n = true ->
  clock_in_range host ->
  let start := clock host in
  let zone := tza host in
  let local_start := JSDate.LocalTime zone start in
  let local_exp := local_expiry zone (id_plan n) start in
  let exp := JSDate.UTC zone local_exp in
  civil local_exp = plan_later (id_plan n) (civil local_start) /\
  JSDate.TimeWithinDay local_exp = JSDate.TimeWithinDay local_start /\
  (steady zone (id_plan n) start ->
   exp = start + plan_span (id_plan n) local_start * JSDate.msPerDay) /\
  (forall st,
     Blobs.valid_key (Spec.identity_key rt (id_email n) (id_wallet n)) = true ->
     let rec := JS.to_json (member_of payload n (JSDate.ISOString start)
                                      (JSDate.ISOString exp)) in
     (exists resp,
        WebhookBlobs.handler rt host event st =
          (Normal resp, <[Spec.identity_key rt (id_email n) (id_wallet n) := rec]> st) /\
        body_field resp "expires_at" = VString (JSDate.ISOString exp)) /\
     field rec "started_at" = VString (JSDate.ISOString start) /\
     field rec "expires_at" = VString (JSDate.ISOString exp)) /\
  (forall c amount cur,
     converted rt payload amount cur ->
     supabase_configured rt host ->
     let ensure := Supabase.answer c (Supabase.Rpc "ensure_user" (ensure_user_args n)) in
     JS.truthy (Supabase.error ensure) = false ->
     let row := subscription_of payload n (Supabase.data ensure) amount cur
                  (JSDate.ISOString start) (JSDate.ISOString exp) in
     (exists resp,
        WebhookSupabase.handler rt host event c =
          (Normal resp,
           {| Supabase.answer := Supabase.answer c;
              Supabase.sent :=
                (Supabase.sent c ++ [Supabase.Rpc "ensure_user" (ensure_user_args n)]) ++
                [Supabase.Insert "subscriptions" row "id, expires_at"] |})) /\
     field row "started_at" = VString (JSDate.ISOString start) /\
     field row "expires_at" = VString (JSDate.ISOString exp)).
Proof.
  intros Hn Hplan Hid Hclock start zone local_start local_exp exp.
  pose proof (expires_in_range host (id_plan n) Hplan Hclock) as Hexp.
  fold start zone local_exp exp in Hexp.
  destruct (plan_later_civil (id_plan n) local_start) as [Hciv Htod].
  split; [exact Hciv|]. split; [exact Htod|].
  split; [apply UTC_local_expiry_steady|]. split.
  - intros st Hkey rec.
    destruct (member_fields payload n (JSDate.ISOString start) (JSDate.ISOString exp))
      as (_ & _ & _ & _ & _ & Hs & He).
    split; [|split; assumption].
    eexists. split; [apply (blobs_saved _ _ _ _ _ _ st Hn Hplan Hid Hexp Hkey)|reflexivity].
  - intros c amount cur Hcv Henv ensure Hens row.
    split; [|split; reflexivity].
    apply (supabase_saved _ _ _ _ _ _ _ _ c Hn Hcv Hplan Hid Henv Hens Hexp).
Qed.

(** A run of C1 across a change of daylight saving: in New York, a
    monthly membership that starts on 15 February 2023 at 07:00 local
    time (12:00 UTC) expires on 15 March at 07:00 local time, which is
    11:00 UTC: 28 days less one hour after the start. *)
Lemma expiry_is_start_after_rollover_witness :
  notified Examples.rt (Cases.host_new_york Cases.feb15)
    (Examples.notify Examples.payload_monthly) Examples.payload_monthly
    Examples.identity_monthly /\
  clock_in_range (Cases.host_new_york Cases.feb15) /\
  civil (local_expiry Cases.new_york "monthly" Cases.feb15) = (2023, 2, 15) /\
  exists resp rec,
    WebhookBlobs.handler Examples.rt (Cases.host_new_york Cases.feb15)
      (Examples.notify Examples.payload_monthly) ∅ =
      (Normal resp, <["email:ada@example.com" := rec]> ∅) /\
    field rec "started_at" = VString "2023-02-15T12:00:00.000Z" /\
    field rec "expires_at" = VString "2023-03-15T11:00:00.000Z".
Proof.
  assert (Hn := notified_new_york Cases.feb15).
  assert (Hc : clock_in_range (Cases.host_new_york Cases.feb15))
    by (vm_compute; split; discriminate).
  split; [exact Hn|]. split; [exact Hc|].
  destruct (expiry_is_start_after_rollover _ _ _ _ _ Hn eq_refl eq_refl Hc)
    as (_ & _ & _ & Hblobs & _).
  split; [vm_compute; reflexivity|].
  destruct (Hblobs ∅ eq_refl) as ((resp & Hrun & _) & Hs & He).
  eexists resp, _. split; [exact Hrun|]. split; [exact Hs|exact He].
Defined.

(** The same on a host in UTC: the start of the first example. *)
Example expiry_in_utc :
  steady (tza (Examples.host_at Examples.jan31)) "monthly" Examples.jan31 /\
  JSDate.UTC (tza (Examples.host_at Examples.jan31))
    (local_expiry (tza (Examples.host_at Examples.jan31)) "monthly" Examples.jan31) =
    Examples.jan31 + 31 * JSDate.msPerDay.
Proof. split; vm_compute; reflexivity. Qed.

(** The dates of the examples of the specification. *)
Example month_after_jan31 : month_later (2023, 0, 31) = (2023, 2, 3).
Proof. reflexivity. Qed.

Example month_after_jan31_leap : month_later (2024, 0, 31) = (2024, 2, 2).
Proof. reflexivity. Qed.

Example month_after_dec15 : month_later (2023, 11, 15) = (2024, 0, 15).
Proof. reflexivity. Qed.

Example year_after_feb29 : year_later (2024, 1, 29) = (2025, 2, 1).
Proof. reflexivity. Qed.

(** C9: whatever the request, the clock and the time zone, a run of the
    Blobs revision either leaves the store as it was or adds one record
    of plan monthly or yearly whose [started_at] is the ISO text of the
    start instant and whose [expires_at] is the ISO text of a strictly
    later instant; and whichever time values the two texts are the ISO
    texts of, the one of [expires_at] is strictly later. *)
Theorem persisted_expiry_after_start rt host event st r st' :
  WebhookBlobs.handler rt host event st = (r, st') ->
  st' = st \/
  exists key rec started expires exp,
    st' = <[key := rec]> st /\
    (field rec "plan" = VString "monthly" \/ field rec "plan" = VString "yearly") /\
    field rec "started_at" = VString started /\
    field rec "expires_at" = VString expires /\
    iso_text_of started (clock host) /\
    iso_text_of expires exp /\
    clock host < exp /\
    (forall t1 t2, iso_text_of started t1 -> iso_text_of expires t2 -> t1 < t2).
Proof.
  intros H. destruct (blobs_inversion _ _ _ _ _ _ H) as [Heq|Hsaved]; [left; exact Heq|].
  destruct Hsaved as (payload & n & exp & Hn & Hplan & Hid & Hexp & Hkey). right.
  rewrite (blobs_saved _ _ _ _ _ _ st Hn Hplan Hid Hexp Hkey) in H.
  apply (f_equal snd) in H. cbn [snd] in H.
  destruct (member_fields payload n (JSDate.ISOString (clock host)) (JSDate.ISOString exp))
    as (_ & _ & Hp & _ & _ & Hs & He).
  destruct (compute_expires_later _ (tza_range host) _ _ _ Hplan Hexp) as [_ Hlt].
  destruct (compute_expires_clipped _ _ _ _ Hplan Hexp) as [Hr1 Hr2].
  assert (Ht1 : iso_text_of (JSDate.ISOString (clock host)) (clock host)) by (split; auto).
  assert (Ht2 : iso_text_of (JSDate.ISOString exp) exp) by (split; auto).
  eexists _, _, _, _, exp. split; [symmetry; exact H|].
  split; [rewrite Hp; apply includes_plans in Hplan as [-> | ->]; auto|].
  split; [exact Hs|]. split; [exact He|]. split; [exact Ht1|]. split; [exact Ht2|].
  split; [exact Hlt|].
  intros t1 t2 Hu1 Hu2.
  rewrite (iso_text_unique _ _ _ Hu1 Ht1), (iso_text_unique _ _ _ Hu2 Ht2). exact Hlt.
Qed.

(** A run of C9 that adds a record. *)
Lemma persisted_expiry_after_start_witness :
  WebhookBlobs.handler Examples.rt (Examples.host_at Examples.jan31)
    (Examples.notify Examples.payload_monthly) ∅ =
  (Normal (json 200 (VObject [("ok", VBool true);
                              ("saved", VBool true);
                              ("key", VString "email:ada@example.com");
                              ("expires_at", VString "2023-03-03T12:00:00.000Z")])),
   <["email:ada@example.com" :=
       JS.to_json (member_of Examples.payload_monthly Examples.identity_monthly
                     "2023-01-31T12:00:00.000Z" "2023-03-03T12:00:00.000Z")]> ∅) /\
  exists exp, Examples.jan31 < exp.
Proof.
  assert (Hrun :
    WebhookBlobs.handler Examples.rt (Examples.host_at Examples.jan31)
      (Examples.notify Examples.payload_monthly) ∅ =
    (Normal (json 200 (VObject [("ok", VBool true);
                                ("saved", VBool true);
                                ("key", VString "email:ada@example.com");
                                ("expires_at", VString "2023-03-03T12:00:00.000Z")])),
     <["email:ada@example.com" :=
         JS.to_json (member_of Examples.payload_monthly Examples.identity_monthly
                       "2023-01-31T12:00:00.000Z" "2023-03-03T12:00:00.000Z")]> ∅))
    by (vm_compute; reflexivity).
  split; [exact Hrun|].
  destruct (persisted_expiry_after_start _ _ _ _ _ _ Hrun)
    as [Hsame|(key & rec & started & expires & exp & H)].
  - exfalso. apply (f_equal (fun m => m !! "email:ada@example.com")) in Hsame.
    vm_compute in Hsame. discriminate.
  - destruct H as (_ & _ & _ & _ & _ & _ & Hlt & _). exists exp. exact Hlt.
Defined.

(** ** The normalised fields (C2) *)

(** C2, as the specification reads it, fails on the Blobs revision: the
    notification with currency "usdt" and no amount is kept with the
    currency as received, not upper-cased, and with the amount [null],
    not 0. *)
Lemma currency_and_amount_kept_as_received :
  let st' := snd (WebhookBlobs.handler Examples.rt (Examples.host_at Examples.jan31)
                    (Examples.notify Examples.payload_monthly) ∅) in
  exists rec,
    st' !! "email:ada@example.com" = Some rec /\
    field Examples.payload_monthly "currency" = VString "usdt" /\
    field Examples.payload_monthly "amount" = VUndefined /\
    field rec "currency" = VString "usdt" /\
    field rec "currency" <> VString (JSString.toUpperCase "usdt") /\
    field rec "amount" = VNull /\
    field rec "amount" <> VNumber num_zero.
Proof.
  vm_compute. eexists. split; [reflexivity|].
  repeat split; discriminate.
Qed.

(** C2, amended: for every authentic and valid notification, both
    persisting revisions keep the plan as the lower-cased [String] of the
    field, the email trimmed and lower-cased or [null], and the wallet
    trimmed or [null] (the Supabase revision passes the two to
    [ensure_user]); [trim], [toLowerCase] and [toUpperCase] are those of
    the runtime, which on ASCII strings strip the six white space
    characters and map the 26 letters. The Blobs revision stores the
    record whenever the client accepts the key, and keeps amount and
    currency as received, [null] when absent or falsy. The Supabase
    revision inserts the row whenever [Number] of the amount and
    [toUpperCase] of the currency do not throw, the variables of the
    client are set, [createClient] accepts them and [ensure_user]
    answers without error; it keeps the currency
    upper-cased, "USDT" when the field is absent or falsy, and the
    amount as [Number(payload.amount || 0)]: the number itself when the
    field is a number other than 0 and NaN, and 0 when the field is
    absent or falsy. *)
Theorem persisted_fields_normalised rt host event payload n :
  notified rt host event payload n ->
  plan_valid n = true -> identity_present n = true ->
  clock_in_range host ->
  ((forall p', JS.ToString rt (JS.or_else (field payload "plan") (VString "")) = Normal p' ->
               id_plan n = JS.toLowerCase rt p') /\
   (forall s, field payload "plan" = VString s -> id_plan n = JS.toLowerCase rt s) /\
   (forall s, field payload "email" = VString s ->
              id_email n = JS.toLowerCase rt (JS.trim rt s)) /\
   (JS.truthy (field payload "email") = false -> id_email n = EmptyString) /\
   (forall s, field payload "wallet" = VString s -> id_wallet n = JS.trim rt s) /\
   (JS.truthy (field payload "wallet") = false -> id_wallet n = EmptyString)) /\
  (forall s, JSString.plain s = true ->
     JS.trim rt s = JSString.trim s /\
     JS.toLowerCase rt s = JSString.toLowerCase s /\
     JS.toUpperCase rt s = JSString.toUpperCase s) /\
  (forall st,
     Blobs.valid_key (Spec.identity_key rt (id_email n) (id_wallet n)) = true ->
     exists resp rec,
       WebhookBlobs.handler rt host event st =
         (Normal resp, <[Spec.identity_key rt (id_email n) (id_wallet n) := rec]> st) /\
       field rec "plan" = VString (id_plan n) /\
       field rec "email" = JS.str_or_null (id_email n) /\
       field rec "wallet" = JS.str_or_null (id_wallet n) /\
       field rec "currency" = JS.to_json (JS.or_else (field payload "currency") VNull) /\
       field rec "amount" = JS.to_json (JS.or_else (field payload "amount") VNull)) /\
  (forall c amount cur,
     converted rt payload amount cur ->
     supabase_configured rt host ->
     JS.truthy (Supabase.error
                  (Supabase.answer c (Supabase.Rpc "ensure_user" (ensure_user_args n)))) = false ->
     exists resp row,
       WebhookSupabase.handler rt host event c =
         (Normal resp,
          {| Supabase.answer := Supabase.answer c;
             Supabase.sent :=
               (Supabase.sent c ++
                [Supabase.Rpc "ensure_user"
                   (VObject [("_email", JS.str_or_null (id_email n));
                             ("_wallet", JS.str_or_null (id_wallet n))])]) ++
               [Supabase.Insert "subscriptions" row "id, expires_at"] |}) /\
       field row "plan" = VString (id_plan n) /\
       field row "currency" = VString cur /\
       field row "amount" = VNumber amount /\
       (forall s, field payload "currency" = VString s -> JSString.is_empty s = false ->
                  cur = JS.toUpperCase rt s) /\
       (JS.truthy (field payload "currency") = false -> cur = "USDT") /\
       (forall x, field payload "amount" = VNumber x -> JS.truthy (VNumber x) = true ->
                  amount = x) /\
       (JS.truthy (field payload "amount") = false -> amount = num_zero)).
Proof.
  intros Hn Hplan Hid Hclock.
  pose proof (expires_in_range host (id_plan n) Hplan Hclock) as Hexp.
  pose proof (ntf_fields _ _ _ _ _ Hn) as Hf.
  split; [|split; [|split]].
  - split; [exact (normalize_plan _ _ _ Hf)|].
    split; [exact (normalize_plan_string _ _ _ Hf)|].
    split; [exact (normalize_email_string _ _ _ Hf)|].
    split; [exact (normalize_email_falsy _ _ _ Hf)|].
    split; [exact (normalize_wallet_string _ _ _ Hf)|exact (normalize_wallet_falsy _ _ _ Hf)].
  - intros s Hs. split; [exact (trim_plain rt s Hs)|].
    split; [exact (toLowerCase_plain rt s Hs)|exact (toUpperCase_plain rt s Hs)].
  - intros st Hkey.
    match type of Hexp with
    | _ = Some ?e =>
        destruct (member_fields payload n (JSDate.ISOString (clock host)) (JSDate.ISOString e))
          as (He & Hw & Hp & Ha & Hc & _ & _)
    end.
    eexists _, _. split; [apply (blobs_saved _ _ _ _ _ _ st Hn Hplan Hid Hexp Hkey)|].
    repeat split; assumption.
  - intros c amount cur Hcv Henv Hens.
    destruct (supabase_saved _ _ _ _ _ _ _ _ c Hn Hcv Hplan Hid Henv Hens Hexp)
      as [resp Hrun].
    destruct Hcv as [Hamount Hcur].
    eexists resp, _. split; [exact Hrun|].
    split; [reflexivity|]. split; [reflexivity|]. split; [reflexivity|].
    split; [|split; [|split]].
    + intros s Hs Hne. rewrite Hs in Hcur. exact (currency_upper _ _ _ Hne Hcur).
    + intros Hfalsy. exact (currency_default _ _ _ Hfalsy Hcur).
    + intros x Hx Htr. rewrite Hx, (amount_number rt x Htr) in Hamount. congruence.
    + intros Hfalsy. rewrite (amount_default rt _ Hfalsy) in Hamount. congruence.
Qed.

(** A run of C2 on the Supabase revision: "usdt" is kept as "USDT", the
    absent amount as 0. *)
Lemma persisted_fields_normalised_witness :
  notified Examples.rt (Examples.host_at Examples.jan31)
    (Examples.notify Examples.payload_monthly) Examples.payload_monthly
    Examples.identity_monthly /\
  plan_valid Examples.identity_monthly = true /\
  identity_present Examples.identity_monthly = true /\
  clock_in_range (Examples.host_at Examples.jan31) /\
  converted Examples.rt Examples.payload_monthly num_zero "USDT" /\
  exists row,
    In (Supabase.Insert "subscriptions" row "id, expires_at")
       (Supabase.sent (snd (WebhookSupabase.handler Examples.rt
                              (Examples.host_at Examples.jan31)
                              (Examples.notify Examples.payload_monthly)
                              Examples.supabase))) /\
    field row "currency" = VString "USDT" /\
    field row "amount" = VNumber num_zero.
Proof.
  assert (Hn := notified_monthly Examples.jan31).
  assert (Hc : clock_in_range (Examples.host_at Examples.jan31))
    by (vm_compute; split; discriminate).
  assert (Hcv : converted Examples.rt Examples.payload_monthly num_zero "USDT")
    by (split; vm_compute; reflexivity).
  split; [exact Hn|]. split; [reflexivity|]. split; [reflexivity|]. split; [exact Hc|].
  split; [exact Hcv|].
  destruct (persisted_fields_normalised _ _ _ _ _ Hn eq_refl eq_refl Hc) as (_ & _ & _ & Hsupa).
  destruct (Hsupa Examples.supabase num_zero "USDT" Hcv (conj eq_refl eq_refl) eq_refl)
    as (resp & row & Hrun & _ & Hcur & Hamount & _).
  exists row. rewrite Hrun. cbn [snd Supabase.sent].
  split; [apply in_or_app; right; left; reflexivity|].
  split; [exact Hcur|exact Hamount].
Defined.

(** Outside ASCII the case of a letter is the one of the runtime: on a
    runtime that knows the letters of Latin-1 the email "ÄDA@Example.com"
    is kept, and keyed, as "äda@example.com". *)
Example latin1_email_is_lower_cased :
  JSString.plain "ÄDA@Example.com" = false /\
  exists resp rec,
    WebhookBlobs.handler Cases.rt_latin1 (Examples.host_at Examples.jan31)
      (Examples.notify Cases.payload_latin1) ∅ =
      (Normal resp, <["email:äda@example.com" := rec]> ∅) /\
    body_field resp "key" = VString "email:äda@example.com" /\
    field rec "email" = VString "äda@example.com".
Proof. split; [reflexivity|]. vm_compute. eexists _, _. repeat split. Qed.

(** ** The check of the secret (C3, C4) *)

(** C3, as the specification reads it, fails: the header lookup is not
    case-insensitive. A request that carries the secret in a header
    named X-HELIO-SIGNATURE, a casing of the header name, is answered
    401. *)
Lemma upper_case_header_name_unauthorized :
  JSString.toLowerCase "X-HELIO-SIGNATURE" = "x-helio-signature" /\
  Event.headers (Examples.post "X-HELIO-SIGNATURE" None) !! "X-HELIO-SIGNATURE" =
    HELIO_WEBHOOK_SECRET (Examples.host_at 0) /\
  WebhookBlobs.handler Examples.rt (Examples.host_at 0)
    (Examples.post "X-HELIO-SIGNATURE" None) ∅ =
    (Normal (Response.plain 401 "Unauthorized"), ∅) /\
  fst (WebhookSupabase.handler Examples.rt (Examples.host_at 0)
         (Examples.post "X-HELIO-SIGNATURE" None) Examples.supabase) =
    Normal (json 401 (VObject [("ok", VBool false); ("error", VString "Unauthorized")])).
Proof. repeat split; vm_compute; reflexivity. Qed.

(** C3, amended: the handlers read the signature under two spellings of
    the header name only, [x-helio-signature] first and
    [X-Helio-Signature] when the first is absent or empty. For every POST
    request and configured secret: when the header read this way is the
    secret, no revision answers with one of the two refusals of the
    check (401, or 500 for a missing secret); when it is absent or
    differs from the secret, every revision answers 401 and leaves its
    state as it was. *)
Theorem signature_read_under_two_names rt host event secret :
  Event.httpMethod event = "POST" ->
  HELIO_WEBHOOK_SECRET host = Some secret -> secret <> EmptyString ->
  let lower := Event.headers event !! "x-helio-signature" in
  let canonical := Event.headers event !! "X-Helio-Signature" in
  let carried := lower = Some secret \/ (Env.unset lower = true /\ canonical = Some secret) in
  (carried ->
   (forall st resp st',
      WebhookBlobs.handler rt host event st = (Normal resp, st') ->
      Response.statusCode resp <> 401 /\ resp <> Response.plain 500 "Server misconfigured") /\
   (forall c resp c',
      WebhookSupabase.handler rt host event c = (Normal resp, c') ->
      Response.statusCode resp <> 401 /\
      resp <> json 500 (VObject [("ok", VBool false);
                                 ("error", VString "Missing HELIO_WEBHOOK_SECRET")])) /\
   (forall u resp u',
      WebhookPlaceholder.handler rt host event u = (Normal resp, u') ->
      Response.statusCode resp <> 401 /\ resp <> Response.plain 500 "Server misconfigured")) /\
  (~ carried ->
   (forall st,
      WebhookBlobs.handler rt host event st = (Normal (Response.plain 401 "Unauthorized"), st)) /\
   (forall c,
      WebhookSupabase.handler rt host event c =
        (Normal (json 401 (VObject [("ok", VBool false); ("error", VString "Unauthorized")])),
         c)) /\
   (forall u,
      WebhookPlaceholder.handler rt host event u =
        (Normal (Response.plain 401 "Unauthorized"), u))).
Proof.
  intros Hm Hsecret Hne lower canonical carried.
  assert (Hs : Env.unset (HELIO_WEBHOOK_SECRET host) = false).
  { rewrite Hsecret. destruct secret; [now destruct Hne|reflexivity]. }
  assert (Hiff : carried <-> signature_of event = HELIO_WEBHOOK_SECRET host).
  { unfold carried, signature_of, Env.or_else. fold lower canonical. rewrite Hsecret.
    destruct (Env.unset lower) eqn:Hl.
    - split; [intros [H|[_ H]]; [|exact H]|intros H; right; now split].
      rewrite H in Hl. rewrite <- Hsecret in Hl. congruence.
    - split; [intros [H|[H _]]; [exact H|discriminate]|intros H; now left]. }
  split.
  - intros Hc%Hiff.
    assert (Ha : authentic host event) by (split; assumption).
    split; [|split].
    + intros st resp st'. now apply blobs_passes.
    + intros c resp c'. now apply supabase_passes.
    + intros u resp u'. now apply placeholder_passes.
  - intros Hc. assert (Hsig : signature_of event <> HELIO_WEBHOOK_SECRET host)
      by (intros H; apply Hc, Hiff, H).
    split; [|split].
    + intros st. now apply blobs_unauthorized.
    + intros c. now apply supabase_unauthorized.
    + intros u. now apply placeholder_unauthorized.
Qed.

(** A run of C3 with the canonical spelling of the header name. *)
Lemma signature_read_under_two_names_witness :
  Event.httpMethod (Examples.post "X-Helio-Signature" None) = "POST" /\
  HELIO_WEBHOOK_SECRET (Examples.host_at 0) = Some "s3cret" /\
  "s3cret" <> EmptyString /\
  forall st resp st',
    WebhookBlobs.handler Examples.rt (Examples.host_at 0)
      (Examples.post "X-Helio-Signature" None) st = (Normal resp, st') ->
    Response.statusCode resp <> 401 /\ resp <> Response.plain 500 "Server misconfigured".
Proof.
  split; [reflexivity|]. split; [reflexivity|].
  assert (Hne : "s3cret" <> EmptyString) by discriminate.
  split; [exact Hne|].
  refine (proj1 (proj1 (signature_read_under_two_names Examples.rt (Examples.host_at 0)
                          (Examples.post "X-Helio-Signature" None) "s3cret"
                          eq_refl eq_refl Hne) _)).
  right. split; vm_compute; reflexivity.
Defined.

(** C4: when the secret is not configured (unset or empty), every POST
    request is answered 500 with the notice of the misconfiguration,
    whatever its headers and body, in every revision, and the state is
    left as it was; that response is neither the 401 of a failed check
    nor a success. *)
Theorem missing_secret_is_server_error rt host event :
  Event.httpMethod event = "POST" ->
  Env.unset (HELIO_WEBHOOK_SECRET host) = true ->
  (forall st,
     WebhookBlobs.handler rt host event st =
       (Normal (Response.plain 500 "Server misconfigured"), st)) /\
  (forall c,
     WebhookSupabase.handler rt host event c =
       (Normal (json 500 (VObject [("ok", VBool false);
                                   ("error", VString "Missing HELIO_WEBHOOK_SECRET")])), c)) /\
  (forall u,
     WebhookPlaceholder.handler rt host event u =
       (Normal (Response.plain 500 "Server misconfigured"), u)) /\
  Response.statusCode (Response.plain 500 "Server misconfigured") = 500 /\
  Response.statusCode
    (json 500 (VObject [("ok", VBool false);
                        ("error", VString "Missing HELIO_WEBHOOK_SECRET")])) = 500 /\
  Response.plain 500 "Server misconfigured" <> Response.plain 401 "Unauthorized".
Proof.
  intros Hm Hs. split; [|split; [|split]].
  - intros st. now apply blobs_misconfigured.
  - intros c. now apply supabase_misconfigured.
  - intros u. now apply placeholder_misconfigured.
  - repeat split. discriminate.
Qed.

(** A run of C4: no secret on the host, the header set all the same. *)
Lemma missing_secret_is_server_error_witness :
  Event.httpMethod (Examples.post "x-helio-signature" None) = "POST" /\
  Env.unset (HELIO_WEBHOOK_SECRET Examples.host_without_secret) = true /\
  WebhookBlobs.handler Examples.rt Examples.host_without_secret
    (Examples.post "x-helio-signature" None) ∅ =
    (Normal (Response.plain 500 "Server misconfigured"), ∅).
Proof.
  split; [reflexivity|]. split; [reflexivity|].
  exact (proj1 (missing_secret_is_server_error Examples.rt Examples.host_without_secret
                  (Examples.post "x-helio-signature" None) eq_refl eq_refl) ∅).
Defined.

(** ** An absent or empty body (C10) *)

(** C10: for every authentic POST request whose body is absent or the
    empty string, on a runtime that reads the text of the empty object as
    the empty object, every revision answers 200 with
    [{ok: true, ignored: true}] and leaves its state as it was. *)
Theorem empty_body_is_ignored rt host event :
  authentic host event -> no_body event ->
  JSON_parse rt "{}" = Some (VObject []) ->
  (forall st, WebhookBlobs.handler rt host event st = (Normal ignored, st)) /\
  (forall c, WebhookSupabase.handler rt host event c = (Normal ignored, c)) /\
  (forall u, WebhookPlaceholder.handler rt host event u = (Normal ignored, u)) /\
  Response.statusCode ignored = 200 /\
  body_field ignored "ok" = VBool true /\ body_field ignored "ignored" = VBool true.
Proof.
  intros Ha Hb Hp. split; [|split; [|split]].
  - intros st. now apply blobs_empty_body.
  - intros c. now apply supabase_empty_body.
  - intros u. now apply placeholder_empty_body.
  - repeat split.
Qed.

(** A run of C10 without a body. *)
Lemma empty_body_is_ignored_witness :
  authentic (Examples.host_at 0) (Examples.post "x-helio-signature" None) /\
  no_body (Examples.post "x-helio-signature" None) /\
  JSON_parse Examples.rt "{}" = Some (VObject []) /\
  WebhookBlobs.handler Examples.rt (Examples.host_at 0)
    (Examples.post "x-helio-signature" None) ∅ = (Normal ignored, ∅).
Proof.
  assert (Ha : authentic (Examples.host_at 0) (Examples.post "x-helio-signature" None))
    by (apply authentic_post; left; reflexivity).
  assert (Hb : no_body (Examples.post "x-helio-signature" None)) by (left; reflexivity).
  split; [exact Ha|]. split; [exact Hb|]. split; [reflexivity|].
  exact (proj1 (empty_body_is_ignored Examples.rt _ _ Ha Hb eq_refl) ∅).
Defined.

(** ** The membership query (C5) *)

(** C5 fails on the code by a slip: line 31 calls [store.getJSON], a
    method the store does not have, so every GET query that names an
    identity is answered 500 "Internal Server Error", whether a record is
    stored under its key or not, and the store is left as it was. The
    lines after the read do what the specification says on the value
    they are given: without a record they answer [not_found], and with a
    record whose [expires_at] is a string they answer as
    [Spec.membership_response] does; the handler never reaches them. *)
Theorem membership_query_is_500 rt host event st :
  Event.httpMethod event = "GET" ->
  let params := GetMembership.query_params rt event in
  let email :=
    JS.toLowerCase rt
      (JS.trim rt (default EmptyString (GetMembership.params_get params "email"))) in
  let wallet := JS.trim rt (default EmptyString (GetMembership.params_get params "wallet")) in
  JSString.is_empty email && JSString.is_empty wallet = false ->
  GetMembership.handler rt host event st =
    (Normal (Response.plain 500 "Internal Server Error"), st) /\
  Response.statusCode (Spec.membership_response rt (clock host)
                         (st !! Spec.identity_key rt email wallet)) = 200 /\
  (forall record,
     JS.truthy record = false ->
     GetMembership.answer rt host record st =
       (Normal (Spec.membership_response rt (clock host) None), st)) /\
  (forall record text,
     JS.truthy record = true -> field record "expires_at" = VString text ->
     GetMembership.answer rt host record st =
       (Normal (Spec.membership_response rt (clock host) (Some record)), st)).
Proof.
  intros Hm params email wallet Hid.
  split; [exact (query_run rt host event st Hm Hid)|].
  split; [|split].
  - unfold Spec.membership_response.
    destruct (st !! _) as [record|]; [|reflexivity].
    destruct (JS.truthy record); [|reflexivity].
    destruct (match field record "expires_at" with VString _ => _ | _ => _ end); reflexivity.
  - intros record Htr. now apply answer_not_found.
  - intros record text Htr Hf. now apply answer_found with (text := text).
Qed.

(** The failing input of C5: the record of the example is in the store
    and has not expired; the query for its email is answered 500, where
    the specification has 200 with [active] true and the record. *)
Lemma membership_query_is_500_witness :
  let st := snd (WebhookBlobs.handler Examples.rt (Examples.host_at Examples.jan31)
                   (Examples.notify Examples.payload_monthly) ∅) in
  Event.httpMethod (Examples.get "email=ada@example.com") = "GET" /\
  (exists rec,
     st !! "email:ada@example.com" = Some rec /\
     field rec "expires_at" = VString "2023-03-03T12:00:00.000Z" /\
     body_field (Spec.membership_response Examples.rt Examples.feb28 (Some rec)) "active" =
       VBool true) /\
  GetMembership.handler Examples.rt (Examples.host_at Examples.feb28)
    (Examples.get "email=ada@example.com") st =
    (Normal (Response.plain 500 "Internal Server Error"), st).
Proof.
  intros st. split; [reflexivity|]. split.
  - eexists. split; [vm_compute; reflexivity|]. split; vm_compute; reflexivity.
  - exact (proj1 (membership_query_is_500 Examples.rt (Examples.host_at Examples.feb28)
                    (Examples.get "email=ada@example.com") st eq_refl eq_refl)).
Defined.

(** Without a record under the key the answer is 500 as well. *)
Example membership_query_of_unknown_is_500 :
  GetMembership.handler Examples.rt (Examples.host_at Examples.feb28)
    (Examples.get "email=bob@example.com") ∅ =
    (Normal (Response.plain 500 "Internal Server Error"), ∅).
Proof. vm_compute. reflexivity. Qed.

(** On a store whose client had the method, returning the value kept
    under the key or [null], the query of the failing input is answered
    with the record: the slip is in the name of the method alone. *)
Example membership_query_on_a_store_with_getJSON :
  let st := snd (WebhookBlobs.handler Examples.rt (Examples.host_at Examples.jan31)
                   (Examples.notify Examples.payload_monthly) ∅) in
  let store_getJSON : string -> JS.M (gmap string value) value :=
    fun key st => (Normal (default VNull (st !! key)), st) in
  exists resp rec,
    GetMembership.handler_on store_getJSON Examples.rt (Examples.host_at Examples.feb28)
      (Examples.get "email=ada@example.com") st = (Normal resp, st) /\
    st !! "email:ada@example.com" = Some rec /\
    Response.statusCode resp = 200 /\
    body_field resp "active" = VBool true /\
    body_field resp "record" = rec.
Proof. vm_compute. eexists _, _. repeat split. Qed.

(** ** The validation step (C6) *)

(** C6, as the specification reads it, fails: an authentic notification
    of a succeeded payment with the unsupported plan "weekly" whose email
    is [true], not a string, is answered 500 by the [catch] of the
    handler, not 400; the store stays as it was. *)
Lemma weekly_plan_with_email_true_is_500 :
  authentic (Examples.host_at 0) (Examples.notify Examples.payload_weekly_email_true) /\
  parse_body Examples.rt (Examples.notify Examples.payload_weekly_email_true) =
    Normal Examples.payload_weekly_email_true /\
  field Examples.payload_weekly_email_true "event" = VString "payment_succeeded" /\
  field Examples.payload_weekly_email_true "plan" = VString "weekly" /\
  JS.includes ["monthly"; "yearly"] "weekly" = false /\
  WebhookBlobs.handler Examples.rt (Examples.host_at 0)
    (Examples.notify Examples.payload_weekly_email_true) ∅ =
    (Normal (Response.plain 500 "Internal Server Error"), ∅).
Proof. split; [split|repeat split]; vm_compute; reflexivity. Qed.

(** A notification whose fields do not normalise: the exception is
    caught. *)
Lemma blobs_normalize_throws rt host event payload e st :
  authentic host event ->
  parse_body rt event = Normal payload ->
  JS.get_prop payload "event" = Normal (VString "payment_succeeded") ->
  normalize rt payload = Throw e ->
  WebhookBlobs.handler rt host event st =
    (Normal (Response.plain 500 "Internal Server Error"), st).
Proof.
  intros Ha Hparse Hev Hn.
  destruct (get_prop_string_object _ _ _ Hev) as [ps ->].
  unfold normalize in Hn. cbn [field] in Hn.
  pass_check Ha. rewrite Hparse. cbn [JS.get_prop] in *. injection Hev as Hev.
  cbv iota. rewrite Hev. cbv [JS.not_strict_eq_string]. rewrite String.eqb_refl. cbn [negb].
  destruct (JS.ToString rt (JS.or_else (JS.lookup_prop "plan" ps) (VString "")));
    [|reflexivity].
  destruct (JS.call_trim rt (JS.or_else (JS.lookup_prop "email" ps) (VString "")));
    [|reflexivity].
  destruct (JS.call_trim rt (JS.or_else (JS.lookup_prop "wallet" ps) (VString "")));
    [discriminate|reflexivity].
Qed.

(** C6, amended: for every authentic notification of a succeeded
    payment, the Blobs revision first normalises the fields. When
    [String] of the plan throws, or the email or the wallet is truthy
    and no string, the exception is caught and the answer is 500
    "Internal Server Error"; [String] throws on a plan that is an object
    with a property [toString], and only an object or an array can make
    it throw. Otherwise the fields normalise, and the
    answer is 400 "Invalid plan" when the normalised plan is neither
    "monthly" nor "yearly", and 400 "Email or wallet required" when the
    plan is valid and the normalised email and wallet are both empty.
    In all these cases the store is as it was; and on every request, a
    response other than 200 comes with the store as it was. *)
Theorem invalid_notification_is_400 rt host event payload :
  authentic host event ->
  parse_body rt event = Normal payload ->
  JS.get_prop payload "event" = Normal (VString "payment_succeeded") ->
  let plan_text := JS.ToString rt (JS.or_else (field payload "plan") (VString "")) in
  (((forall p', plan_text <> Normal p') \/
    ~ string_or_falsy (field payload "email") \/
    ~ string_or_falsy (field payload "wallet")) ->
   forall st,
     WebhookBlobs.handler rt host event st =
       (Normal (Response.plain 500 "Internal Server Error"), st)) /\
  (forall ps, field payload "plan" = VObject ps -> JS.has_own "toString" ps = true ->
   forall p', plan_text <> Normal p') /\
  ((forall xs, field payload "plan" <> VArray xs) ->
   (forall ps, field payload "plan" <> VObject ps) ->
   exists p', plan_text = Normal p') /\
  ((exists p', plan_text = Normal p') ->
   string_or_falsy (field payload "email") ->
   string_or_falsy (field payload "wallet") ->
   exists n,
     normalize rt payload = Normal n /\
     (plan_valid n = false ->
      forall st,
        WebhookBlobs.handler rt host event st =
          (Normal (json 400 (VObject [("ok", VBool false); ("error", VString "Invalid plan")])),
           st)) /\
     (plan_valid n = true -> identity_present n = false ->
      forall st,
        WebhookBlobs.handler rt host event st =
          (Normal (json 400 (VObject [("ok", VBool false);
                                      ("error", VString "Email or wallet required")])), st))) /\
  (forall event' st resp st',
     WebhookBlobs.handler rt host event' st = (Normal resp, st') ->
     Response.statusCode resp <> 200 -> st' = st).
Proof.
  intros Ha Hparse Hev plan_text. split; [|split; [|split; [|split]]].
  - intros Hbad st.
    destruct (normalize rt payload) as [n|e] eqn:Hn.
    + exfalso. destruct (proj2 (normalize_defined rt payload) (ex_intro _ n Hn))
        as ([p' Hp] & He & Hw).
      destruct Hbad as [Hbad|[Hbad|Hbad]]; [exact (Hbad p' Hp)|exact (Hbad He)|exact (Hbad Hw)].
    + exact (blobs_normalize_throws _ _ _ _ _ st Ha Hparse Hev Hn).
  - intros ps Hplan Hown p'. unfold plan_text. rewrite Hplan.
    cbn [JS.or_else JS.truthy JS.ToString]. now rewrite Hown.
  - intros Harr Hobj. unfold plan_text, JS.or_else.
    destruct (JS.truthy (field payload "plan")); [|eexists; reflexivity].
    now apply ToString_primitive.
  - intros Hp He Hw.
    destruct (proj1 (normalize_defined rt payload) (conj Hp (conj He Hw))) as [n Hf].
    assert (Hn : notified rt host event payload n) by (split; assumption).
    exists n. split; [exact Hf|]. split.
    + intros Hplan st. now apply blobs_invalid_plan with (payload := payload) (n := n).
    + intros Hplan Hid st.
      now apply blobs_missing_identity with (payload := payload) (n := n).
  - intros event' st resp st'. apply blobs_error_keeps_store.
Qed.

(** A run of C6: the plan "weekly" with a proper email. *)
Lemma invalid_notification_is_400_witness :
  authentic (Examples.host_at 0) (Examples.notify Examples.payload_weekly) /\
  parse_body Examples.rt (Examples.notify Examples.payload_weekly) =
    Normal Examples.payload_weekly /\
  JS.get_prop Examples.payload_weekly "event" = Normal (VString "payment_succeeded") /\
  string_or_falsy (field Examples.payload_weekly "email") /\
  string_or_falsy (field Examples.payload_weekly "wallet") /\
  WebhookBlobs.handler Examples.rt (Examples.host_at 0)
    (Examples.notify Examples.payload_weekly) ∅ =
    (Normal (json 400 (VObject [("ok", VBool false); ("error", VString "Invalid plan")])), ∅).
Proof.
  assert (Ha : authentic (Examples.host_at 0) (Examples.notify Examples.payload_weekly))
    by (split; vm_compute; reflexivity).
  assert (He : string_or_falsy (field Examples.payload_weekly "email")) by exact I.
  assert (Hw : string_or_falsy (field Examples.payload_weekly "wallet")) by reflexivity.
  split; [exact Ha|]. split; [reflexivity|]. split; [reflexivity|].
  split; [exact He|]. split; [exact Hw|].
  destruct (invalid_notification_is_400 Examples.rt _ _ Examples.payload_weekly
              Ha eq_refl eq_refl) as (_ & _ & _ & Hvalid & _).
  destruct (Hvalid (ex_intro _ "weekly" eq_refl) He Hw) as (n & Hn & Hplan & _).
  apply Hplan. vm_compute in Hn. injection Hn as <-. reflexivity.
Defined.

(** White space outside ASCII is trimmed by the runtime: an email that
    is a no-break space, without a wallet, is no identity. *)
Example nbsp_email_is_missing_identity :
  JSString.blank Cases.nbsp = false /\
  WebhookBlobs.handler Cases.rt_latin1 (Examples.host_at Examples.jan31)
    (Examples.notify Cases.payload_nbsp) ∅ =
    (Normal (json 400 (VObject [("ok", VBool false);
                                ("error", VString "Email or wallet required")])), ∅).
Proof. split; vm_compute; reflexivity. Qed.

(** A plan that [String] cannot convert: the object with the property
    [toString] is answered 500, whatever the email. *)
Example plan_with_toString_is_500 :
  JS.ToString Cases.rt (field Cases.payload_plan_object "plan") = Throw TypeError /\
  WebhookBlobs.handler Cases.rt (Examples.host_at Examples.jan31)
    (Examples.notify Cases.payload_plan_object) ∅ =
    (Normal (Response.plain 500 "Internal Server Error"), ∅).
Proof. split; vm_compute; reflexivity. Qed.

(** ** The identity key (C7, C8) *)

(** C7: both handlers derive the key by the same expression,
    [store_key], which is the key [Spec.identity_key] of their
    normalised email and wallet: ["email:" + email] whenever the
    normalised email is not empty, whatever the wallet, and
    ["wallet:" + lower-cased wallet] otherwise. The Blobs revision hands
    it to [setJSON]: the record is written under it, and the response
    reports it, when the client accepts the key, and the answer is 500
    with the store as it was when the client refuses it. The query hands
    it to [getJSON]: whatever the store does on that call, the run of the
    handler is the call with that key followed by lines 33 to 46. *)
Theorem identity_key_prefers_email rt host :
  (forall event payload n st,
     notified rt host event payload n ->
     plan_valid n = true -> identity_present n = true -> clock_in_range host ->
     let key := Spec.identity_key rt (id_email n) (id_wallet n) in
     (Blobs.valid_key key = true ->
      exists resp rec,
        WebhookBlobs.handler rt host event st = (Normal resp, <[key := rec]> st) /\
        body_field resp "key" = VString key) /\
     (Blobs.valid_key key = false ->
      WebhookBlobs.handler rt host event st =
        (Normal (Response.plain 500 "Internal Server Error"), st))) /\
  (forall store_getJSON event st,
     Event.httpMethod event = "GET" ->
     let params := GetMembership.query_params rt event in
     let email :=
       JS.toLowerCase rt
         (JS.trim rt (default EmptyString (GetMembership.params_get params "email"))) in
     let wallet :=
       JS.trim rt (default EmptyString (GetMembership.params_get params "wallet")) in
     JSString.is_empty email && JSString.is_empty wallet = false ->
     GetMembership.handler_on store_getJSON rt host event st =
       JS.try_catch
         (let* record := store_getJSON (Spec.identity_key rt email wallet) in
          GetMembership.answer rt host record)
         (fun _ => JS.ret (Response.plain 500 "Internal Server Error")) st) /\
  (forall email wallet, store_key rt email wallet = Spec.identity_key rt email wallet) /\
  (forall email wallet,
     (JSString.is_empty email = false ->
      Spec.identity_key rt email wallet = "email:" +:+ email) /\
     (JSString.is_empty email = true ->
      Spec.identity_key rt email wallet = "wallet:" +:+ JS.toLowerCase rt wallet)) /\
  (forall wallet,
     JSString.plain wallet = true -> JS.toLowerCase rt wallet = JSString.toLowerCase wallet).
Proof.
  split; [|split; [|split; [|split]]].
  - intros event payload n st Hn Hplan Hid Hclock key.
    pose proof (expires_in_range host (id_plan n) Hplan Hclock) as Hexp. split.
    + intros Hkey. eexists _, _.
      split; [apply (blobs_saved _ _ _ _ _ _ st Hn Hplan Hid Hexp Hkey)|reflexivity].
    + intros Hkey. exact (blobs_refused_key _ _ _ _ _ _ st Hn Hplan Hid Hexp Hkey).
  - intros store_getJSON event st Hm params email wallet Hid. now apply query_reads_key.
  - intros email wallet. apply identity_key_code.
  - intros email wallet. unfold Spec.identity_key. split; intros ->; reflexivity.
  - intros wallet. apply toLowerCase_plain.
Qed.

(** A run of C7: the notification carries an email and a wallet, the key
    is the one of the email. *)
Lemma identity_key_prefers_email_witness :
  notified Examples.rt (Examples.host_at Examples.jan31)
    (Examples.notify Examples.payload_monthly) Examples.payload_monthly
    Examples.identity_monthly /\
  clock_in_range (Examples.host_at Examples.jan31) /\
  field Examples.payload_monthly "wallet" = VString "0xABC" /\
  exists resp rec,
    WebhookBlobs.handler Examples.rt (Examples.host_at Examples.jan31)
      (Examples.notify Examples.payload_monthly) ∅ =
      (Normal resp, <["email:ada@example.com" := rec]> ∅) /\
    body_field resp "key" = VString "email:ada@example.com".
Proof.
  assert (Hn := notified_monthly Examples.jan31).
  assert (Hc : clock_in_range (Examples.host_at Examples.jan31))
    by (vm_compute; split; discriminate).
  split; [exact Hn|]. split; [exact Hc|]. split; [reflexivity|].
  exact (proj1 (proj1 (identity_key_prefers_email Examples.rt (Examples.host_at Examples.jan31))
                  _ _ _ ∅ Hn eq_refl eq_refl Hc) eq_refl).
Defined.

(** A key that the client refuses: a wallet of 600 characters makes a
    key of 607 bytes, and the notification is answered 500 with nothing
    stored. *)
Example key_over_600_bytes_is_500 :
  String.length (Spec.identity_key Cases.rt EmptyString Cases.long_wallet) = 607%nat /\
  Blobs.valid_key (Spec.identity_key Cases.rt EmptyString Cases.long_wallet) = false /\
  WebhookBlobs.handler Cases.rt (Examples.host_at Examples.jan31)
    (Examples.notify Cases.payload_long_wallet) ∅ =
    (Normal (Response.plain 500 "Internal Server Error"), ∅).
Proof. split; [|split]; vm_compute; reflexivity. Qed.

(** By design a record is owned by one identity: the record of a
    notification that carries an email and a wallet is kept under the
    email, and the wallet alone derives another key. *)
Example wallet_derives_another_key :
  Spec.identity_key Examples.rt "ada@example.com" "0xABC" = "email:ada@example.com" /\
  Spec.identity_key Examples.rt EmptyString "0xABC" = "wallet:0xabc".
Proof. split; reflexivity. Qed.

(** C8 fails on the code by the slip of C5. A record written by the
    Blobs revision is in the store under the key of its identity, and a
    query for that identity derives the same key: with an email, every
    query whose email is that email up to ASCII case and surrounding
    white space, and without an email every query without an email
    whose wallet is the wallet of the notification up to the same. But
    the read of line 31 throws, and the query is answered 500 instead of
    the record. *)
Theorem round_trip_query_is_500 rt host event payload n st qhost qevent :
  notified rt host event payload n ->
  plan_valid n = true -> identity_present n = true -> clock_in_range host ->
  Blobs.valid_key (Spec.identity_key rt (id_email n) (id_wallet n)) = true ->
  Event.httpMethod qevent = "GET" ->
  let exp := JSDate.UTC (tza host) (local_expiry (tza host) (id_plan n) (clock host)) in
  let stored :=
    JS.to_json (member_of payload n (JSDate.ISOString (clock host)) (JSDate.ISOString exp)) in
  let key := Spec.identity_key rt (id_email n) (id_wallet n) in
  let st' := snd (WebhookBlobs.handler rt host event st) in
  let params := GetMembership.query_params rt qevent in
  let qemail :=
    Spec.normalize_email rt (default EmptyString (GetMembership.params_get params "email")) in
  let qwallet :=
    Spec.normalize_wallet rt (default EmptyString (GetMembership.params_get params "wallet")) in
  st' !! key = Some stored /\
  (forall p q,
     field payload "email" = VString p -> JSString.is_empty (id_email n) = false ->
     GetMembership.params_get params "email" = Some q ->
     JSString.plain p = true -> JSString.plain q = true -> Spec.variation p q ->
     Spec.identity_key rt qemail qwallet = key /\
     GetMembership.handler rt qhost qevent st' =
       (Normal (Response.plain 500 "Internal Server Error"), st')) /\
  (forall p q,
     field payload "wallet" = VString p -> JSString.is_empty (id_email n) = true ->
     GetMembership.params_get params "wallet" = Some q ->
     JSString.plain p = true -> JSString.plain q = true -> Spec.variation p q ->
     JSString.is_empty qemail = true ->
     Spec.identity_key rt qemail qwallet = key /\
     GetMembership.handler rt qhost qevent st' =
       (Normal (Response.plain 500 "Internal Server Error"), st')).
Proof.
  intros Hn Hplan Hid Hclock Hvalid Hm exp stored key st' params qemail qwallet.
  pose proof (ntf_fields _ _ _ _ _ Hn) as Hf.
  assert (Hlook : st' !! key = Some stored).
  { unfold st'. rewrite (blobs_store_after _ _ _ _ _ st Hn Hplan Hid Hclock). cbv zeta.
    rewrite Hvalid. apply lookup_insert_eq. }
  split; [exact Hlook|]. split.
  - intros p q Hp Hne Hq Hpp Hpq Hvar.
    assert (Heq : qemail = id_email n).
    { unfold qemail. rewrite Hq. cbn [default from_option]. unfold id.
      rewrite (normalize_email_string _ _ _ Hf _ Hp).
      rewrite !normalize_email_plain by assumption.
      exact (variation_normalize _ _ Hvar). }
    split; [unfold key, Spec.identity_key; now rewrite Heq, Hne|].
    apply (query_run rt qhost qevent st' Hm). fold params qemail. now rewrite Heq, Hne.
  - intros p q Hp He Hq Hpp Hpq Hvar Hqe.
    assert (Hw : id_wallet n = JSString.trim p).
    { rewrite (normalize_wallet_string _ _ _ Hf _ Hp). now apply normalize_wallet_plain. }
    assert (Hqw : qwallet = JSString.trim q).
    { unfold qwallet. rewrite Hq. cbn [default from_option]. unfold id.
      now apply normalize_wallet_plain. }
    assert (Heq : JS.toLowerCase rt qwallet = JS.toLowerCase rt (id_wallet n)).
    { rewrite Hw, Hqw.
      rewrite !toLowerCase_plain by (apply plain_trim; assumption).
      exact (variation_normalize _ _ Hvar). }
    split; [unfold key, Spec.identity_key; now rewrite Hqe, He, Heq|].
    apply (query_run rt qhost qevent st' Hm). fold params qemail qwallet.
    rewrite Hqe. cbn [andb].
    unfold identity_present in Hid. rewrite He in Hid. cbn [andb] in Hid.
    apply negb_true_iff in Hid.
    rewrite Hqw. rewrite Hw in Hid.
    now rewrite <- is_empty_toLowerCase, (variation_normalize _ _ Hvar), is_empty_toLowerCase.
Qed.

(** The failing input of C8: written for " Ada@Example.com ", asked for
    "ADA@example.COM" four weeks later; the record is in the store under
    the key the query derives, and the answer is 500. *)
Lemma round_trip_query_is_500_witness :
  let st' := snd (WebhookBlobs.handler Examples.rt (Examples.host_at Examples.jan31)
                    (Examples.notify Examples.payload_monthly) ∅) in
  Spec.variation " Ada@Example.com " "ADA@example.COM" /\
  (exists rec, st' !! "email:ada@example.com" = Some rec) /\
  GetMembership.handler Examples.rt (Examples.host_at Examples.feb28)
    (Examples.get "email=ADA@example.COM") st' =
    (Normal (Response.plain 500 "Internal Server Error"), st').
Proof.
  intros st'.
  assert (Hn := notified_monthly Examples.jan31).
  assert (Hc : clock_in_range (Examples.host_at Examples.jan31))
    by (vm_compute; split; discriminate).
  assert (Hv : Spec.variation " Ada@Example.com " "ADA@example.COM").
  { exists " ", " ", "Ada@Example.com", EmptyString, EmptyString, "ADA@example.COM".
    repeat split. }
  split; [exact Hv|].
  destruct (round_trip_query_is_500 Examples.rt (Examples.host_at Examples.jan31)
              (Examples.notify Examples.payload_monthly) Examples.payload_monthly
              Examples.identity_monthly ∅ (Examples.host_at Examples.feb28)
              (Examples.get "email=ADA@example.COM") Hn eq_refl eq_refl Hc eq_refl eq_refl)
    as (Hlook & Hemail & _).
  split; [eexists; exact Hlook|].
  exact (proj2 (Hemail " Ada@Example.com " "ADA@example.COM" eq_refl eq_refl eq_refl
                  eq_refl eq_refl Hv)).
Defined.

(** * Further properties: the gates of the handlers *)

(** X1: a request whose method is not POST is answered 405 "Method Not
    Allowed" by the three revisions of the webhook, before the secret is
    looked at, and nothing is stored or sent. *)
Theorem webhook_other_method_is_405 rt host event :
  Event.httpMethod event <> "POST" ->
  (forall st, WebhookBlobs.handler rt host event st =
                (Normal (Response.plain 405 "Method Not Allowed"), st)) /\
  (forall c, WebhookSupabase.handler rt host event c =
               (Normal (Response.plain 405 "Method Not Allowed"), c)) /\
  (forall u, WebhookPlaceholder.handler rt host event u =
               (Normal (Response.plain 405 "Method Not Allowed"), u)).
Proof.
  intros Hm%String.eqb_neq.
  repeat split; intros s; open_handler; now rewrite Hm.
Qed.

(** A GET sent to the webhook of a host without a secret. *)
Lemma webhook_other_method_is_405_witness :
  Event.httpMethod (Cases.bare "GET") <> "POST" /\
  WebhookBlobs.handler Cases.rt Examples.host_without_secret (Cases.bare "GET") ∅ =
    (Normal (Response.plain 405 "Method Not Allowed"), ∅).
Proof.
  assert (Hm : Event.httpMethod (Cases.bare "GET") <> "POST") by discriminate.
  split; [exact Hm|].
  exact (proj1 (webhook_other_method_is_405 Cases.rt Examples.host_without_secret
                  (Cases.bare "GET") Hm) ∅).
Defined.

(** X2: the query answers every request and leaves the store as it
    was: 405 when the method is not GET, 400 with the reason
    "missing_param" when the normalised email and wallet of the query
    are both empty, and 500 "Internal Server Error" for every query that
    names an identity, since the read of the store throws. It never
    answers 200. For parameters of ASCII characters the normalised email
    and wallet are both empty exactly when both parameters are absent or
    blank. *)
Theorem query_answers_without_writing rt host event st :
  let params := GetMembership.query_params rt event in
  let raw_email := default EmptyString (GetMembership.params_get params "email") in
  let raw_wallet := default EmptyString (GetMembership.params_get params "wallet") in
  let email := JS.toLowerCase rt (JS.trim rt raw_email) in
  let wallet := JS.trim rt raw_wallet in
  (exists resp,
     GetMembership.handler rt host event st = (Normal resp, st) /\
     Response.statusCode resp <> 200 /\
     (Event.httpMethod event <> "GET" -> resp = Response.plain 405 "Method Not Allowed") /\
     (Event.httpMethod event = "GET" ->
      JSString.is_empty email && JSString.is_empty wallet = true ->
      resp = json 400 (VObject [("ok", VBool false); ("active", VBool false);
                                ("reason", VString "missing_param")])) /\
     (Event.httpMethod event = "GET" ->
      JSString.is_empty email && JSString.is_empty wallet = false ->
      resp = Response.plain 500 "Internal Server Error")) /\
  (JSString.plain raw_email = true -> JSString.plain raw_wallet = true ->
   JSString.is_empty email && JSString.is_empty wallet =
     JSString.blank raw_email && JSString.blank raw_wallet).
Proof.
  intros params raw_email raw_wallet email wallet. split.
  - destruct (String.eqb (Event.httpMethod event) "GET") eqn:Hm.
    + apply String.eqb_eq in Hm.
      destruct (JSString.is_empty email && JSString.is_empty wallet) eqn:Hb.
      * eexists. split; [apply (query_missing_param rt host event st Hm); exact Hb|].
        split; [discriminate|]. split; [congruence|]. split; [reflexivity|discriminate].
      * eexists. split; [apply (query_run rt host event st Hm); exact Hb|].
        split; [discriminate|]. split; [congruence|]. split; [discriminate|reflexivity].
    + exists (Response.plain 405 "Method Not Allowed").
      split; [|split; [discriminate|split;
        [reflexivity|apply String.eqb_neq in Hm; split; intros; contradiction]]].
      unfold GetMembership.handler, GetMembership.handler_on.
      cbv [JS.try_catch JS.bind JS.lift JS.ret]. now rewrite Hm.
  - intros He Hw.
    change email with (Spec.normalize_email rt raw_email).
    change wallet with (Spec.normalize_wallet rt raw_wallet).
    now rewrite is_empty_normalize_email, is_empty_normalize_wallet.
Qed.

(** A query for an email, on the empty store. *)
Lemma query_answers_without_writing_witness :
  JSString.plain "ada@example.com" = true /\
  GetMembership.handler Examples.rt (Examples.host_at 0)
    (Examples.get "email=ada@example.com") ∅ =
    (Normal (Response.plain 500 "Internal Server Error"), ∅).
Proof.
  split; [reflexivity|].
  destruct (proj1 (query_answers_without_writing Examples.rt (Examples.host_at 0)
                     (Examples.get "email=ada@example.com") ∅))
    as (resp & Hrun & _ & _ & _ & H500).
  rewrite Hrun. now rewrite (H500 eq_refl eq_refl).
Defined.

(** X3: an authentic request whose body parses to a value other than
    [null] and whose [event] is not the string "payment_succeeded" (a
    missing [event] included) is answered 200 with ok and ignored true
    by the three revisions, and nothing is stored or sent. *)
Theorem other_event_is_ignored rt host event payload :
  authentic host event ->
  parse_body rt event = Normal payload ->
  payload <> VNull -> payload <> VUndefined ->
  field payload "event" <> VString "payment_succeeded" ->
  (forall st, WebhookBlobs.handler rt host event st = (Normal ignored, st)) /\
  (forall c, WebhookSupabase.handler rt host event c = (Normal ignored, c)) /\
  (forall u, WebhookPlaceholder.handler rt host event u = (Normal ignored, u)).
Proof.
  intros Ha Hparse Hnull Hundef Hev. split; [|split]; intros s.
  - exact (blobs_other_event rt host event payload Ha Hparse Hnull Hundef Hev s).
  - exact (supabase_other_event rt host event payload Ha Hparse Hnull Hundef Hev s).
  - exact (placeholder_other_event rt host event payload Ha Hparse Hnull Hundef Hev s).
Qed.

(** A refund notification with a valid plan and an email. *)
Lemma other_event_is_ignored_witness :
  authentic (Examples.host_at 0) (Examples.notify Cases.payload_refunded) /\
  parse_body Cases.rt (Examples.notify Cases.payload_refunded) = Normal Cases.payload_refunded /\
  field Cases.payload_refunded "event" = VString "payment_refunded" /\
  WebhookBlobs.handler Cases.rt (Examples.host_at 0) (Examples.notify Cases.payload_refunded) ∅ =
    (Normal ignored, ∅).
Proof.
  assert (Ha : authentic (Examples.host_at 0) (Examples.notify Cases.payload_refunded))
    by (split; vm_compute; reflexivity).
  assert (Hp : parse_body Cases.rt (Examples.notify Cases.payload_refunded) =
               Normal Cases.payload_refunded) by (vm_compute; reflexivity).
  split; [exact Ha|]. split; [exact Hp|]. split; [reflexivity|].
  refine (proj1 (other_event_is_ignored Cases.rt _ _ _ Ha Hp _ _ _) ∅); discriminate.
Defined.

(** X4: an authentic request whose body is no JSON text, or is the JSON
    text of [null], is answered 500 "Internal Server Error" by the three
    revisions: the exception is caught, and nothing is stored or sent. *)
Theorem unreadable_body_is_500 rt host event :
  authentic host event ->
  parse_body rt event = Throw SyntaxError \/ parse_body rt event = Normal VNull ->
  (forall st, WebhookBlobs.handler rt host event st =
                (Normal (Response.plain 500 "Internal Server Error"), st)) /\
  (forall c, WebhookSupabase.handler rt host event c =
               (Normal (Response.plain 500 "Internal Server Error"), c)) /\
  (forall u, WebhookPlaceholder.handler rt host event u =
               (Normal (Response.plain 500 "Internal Server Error"), u)).
Proof.
  intros Ha Hparse. split; [|split]; intros s.
  - exact (blobs_unreadable rt host event Ha Hparse s).
  - exact (supabase_unreadable rt host event Ha Hparse s).
  - exact (placeholder_unreadable rt host event Ha Hparse s).
Qed.

(** A body cut short, and the body [null]. *)
Lemma unreadable_body_is_500_witness :
  authentic (Examples.host_at 0) (Examples.post "x-helio-signature" (Some "{oops")) /\
  parse_body Cases.rt (Examples.post "x-helio-signature" (Some "{oops")) = Throw SyntaxError /\
  parse_body Cases.rt (Examples.post "x-helio-signature" (Some "null")) = Normal VNull /\
  WebhookBlobs.handler Cases.rt (Examples.host_at 0)
    (Examples.post "x-helio-signature" (Some "{oops")) ∅ =
    (Normal (Response.plain 500 "Internal Server Error"), ∅) /\
  WebhookBlobs.handler Cases.rt (Examples.host_at 0)
    (Examples.post "x-helio-signature" (Some "null")) ∅ =
    (Normal (Response.plain 500 "Internal Server Error"), ∅).
Proof.
  assert (Ha : forall b, authentic (Examples.host_at 0) (Examples.post "x-helio-signature" b))
    by (intros b; split; vm_compute; reflexivity).
  assert (H1 : parse_body Cases.rt (Examples.post "x-helio-signature" (Some "{oops")) =
               Throw SyntaxError) by (vm_compute; reflexivity).
  assert (H2 : parse_body Cases.rt (Examples.post "x-helio-signature" (Some "null")) =
               Normal VNull) by (vm_compute; reflexivity).
  split; [exact (Ha _)|]. split; [exact H1|]. split; [exact H2|]. split.
  - exact (proj1 (unreadable_body_is_500 Cases.rt _ _ (Ha _) (or_introl H1)) ∅).
  - exact (proj1 (unreadable_body_is_500 Cases.rt _ _ (Ha _) (or_intror H2)) ∅).
Defined.

(** X5: every run of a webhook revision ends in a response, whatever the
    request, the host and the service answer: no exception leaves the
    handler, and the status is one of 200, 400, 401, 405 and 500; the
    placeholder revision never answers 400. *)
Theorem webhook_always_responds rt host event :
  (forall st, exists resp,
     fst (WebhookBlobs.handler rt host event st) = Normal resp /\
     In (Response.statusCode resp) [200; 400; 401; 405; 500]) /\
  (forall c, exists resp,
     fst (WebhookSupabase.handler rt host event c) = Normal resp /\
     In (Response.statusCode resp) [200; 400; 401; 405; 500]) /\
  (forall u, exists resp,
     fst (WebhookPlaceholder.handler rt host event u) = Normal resp /\
     In (Response.statusCode resp) [200; 401; 405; 500]).
Proof.
  split; [|split]; intros s.
  - destruct (WebhookBlobs.handler rt host event s) as [r s'] eqn:H. revert H.
    open_handler. intros H. leaves H.
    all: apply (f_equal fst) in H; cbn [fst] in H; subst r;
      eexists; (split; [reflexivity|]); cbn; tauto.
  - destruct (WebhookSupabase.handler rt host event s) as [r s'] eqn:H. revert H.
    open_handler. intros H. leaves H.
    all: apply (f_equal fst) in H; cbn [fst] in H; subst r;
      eexists; (split; [reflexivity|]); cbn; tauto.
  - destruct (WebhookPlaceholder.handler rt host event s) as [r s'] eqn:H. revert H.
    open_handler. intros H. leaves H.
    all: apply (f_equal fst) in H; cbn [fst] in H; subst r;
      eexists; (split; [reflexivity|]); cbn; tauto.
Qed.

(** * Further properties: the store of the Blobs revision *)

(** X6: a run of the Blobs revision deletes no entry of the store, and
    changes at most the entry under the key of the identity of the
    notification it accepts, as the handler normalises it: the entries
    under all other keys, the records of other members, are as they
    were. *)
Theorem blobs_writes_one_key rt host event st r st' :
  WebhookBlobs.handler rt host event st = (r, st') ->
  (forall k, is_Some (st !! k) -> is_Some (st' !! k)) /\
  (st' = st \/
   exists payload n,
     notified rt host event payload n /\
     plan_valid n = true /\ identity_present n = true /\
     Blobs.valid_key (Spec.identity_key rt (id_email n) (id_wallet n)) = true /\
     is_Some (st' !! Spec.identity_key rt (id_email n) (id_wallet n)) /\
     forall k, k <> Spec.identity_key rt (id_email n) (id_wallet n) -> st' !! k = st !! k).
Proof.
  intros H. destruct (blobs_inversion _ _ _ _ _ _ H) as [->|Hsaved]; [split; auto|].
  destruct Hsaved as (payload & n & exp & Hn & Hplan & Hid & Hexp & Hkey).
  rewrite (blobs_saved _ _ _ _ _ _ st Hn Hplan Hid Hexp Hkey) in H.
  apply (f_equal snd) in H. cbn [snd] in H. subst st'. split.
  - intros k Hk. apply lookup_insert_is_Some.
    destruct (decide (Spec.identity_key rt (id_email n) (id_wallet n) = k)); auto.
  - right. exists payload, n. repeat (split; [assumption|]).
    split; [rewrite lookup_insert_eq; eauto|].
    intros k Hk. now apply lookup_insert_ne.
Qed.

(** The record of Ada is written into a store that holds the record of
    a wallet; that record stays. *)
Lemma blobs_writes_one_key_witness :
  let st : gmap string value := {[ "wallet:0xabc" := VObject [("plan", VString "yearly")] ]} in
  exists r st',
    WebhookBlobs.handler Examples.rt (Examples.host_at Examples.jan31)
      (Examples.notify Examples.payload_monthly) st = (r, st') /\
    is_Some (st' !! "wallet:0xabc").
Proof.
  intros st.
  destruct (WebhookBlobs.handler Examples.rt (Examples.host_at Examples.jan31)
              (Examples.notify Examples.payload_monthly) st) as [r st'] eqn:Hrun.
  exists r, st'. split; [reflexivity|].
  apply (proj1 (blobs_writes_one_key _ _ _ _ _ _ Hrun)).
  exists (VObject [("plan", VString "yearly")]). reflexivity.
Defined.

(** X7: the last notification wins. When two accepted notifications
    derive the same key, the store after both is the store after the
    second alone: the record of the first is replaced as a whole, none
    of its fields is kept or merged. *)
Theorem later_notification_replaces_record
    rt host1 event1 payload1 n1 host2 event2 payload2 n2 st :
  notified rt host1 event1 payload1 n1 ->
  plan_valid n1 = true -> identity_present n1 = true -> clock_in_range host1 ->
  notified rt host2 event2 payload2 n2 ->
  plan_valid n2 = true -> identity_present n2 = true -> clock_in_range host2 ->
  Spec.identity_key rt (id_email n1) (id_wallet n1) =
    Spec.identity_key rt (id_email n2) (id_wallet n2) ->
  snd (WebhookBlobs.handler rt host2 event2 (snd (WebhookBlobs.handler rt host1 event1 st))) =
  snd (WebhookBlobs.handler rt host2 event2 st).
Proof.
  intros Hn1 Hp1 Hi1 Hc1 Hn2 Hp2 Hi2 Hc2 Hkey.
  rewrite (blobs_store_after _ _ _ _ _ st Hn1 Hp1 Hi1 Hc1).
  rewrite !(blobs_store_after _ _ _ _ _ _ Hn2 Hp2 Hi2 Hc2).
  cbv zeta. rewrite Hkey.
  destruct (Blobs.valid_key (Spec.identity_key rt (id_email n2) (id_wallet n2)));
    [apply insert_insert_eq|reflexivity].
Qed.

(** The notification of the example, delivered on 31 January and again
    on 28 February. *)
Lemma later_notification_replaces_record_witness :
  let h now := WebhookBlobs.handler Examples.rt (Examples.host_at now)
                 (Examples.notify Examples.payload_monthly) in
  notified Examples.rt (Examples.host_at Examples.jan31)
    (Examples.notify Examples.payload_monthly) Examples.payload_monthly
    Examples.identity_monthly /\
  snd (h Examples.feb28 (snd (h Examples.jan31 ∅))) = snd (h Examples.feb28 ∅).
Proof.
  intros h.
  assert (Hc : forall now, - JSDate.maxTime <= now <= JSDate.maxTime - 368 * JSDate.msPerDay ->
                           clock_in_range (Examples.host_at now)) by (intros now H; exact H).
  split; [exact (notified_monthly Examples.jan31)|].
  refine (later_notification_replaces_record _ _ _ _ _ _ _ _ _ ∅
            (notified_monthly Examples.jan31) eq_refl eq_refl (Hc _ _)
            (notified_monthly Examples.feb28) eq_refl eq_refl (Hc _ _) eq_refl);
    vm_compute; split; discriminate.
Defined.

(** X8: records of different identities do not disturb each other. When
    two accepted notifications derive different keys, both of which the
    client accepts, the store after both holds the record of the first
    under its key and the record of the second under its own. *)
Theorem records_of_other_identities_are_kept
    rt host1 event1 payload1 n1 host2 event2 payload2 n2 st :
  notified rt host1 event1 payload1 n1 ->
  plan_valid n1 = true -> identity_present n1 = true -> clock_in_range host1 ->
  notified rt host2 event2 payload2 n2 ->
  plan_valid n2 = true -> identity_present n2 = true -> clock_in_range host2 ->
  let key1 := Spec.identity_key rt (id_email n1) (id_wallet n1) in
  let key2 := Spec.identity_key rt (id_email n2) (id_wallet n2) in
  Blobs.valid_key key1 = true -> Blobs.valid_key key2 = true ->
  key1 <> key2 ->
  let st1 := snd (WebhookBlobs.handler rt host1 event1 st) in
  let st2 := snd (WebhookBlobs.handler rt host2 event2 st1) in
  exists rec1 rec2,
    st1 !! key1 = Some rec1 /\ st2 !! key1 = Some rec1 /\ st2 !! key2 = Some rec2 /\
    field rec1 "started_at" = VString (JSDate.ISOString (clock host1)) /\
    field rec2 "started_at" = VString (JSDate.ISOString (clock host2)).
Proof.
  intros Hn1 Hp1 Hi1 Hc1 Hn2 Hp2 Hi2 Hc2 key1 key2 Hv1 Hv2 Hkey st1 st2.
  unfold st2, st1.
  rewrite (blobs_store_after _ _ _ _ _ st Hn1 Hp1 Hi1 Hc1).
  rewrite (blobs_store_after _ _ _ _ _ _ Hn2 Hp2 Hi2 Hc2).
  cbv zeta. fold key1 key2. rewrite Hv1, Hv2. eexists _, _.
  split; [apply lookup_insert_eq|].
  split; [rewrite lookup_insert_ne by congruence; apply lookup_insert_eq|].
  split; [apply lookup_insert_eq|].
  split; apply member_fields.
Qed.

(** The record of Ada, kept under her email, and the record of a wallet. *)
Lemma records_of_other_identities_are_kept_witness :
  let st1 := snd (WebhookBlobs.handler Cases.rt (Examples.host_at Examples.jan31)
                    (Examples.notify Examples.payload_monthly) ∅) in
  let st2 := snd (WebhookBlobs.handler Cases.rt (Examples.host_at Examples.feb28)
                    (Examples.notify Examples.payload_yearly_wallet) st1) in
  Spec.identity_key Cases.rt "ada@example.com" "0xABC" <>
    Spec.identity_key Cases.rt EmptyString "0xABC" /\
  exists rec1 rec2,
    st1 !! "email:ada@example.com" = Some rec1 /\
    st2 !! "email:ada@example.com" = Some rec1 /\
    st2 !! "wallet:0xabc" = Some rec2.
Proof.
  intros st1 st2.
  assert (Hc : forall now, - JSDate.maxTime <= now <= JSDate.maxTime - 368 * JSDate.msPerDay ->
                           clock_in_range (Examples.host_at now)) by (intros now H; exact H).
  assert (Hk : Spec.identity_key Cases.rt "ada@example.com" "0xABC" <>
               Spec.identity_key Cases.rt EmptyString "0xABC") by discriminate.
  split; [exact Hk|].
  assert (H1 : - JSDate.maxTime <= Examples.jan31 <= JSDate.maxTime - 368 * JSDate.msPerDay)
    by (vm_compute; split; discriminate).
  assert (H2 : - JSDate.maxTime <= Examples.feb28 <= JSDate.maxTime - 368 * JSDate.msPerDay)
    by (vm_compute; split; discriminate).
  destruct (records_of_other_identities_are_kept _ _ _ _ _ _ _ _ _ ∅
              (notified_monthly_again Examples.jan31) eq_refl eq_refl (Hc _ H1)
              (notified_yearly_wallet Examples.feb28) eq_refl eq_refl (Hc _ H2)
              eq_refl eq_refl Hk)
    as (rec1 & rec2 & Ha & Hb & Hd & _).
  exists rec1, rec2. repeat split; assumption.
Defined.

(** X9: the key expression of line 171 of the Blobs revision and of
    line 30 of the query gives the same key for two identities exactly
    when they have the same non-empty email, or both have no email and
    their wallets are equal after [toLowerCase]. A key of an email is
    never the key of a wallet, whatever the email and the wallet are. *)
Theorem same_key_same_owner rt e1 w1 e2 w2 :
  (store_key rt e1 w1 = store_key rt e2 w2 <->
   (JSString.is_empty e1 = false /\ e1 = e2) \/
   (JSString.is_empty e1 = true /\ JSString.is_empty e2 = true /\
    JS.toLowerCase rt w1 = JS.toLowerCase rt w2)) /\
  (JSString.is_empty e1 = false -> JSString.is_empty e2 = true ->
   store_key rt e1 w1 <> store_key rt e2 w2) /\
  "email:" +:+ e1 <> "wallet:" +:+ JS.toLowerCase rt w2.
Proof.
  rewrite !identity_key_code.
  split; [apply identity_key_eq|]. split; [|apply email_key_not_wallet_key].
  intros H1 H2. unfold Spec.identity_key. rewrite H1, H2.
  apply email_key_not_wallet_key.
Qed.

(** * Further properties: what the record and the response hold *)

(** X10: an email that is absent, falsy or blank counts as no email. A
    notification of a valid plan with such an email and a wallet of
    ASCII characters that is not blank is stored under the key of the
    wallet, lower-cased and trimmed, when the client accepts that key;
    the record holds [null] as its email and the trimmed wallet in the
    case it was sent in. *)
Theorem blank_email_is_keyed_by_wallet rt host event payload n w st :
  notified rt host event payload n ->
  plan_valid n = true -> clock_in_range host ->
  (JS.truthy (field payload "email") = false \/
   exists s, field payload "email" = VString s /\ JSString.blank s = true) ->
  field payload "wallet" = VString w ->
  JSString.plain w = true -> JSString.blank w = false ->
  let key := "wallet:" +:+ JSString.toLowerCase (JSString.trim w) in
  Blobs.valid_key key = true ->
  exists resp rec,
    WebhookBlobs.handler rt host event st = (Normal resp, <[key := rec]> st) /\
    Response.statusCode resp = 200 /\
    body_field resp "key" = VString key /\
    field rec "email" = VNull /\
    field rec "wallet" = VString (JSString.trim w).
Proof.
  intros Hn Hplan Hclock Hemail Hwallet Hpw Hw key Hvalid.
  pose proof (ntf_fields _ _ _ _ _ Hn) as Hf.
  assert (He : id_email n = EmptyString).
  { destruct Hemail as [Hfalsy|(s & Hs & Hb)].
    - exact (normalize_email_falsy _ _ _ Hf Hfalsy).
    - rewrite (normalize_email_string _ _ _ Hf _ Hs).
      pose proof (is_empty_normalize_email rt s (blank_plain s Hb)) as Hempty.
      rewrite Hb in Hempty. now destruct (Spec.normalize_email rt s). }
  assert (Hwn : id_wallet n = JSString.trim w).
  { rewrite (normalize_wallet_string _ _ _ Hf _ Hwallet). now apply normalize_wallet_plain. }
  assert (Hne : JSString.is_empty (id_wallet n) = false) by (now rewrite Hwn, is_empty_trim).
  assert (Hid : identity_present n = true).
  { unfold identity_present. now rewrite Hne, andb_false_r. }
  pose proof (expires_in_range host (id_plan n) Hplan Hclock) as Hexp.
  assert (Hkey : Spec.identity_key rt (id_email n) (id_wallet n) = key).
  { unfold Spec.identity_key. rewrite He, Hwn. cbn [JSString.is_empty].
    now rewrite (toLowerCase_plain rt _ (plain_trim w Hpw)). }
  pose proof (blobs_saved _ _ _ _ _ _ st Hn Hplan Hid Hexp) as Hrun.
  rewrite Hkey in Hrun. specialize (Hrun Hvalid).
  eexists _, _. split; [exact Hrun|]. split; [reflexivity|]. split; [reflexivity|].
  match goal with
  | |- context [member_of ?p ?m ?a ?b] =>
      destruct (member_fields p m a b) as (Hfe & Hfw & _)
  end.
  cbv zeta in Hfe, Hfw. rewrite Hfe, Hfw, He, Hwn. unfold JS.str_or_null.
  rewrite <- Hwn, Hne. split; reflexivity.
Qed.

(** A yearly notification whose email is three spaces. *)
Lemma blank_email_is_keyed_by_wallet_witness :
  notified Cases.rt (Examples.host_at Examples.jan31) (Examples.notify Cases.payload_blank_email)
    Cases.payload_blank_email Cases.identity_blank_email /\
  field Cases.payload_blank_email "email" = VString "   " /\
  field Cases.payload_blank_email "wallet" = VString " 0xABC " /\
  exists resp rec,
    WebhookBlobs.handler Cases.rt (Examples.host_at Examples.jan31)
      (Examples.notify Cases.payload_blank_email) ∅ =
      (Normal resp, <["wallet:0xabc" := rec]> ∅) /\
    field rec "email" = VNull /\ field rec "wallet" = VString "0xABC".
Proof.
  assert (Hn := notified_blank_email Examples.jan31).
  assert (Hc : clock_in_range (Examples.host_at Examples.jan31))
    by (vm_compute; split; discriminate).
  split; [exact Hn|]. split; [reflexivity|]. split; [reflexivity|].
  destruct (blank_email_is_keyed_by_wallet _ _ _ _ _ " 0xABC " ∅ Hn eq_refl Hc
              (or_intror (ex_intro _ "   " (conj eq_refl eq_refl))) eq_refl eq_refl eq_refl
              eq_refl)
    as (resp & rec & Hrun & _ & _ & He & Hw).
  exists resp, rec. split; [exact Hrun|]. split; [exact He|exact Hw].
Defined.

(** X12: the response of the Blobs revision tells what the store holds.
    A response with [saved] true names the key under which the run has
    put a record, and its [expires_at] is the [expires_at] of that
    record; after every other response the store is as it was. *)
Theorem blobs_response_matches_store rt host event st resp st' :
  WebhookBlobs.handler rt host event st = (Normal resp, st') ->
  (body_field resp "saved" = VBool true ->
   exists key rec,
     body_field resp "key" = VString key /\
     st' = <[key := rec]> st /\
     st' !! key = Some rec /\
     field rec "expires_at" = body_field resp "expires_at") /\
  (body_field resp "saved" <> VBool true -> st' = st).
Proof.
  revert resp st'. open_handler. intros resp st' H. leaves H.
  all: pose proof (f_equal snd H) as Hst; apply (f_equal fst) in H;
    cbn [fst snd] in H, Hst; injection H as <-; subst st'.
  all: try (split; [discriminate|reflexivity]).
  all: split; [intros _|intros Hne; now destruct Hne].
  all: eexists _, _; split; [reflexivity|]; split; [reflexivity|];
    split; [apply lookup_insert_eq|].
  all: rewrite field_to_json; [reflexivity|discriminate].
Qed.

(** The run of the example: the response and the record agree on the key
    and on the expiry. *)
Lemma blobs_response_matches_store_witness :
  exists resp st',
    WebhookBlobs.handler Examples.rt (Examples.host_at Examples.jan31)
      (Examples.notify Examples.payload_monthly) ∅ = (Normal resp, st') /\
    body_field resp "saved" = VBool true /\
    exists rec,
      st' !! "email:ada@example.com" = Some rec /\
      field rec "expires_at" = VString "2023-03-03T12:00:00.000Z".
Proof.
  assert (Hrun :
    WebhookBlobs.handler Examples.rt (Examples.host_at Examples.jan31)
      (Examples.notify Examples.payload_monthly) ∅ =
    (Normal (json 200 (VObject [("ok", VBool true);
                                ("saved", VBool true);
                                ("key", VString "email:ada@example.com");
                                ("expires_at", VString "2023-03-03T12:00:00.000Z")])),
     <["email:ada@example.com" :=
         JS.to_json (member_of Examples.payload_monthly Examples.identity_monthly
                       "2023-01-31T12:00:00.000Z" "2023-03-03T12:00:00.000Z")]> ∅))
    by (vm_compute; reflexivity).
  eexists _, _. split; [exact Hrun|]. split; [reflexivity|].
  destruct (proj1 (blobs_response_matches_store _ _ _ _ _ _ Hrun) eq_refl)
    as (key & rec & Hkey & _ & Hlook & Hexp).
  injection Hkey as <-. exists rec. split; [exact Hlook|exact Hexp].
Defined.

(** * Further properties: the length of a membership *)

(** X13: the expiry of every record the Blobs revision stores is 28 to
    31 days after its start for the plan monthly and 365 or 366 days for
    the plan yearly, up to the difference of the offsets of the zone at
    the two ends, which is less than two days: a whole number of days
    when the offset is the same at the start and at the expiry, as on a
    host in UTC. *)
Theorem persisted_expiry_within_plan_span rt host event st r st' :
  WebhookBlobs.handler rt host event st = (r, st') ->
  st' = st \/
  exists key rec plan exp days,
    st' = <[key := rec]> st /\
    field rec "plan" = VString plan /\
    field rec "started_at" = VString (JSDate.ISOString (clock host)) /\
    field rec "expires_at" = VString (JSDate.ISOString exp) /\
    ((plan = "monthly" /\ 28 <= days <= 31) \/ (plan = "yearly" /\ 365 <= days <= 366)) /\
    Z.abs (exp - (clock host + days * JSDate.msPerDay)) < 2 * JSDate.msPerDay /\
    (steady (tza host) plan (clock host) -> exp = clock host + days * JSDate.msPerDay).
Proof.
  intros H. destruct (blobs_inversion _ _ _ _ _ _ H) as [Heq|Hsaved]; [left; exact Heq|].
  destruct Hsaved as (payload & n & exp & Hn & Hplan & Hid & Hexp & Hkey). right.
  rewrite (blobs_saved _ _ _ _ _ _ st Hn Hplan Hid Hexp Hkey) in H.
  apply (f_equal snd) in H. cbn [snd] in H.
  destruct (member_fields payload n (JSDate.ISOString (clock host)) (JSDate.ISOString exp))
    as (_ & _ & Hp & _ & _ & Hs & He).
  pose proof (compute_expires_value _ _ _ _ Hplan Hexp) as Hval.
  eexists _, _, (id_plan n), exp,
    (plan_span (id_plan n) (JSDate.LocalTime (tza host) (clock host))).
  split; [symmetry; exact H|]. split; [exact Hp|]. split; [exact Hs|]. split; [exact He|].
  split; [|split].
  - apply includes_plans in Hplan as [Hm | Hy]; [left|right]; rewrite ?Hm, ?Hy;
      (split; [reflexivity|]).
    + apply month_span_range.
    + apply year_span_range.
  - rewrite Hval, UTC_local_expiry.
    pose proof (tza_range host (clock host) true).
    pose proof (tza_range host (local_expiry (tza host) (id_plan n) (clock host)) false).
    unfold JSDate.msPerDay in *. lia.
  - intros Hsteady. rewrite Hval. now apply UTC_local_expiry_steady.
Qed.

(** The monthly membership that starts on 31 January 2023 lasts the 31
    days of January. *)
Lemma persisted_expiry_within_plan_span_witness :
  exists r st',
    WebhookBlobs.handler Examples.rt (Examples.host_at Examples.jan31)
      (Examples.notify Examples.payload_monthly) ∅ = (r, st') /\
    exists rec exp,
      st' !! "email:ada@example.com" = Some rec /\
      field rec "expires_at" = VString (JSDate.ISOString exp) /\
      Examples.jan31 + 26 * JSDate.msPerDay < exp < Examples.jan31 + 368 * JSDate.msPerDay.
Proof.
  assert (Hrun :
    WebhookBlobs.handler Examples.rt (Examples.host_at Examples.jan31)
      (Examples.notify Examples.payload_monthly) ∅ =
    (Normal (json 200 (VObject [("ok", VBool true);
                                ("saved", VBool true);
                                ("key", VString "email:ada@example.com");
                                ("expires_at", VString "2023-03-03T12:00:00.000Z")])),
     <["email:ada@example.com" :=
         JS.to_json (member_of Examples.payload_monthly Examples.identity_monthly
                       "2023-01-31T12:00:00.000Z" "2023-03-03T12:00:00.000Z")]> ∅))
    by (vm_compute; reflexivity).
  eexists _, _. split; [exact Hrun|].
  destruct (persisted_expiry_within_plan_span _ _ _ _ _ _ Hrun)
    as [Hsame|(key & rec & plan & exp & days & Hst & _ & _ & He & Hd & Hnear & _)].
  - exfalso. apply (f_equal (fun m => m !! "email:ada@example.com")) in Hsame.
    vm_compute in Hsame. discriminate.
  - assert (Hkey : key = "email:ada@example.com").
    { destruct (decide (key = "email:ada@example.com")) as [Hk|Hk]; [exact Hk|exfalso].
      apply (f_equal (fun m => m !! "email:ada@example.com")) in Hst.
      rewrite lookup_insert_eq, lookup_insert_ne in Hst by exact Hk. discriminate. }
    subst key. exists rec, exp. split; [|split; [exact He|]].
    + apply (f_equal (fun m => m !! "email:ada@example.com")) in Hst.
      rewrite !lookup_insert_eq in Hst. rewrite lookup_insert_eq. congruence.
    + change (clock (Examples.host_at Examples.jan31)) with Examples.jan31 in Hnear.
      unfold JSDate.msPerDay in *. destruct Hd as [[_ Hd]|[_ Hd]]; lia.
Defined.

(** X14: where the offset of the zone is the same at both ends of the
    two memberships, the expiry follows the start up to the length of a
    month. For two starts under the same valid plan, the two expiries
    differ by the difference of the starts up to 3 days (monthly) or 1
    day (yearly); hence a notification delivered again more than that
    later gets a later expiry. Within that distance the order can turn
    around. *)
Theorem expiry_follows_start tz plan t1 t2 e1 e2 :
  JS.includes ["monthly"; "yearly"] plan = true ->
  compute_expires tz plan (Some t1) = Some e1 ->
  compute_expires tz plan (Some t2) = Some e2 ->
  steady tz plan t1 -> steady tz plan t2 ->
  let slack := (if String.eqb plan "monthly" then 3 else 1) * JSDate.msPerDay in
  Z.abs ((e2 - e1) - (t2 - t1)) <= slack /\
  (t1 + slack < t2 -> e1 < e2) /\
  (t1 = t2 -> e1 = e2).
Proof.
  intros Hplan H1 H2 Hs1 Hs2 slack.
  rewrite (compute_expires_value _ _ _ _ Hplan H1), (UTC_local_expiry_steady _ _ _ Hs1).
  rewrite (compute_expires_value _ _ _ _ Hplan H2), (UTC_local_expiry_steady _ _ _ Hs2).
  set (s1 := plan_span plan (JSDate.LocalTime tz t1)).
  set (s2 := plan_span plan (JSDate.LocalTime tz t2)).
  assert (Hslack : Z.abs (s2 - s1) * JSDate.msPerDay <= slack /\ (t1 = t2 -> s1 = s2)).
  { split; [|intros ->; reflexivity].
    unfold slack, s1, s2, plan_span.
    destruct (String.eqb plan "monthly").
    - pose proof (month_span_range (JSDate.LocalTime tz t1)).
      pose proof (month_span_range (JSDate.LocalTime tz t2)).
      unfold JSDate.msPerDay. lia.
    - pose proof (year_span_range (JSDate.LocalTime tz t1)).
      pose proof (year_span_range (JSDate.LocalTime tz t2)).
      unfold JSDate.msPerDay. lia. }
  destruct Hslack as [Hslack Hsame].
  clearbody slack s1 s2. unfold JSDate.msPerDay in *.
  split; [lia|]. split; [lia|]. intros Ht. rewrite (Hsame Ht), Ht. reflexivity.
Qed.

(** In UTC, a start on 31 January at noon gives 3 March, a start a day
    later, on 1 February, gives 1 March: the later start, the earlier
    expiry. *)
Lemma expiry_follows_start_witness :
  let utc : Z -> bool -> Z := fun _ _ => 0 in
  compute_expires utc "monthly" (Some Examples.jan31) = Some Examples.mar03 /\
  compute_expires utc "monthly" (Some Cases.feb01) = Some Cases.mar01 /\
  Examples.jan31 < Cases.feb01 /\ Cases.mar01 < Examples.mar03 /\
  Z.abs ((Cases.mar01 - Examples.mar03) - (Cases.feb01 - Examples.jan31)) <=
    3 * JSDate.msPerDay.
Proof.
  intros utc.
  assert (H1 : compute_expires utc "monthly" (Some Examples.jan31) = Some Examples.mar03)
    by (vm_compute; reflexivity).
  assert (H2 : compute_expires utc "monthly" (Some Cases.feb01) = Some Cases.mar01)
    by (vm_compute; reflexivity).
  split; [exact H1|]. split; [exact H2|]. split; [reflexivity|]. split; [reflexivity|].
  exact (proj1 (expiry_follows_start utc "monthly" _ _ _ _ eq_refl H1 H2 eq_refl eq_refl)).
Defined.

(** * Further properties: the Supabase revision and the service *)

(** A notification whose fields do not normalise: the exception is
    caught before any request. *)
Lemma supabase_normalize_throws rt host event payload e c :
  authentic host event ->
  parse_body rt event = Normal payload ->
  JS.get_prop payload "event" = Normal (VString "payment_succeeded") ->
  normalize rt payload = Throw e ->
  WebhookSupabase.handler rt host event c =
    (Normal (Response.plain 500 "Internal Server Error"), c).
Proof.
  intros Ha Hparse Hev Hn.
  destruct (get_prop_string_object _ _ _ Hev) as [ps ->].
  unfold normalize in Hn. cbn [field] in Hn.
  pass_check Ha. rewrite Hparse. cbn [JS.get_prop] in *. injection Hev as Hev.
  cbv iota. rewrite Hev. cbv [JS.not_strict_eq_string]. rewrite String.eqb_refl. cbn [negb].
  destruct (JS.ToString rt (JS.or_else (JS.lookup_prop "plan" ps) (VString "")));
    [|reflexivity].
  destruct (JS.call_trim rt (JS.or_else (JS.lookup_prop "email" ps) (VString "")));
    [|reflexivity].
  destruct (JS.call_trim rt (JS.or_else (JS.lookup_prop "wallet" ps) (VString "")));
    [discriminate|reflexivity].
Qed.

(** X16: the Supabase revision refuses a notification before it calls
    the service. It converts the plan, the email, the wallet, the amount
    and the currency first, and a conversion that throws ([String] or
    [Number] of an object with a property [toString], [trim] or
    [toUpperCase] of a truthy value that is no string) ends the run in
    500 "Internal Server Error" before the plan is looked at. Otherwise
    an invalid plan is answered 400 "Invalid plan", a valid plan without
    email and wallet 400 "email or wallet required", a valid
    notification on a host without SUPABASE_URL or SUPABASE_SERVICE_ROLE
    500 "Supabase env not set", and one on a host whose variables
    [createClient] refuses 500 "Internal Server Error". In all these
    cases no request is sent. *)
Theorem supabase_refuses_without_request rt host event payload c :
  authentic host event ->
  parse_body rt event = Normal payload ->
  JS.get_prop payload "event" = Normal (VString "payment_succeeded") ->
  let amount := JS.ToNumber rt (JS.or_else (field payload "amount") (VNumber num_zero)) in
  let currency :=
    JS.call_toUpperCase rt (JS.or_else (field payload "currency") (VString "USDT")) in
  (((exists e, normalize rt payload = Throw e) \/
    (exists e, amount = Throw e) \/ (exists e, currency = Throw e)) ->
   WebhookSupabase.handler rt host event c =
     (Normal (Response.plain 500 "Internal Server Error"), c)) /\
  (forall n a cur,
     normalize rt payload = Normal n -> amount = Normal a -> currency = Normal cur ->
     (plan_valid n = false ->
      WebhookSupabase.handler rt host event c =
        (Normal (json 400 (VObject [("ok", VBool false); ("error", VString "Invalid plan")])),
         c)) /\
     (plan_valid n = true -> identity_present n = false ->
      WebhookSupabase.handler rt host event c =
        (Normal (json 400 (VObject [("ok", VBool false);
                                    ("error", VString "email or wallet required")])), c)) /\
     (plan_valid n = true -> identity_present n = true ->
      supabase_env_set host = false ->
      WebhookSupabase.handler rt host event c =
        (Normal (json 500 (VObject [("ok", VBool false);
                                    ("error", VString "Supabase env not set")])), c)) /\
     (forall e,
        plan_valid n = true -> identity_present n = true ->
        supabase_env_set host = true ->
        Supabase.createClient rt (SUPABASE_URL host) (SUPABASE_SERVICE_ROLE host) = Throw e ->
        WebhookSupabase.handler rt host event c =
          (Normal (Response.plain 500 "Internal Server Error"), c))).
Proof.
  intros Ha Hparse Hev amount currency. split.
  - intros Hthrow.
    destruct (normalize rt payload) as [n|e] eqn:Hn;
      [|exact (supabase_normalize_throws _ _ _ _ _ c Ha Hparse Hev Hn)].
    assert (Hnt : notified rt host event payload n) by (split; assumption).
    destruct amount as [a|e] eqn:Hamount;
      [|exact (supabase_amount_throws _ _ _ _ _ _ c Hnt Hamount)].
    destruct currency as [cur|e] eqn:Hcur;
      [|exact (supabase_currency_throws _ _ _ _ _ _ _ c Hnt Hamount Hcur)].
    destruct Hthrow as [[e H]|[[e H]|[e H]]]; discriminate.
  - intros n a cur Hn Hamount Hcur.
    assert (Hnt : notified rt host event payload n) by (split; assumption).
    assert (Hcv : converted rt payload a cur) by (split; assumption).
    split; [|split; [|split]].
    + intros Hplan. exact (supabase_invalid_plan _ _ _ _ _ _ _ c Hnt Hcv Hplan).
    + intros Hplan Hid. exact (supabase_missing_identity _ _ _ _ _ _ _ c Hnt Hcv Hplan Hid).
    + intros Hplan Hid Henv.
      exact (supabase_env_not_set _ _ _ _ _ _ _ c Hnt Hcv Hplan Hid Henv).
    + intros e Hplan Hid Henv Hcl.
      exact (supabase_client_refused _ _ _ _ _ _ _ _ c Hnt Hcv Hplan Hid Henv Hcl).
Qed.

(** The notification of the example on a host without SUPABASE_URL. *)
Lemma supabase_refuses_without_request_witness :
  authentic Cases.host_without_supabase (Examples.notify Examples.payload_monthly) /\
  parse_body Examples.rt (Examples.notify Examples.payload_monthly) =
    Normal Examples.payload_monthly /\
  WebhookSupabase.handler Examples.rt Cases.host_without_supabase
    (Examples.notify Examples.payload_monthly) Examples.supabase =
    (Normal (json 500 (VObject [("ok", VBool false);
                                ("error", VString "Supabase env not set")])),
     Examples.supabase).
Proof.
  assert (Ha : authentic Cases.host_without_supabase
                 (Examples.notify Examples.payload_monthly))
    by (split; vm_compute; reflexivity).
  split; [exact Ha|]. split; [reflexivity|].
  exact (proj1 (proj2 (proj2 (proj2 (supabase_refuses_without_request Examples.rt _ _
                                       Examples.payload_monthly Examples.supabase
                                       Ha eq_refl eq_refl)
                                Examples.identity_monthly num_zero "USDT"
                                eq_refl eq_refl eq_refl)))
           eq_refl eq_refl eq_refl).
Defined.

(** An amount that [Number] cannot convert: the notification is
    answered 500 and nothing is sent. *)
Example amount_with_toString_is_500 :
  WebhookSupabase.handler Cases.rt (Examples.host_at Examples.jan31)
    (Examples.notify Cases.payload_amount_object) Examples.supabase =
    (Normal (Response.plain 500 "Internal Server Error"), Examples.supabase).
Proof. vm_compute. reflexivity. Qed.

(** X17: when a valid notification reaches the service (its amount
    and currency convert, the client is configured) and [ensure_user]
    answers with an error, the Supabase revision answers
    500 "ensure_user failed"; the call of [ensure_user] is the only
    request of the run, no row is inserted. *)
Theorem ensure_user_error_stops_the_run rt host event payload n amount cur c :
  notified rt host event payload n -> converted rt payload amount cur ->
  plan_valid n = true -> identity_present n = true ->
  supabase_configured rt host ->
  JS.truthy (Supabase.error
               (Supabase.answer c (Supabase.Rpc "ensure_user" (ensure_user_args n)))) = true ->
  exists c',
    WebhookSupabase.handler rt host event c =
      (Normal (json 500 (VObject [("ok", VBool false); ("error", VString "ensure_user failed")])),
       c') /\
    Supabase.sent c' = Supabase.sent c ++ [Supabase.Rpc "ensure_user" (ensure_user_args n)].
Proof.
  intros Hn Hcv Hplan Hid Henv Hens.
  eexists. split; [exact (supabase_ensure_failed _ _ _ _ _ _ _ c Hn Hcv Hplan Hid Henv Hens)|].
  reflexivity.
Qed.

(** The notification of the example, sent to a service that refuses
    [ensure_user]. *)
Lemma ensure_user_error_stops_the_run_witness :
  exists c',
    WebhookSupabase.handler Examples.rt (Examples.host_at Examples.jan31)
      (Examples.notify Examples.payload_monthly) Cases.supabase_refusing =
      (Normal (json 500 (VObject [("ok", VBool false); ("error", VString "ensure_user failed")])),
       c') /\
    Supabase.sent c' =
      [Supabase.Rpc "ensure_user"
         (VObject [("_email", VString "ada@example.com"); ("_wallet", VString "0xABC")])].
Proof.
  exact (ensure_user_error_stops_the_run Examples.rt (Examples.host_at Examples.jan31) _ _ _
           _ _ Cases.supabase_refusing (notified_monthly Examples.jan31) converted_monthly
           eq_refl eq_refl (conj eq_refl eq_refl) eq_refl).
Defined.

(** X18: once the row of a valid notification is sent, the response is
    read off the reply of the service. An error in the reply gives 500
    "insert subscription failed"; a reply without error whose data is
    [null] gives 500 "Internal Server Error"; otherwise the answer is 200
    with [saved] true, the user [ensure_user] returned, and the [id] and
    the [expires_at] of the row as the service returned them, not as the
    handler computed them. In the three cases the two requests have
    been sent. *)
Theorem insert_reply_decides_response rt host event payload n amount cur c :
  notified rt host event payload n -> converted rt payload amount cur ->
  plan_valid n = true -> identity_present n = true -> clock_in_range host ->
  supabase_configured rt host ->
  let ensure := Supabase.answer c (Supabase.Rpc "ensure_user" (ensure_user_args n)) in
  JS.truthy (Supabase.error ensure) = false ->
  exists resp c' row,
    WebhookSupabase.handler rt host event c = (Normal resp, c') /\
    Supabase.sent c' =
      Supabase.sent c ++ [Supabase.Rpc "ensure_user" (ensure_user_args n);
                          Supabase.Insert "subscriptions" row "id, expires_at"] /\
    field row "user_id" = Supabase.data ensure /\
    let sub := Supabase.answer c (Supabase.Insert "subscriptions" row "id, expires_at") in
    (JS.truthy (Supabase.error sub) = true ->
     resp = json 500 (VObject [("ok", VBool false);
                               ("error", VString "insert subscription failed")])) /\
    (JS.truthy (Supabase.error sub) = false -> Supabase.data sub = VNull ->
     resp = Response.plain 500 "Internal Server Error") /\
    (forall ps, JS.truthy (Supabase.error sub) = false -> Supabase.data sub = VObject ps ->
     Response.statusCode resp = 200 /\
     body_field resp "saved" = VBool true /\
     body_field resp "user_id" = JS.to_json (Supabase.data ensure) /\
     body_field resp "subscription_id" = JS.to_json (JS.lookup_prop "id" ps) /\
     body_field resp "expires_at" = JS.to_json (JS.lookup_prop "expires_at" ps)).
Proof.
  intros Hn Hcv Hplan Hid Hclock Henv ensure Hens.
  pose proof (expires_in_range host (id_plan n) Hplan Hclock) as Hexp.
  pose proof (supabase_row _ _ _ _ _ _ _ _ c Hn Hcv Hplan Hid Henv Hens Hexp) as Hrun.
  cbv zeta in Hrun. fold ensure in Hrun.
  eexists _, _, _. split; [exact Hrun|].
  split; [cbn [Supabase.sent]; now rewrite <- app_assoc|].
  split; [reflexivity|]. cbv zeta.
  match goal with
  | |- context [JS.truthy (Supabase.error ?r)] => generalize r
  end.
  intros [data error]. cbn [Supabase.data Supabase.error].
  split; [intros ->; reflexivity|]. split; [intros -> ->; reflexivity|].
  intros ps -> ->. split; [reflexivity|]. split; [reflexivity|].
  unfold body_field, json. cbn [Response.body field].
  rewrite !field_to_json_cons, !field_to_json_nil.
  cbn [String.eqb Ascii.eqb Bool.eqb]. rewrite !to_json_or_undefined.
  repeat split.
Qed.

(** The notification of the example, sent to a service that returns the
    row it kept: the response carries the expiry in the text of the
    service. *)
Lemma insert_reply_decides_response_witness :
  exists resp c',
    WebhookSupabase.handler Examples.rt (Examples.host_at Examples.jan31)
      (Examples.notify Examples.payload_monthly) Cases.supabase_keeping_row =
      (Normal resp, c') /\
    Response.statusCode resp = 200 /\
    body_field resp "user_id" = VString "user-7" /\
    body_field resp "subscription_id" = VString "sub-1" /\
    body_field resp "expires_at" = VString "2023-03-03T12:00:00+00:00".
Proof.
  assert (Hc : clock_in_range (Examples.host_at Examples.jan31))
    by (vm_compute; split; discriminate).
  destruct (insert_reply_decides_response Examples.rt (Examples.host_at Examples.jan31) _ _ _
              _ _ Cases.supabase_keeping_row (notified_monthly Examples.jan31)
              converted_monthly eq_refl eq_refl Hc (conj eq_refl eq_refl) eq_refl)
    as (resp & c' & row & Hrun & _ & _ & _ & _ & Hobj).
  destruct (Hobj _ eq_refl eq_refl) as (Hs & _ & Hu & Hi & He).
  exists resp, c'. split; [exact Hrun|]. split; [exact Hs|].
  split; [exact Hu|]. split; [exact Hi|exact He].
Defined.

(** X19: the requests of a run of the Supabase revision, whatever the
    request and the replies. A run sends nothing, or the one call of
    [ensure_user], or that call followed by one insert into
    "subscriptions"; the arguments of [ensure_user] are the email and
    the wallet of an authentic and valid notification as the handler
    normalises them. A row is inserted only after [ensure_user] answered
    without error, it holds the user that call returned, and its plan is
    "monthly" or "yearly". The run does not change what the service
    answers. *)
Theorem supabase_requests_in_order rt host event c r c' :
  WebhookSupabase.handler rt host event c = (r, c') ->
  Supabase.answer c' = Supabase.answer c /\
  (Supabase.sent c' = Supabase.sent c \/
   exists payload n,
     notified rt host event payload n /\
     plan_valid n = true /\ identity_present n = true /\
     let call := Supabase.Rpc "ensure_user" (ensure_user_args n) in
     (Supabase.sent c' = Supabase.sent c ++ [call] \/
      exists row,
        Supabase.sent c' =
          Supabase.sent c ++ [call; Supabase.Insert "subscriptions" row "id, expires_at"] /\
        JS.truthy (Supabase.error (Supabase.answer c call)) = false /\
        field row "user_id" = Supabase.data (Supabase.answer c call) /\
        field row "plan" = VString (id_plan n) /\
        field row "status" = VString "active" /\
        field row "started_at" = VString (JSDate.ISOString (clock host)))).
Proof.
  intros H. destruct (supabase_inversion _ _ _ _ _ _ H) as [->|Hvalid]; [split; auto|].
  destruct Hvalid as (payload & n & amount & cur & Hn & Hcv & Hplan & Hid & Henv).
  destruct (JS.truthy (Supabase.error
              (Supabase.answer c (Supabase.Rpc "ensure_user" (ensure_user_args n))))) eqn:Hens.
  - rewrite (supabase_ensure_failed _ _ _ _ _ _ _ c Hn Hcv Hplan Hid Henv Hens) in H.
    apply (f_equal snd) in H. cbn [snd] in H. subst c'.
    split; [reflexivity|]. right. exists payload, n. repeat (split; [assumption|]).
    left. reflexivity.
  - destruct (compute_expires (tza host) (id_plan n) (Some (clock host))) as [exp|] eqn:Hexp.
    + rewrite (supabase_row _ _ _ _ _ _ _ _ c Hn Hcv Hplan Hid Henv Hens Hexp) in H.
      apply (f_equal snd) in H. cbn [snd] in H. subst c'.
      split; [reflexivity|]. right. exists payload, n. repeat (split; [assumption|]).
      right. eexists. split; [cbn [Supabase.sent]; now rewrite <- app_assoc|].
      split; [exact Hens|]. repeat split.
    + rewrite (supabase_no_expiry _ _ _ _ _ _ _ c Hn Hcv Hplan Hid Henv Hens Hexp) in H.
      apply (f_equal snd) in H. cbn [snd] in H. subst c'.
      split; [reflexivity|]. right. exists payload, n. repeat (split; [assumption|]).
      left. reflexivity.
Qed.

(** The run of the example against a service that refuses the row: both
    requests are sent. *)
Lemma supabase_requests_in_order_witness :
  exists r c',
    WebhookSupabase.handler Examples.rt (Examples.host_at Examples.jan31)
      (Examples.notify Examples.payload_monthly) Cases.supabase_rejecting_row = (r, c') /\
    Supabase.answer c' = Supabase.answer Cases.supabase_rejecting_row /\
    length (Supabase.sent c') = 2%nat.
Proof.
  destruct (WebhookSupabase.handler Examples.rt (Examples.host_at Examples.jan31)
              (Examples.notify Examples.payload_monthly) Cases.supabase_rejecting_row)
    as [r c'] eqn:Hrun.
  exists r, c'. split; [reflexivity|].
  split; [exact (proj1 (supabase_requests_in_order _ _ _ _ _ _ Hrun))|].
  vm_compute in Hrun. injection Hrun as _ <-. reflexivity.
Defined.

(** * Further properties: the placeholder revision *)

(** X20: the placeholder revision validates nothing. Every authentic
    notification of a succeeded payment is answered 200 with [received]
    true, and the plan, the email and the wallet are given back as they
    were sent, [null] when absent or falsy: neither the plan nor the
    presence of an identity is checked, and nothing is normalised. *)
Theorem placeholder_acknowledges_every_payment rt host event payload u :
  authentic host event ->
  parse_body rt event = Normal payload ->
  JS.get_prop payload "event" = Normal (VString "payment_succeeded") ->
  exists resp,
    WebhookPlaceholder.handler rt host event u = (Normal resp, u) /\
    Response.statusCode resp = 200 /\
    body_field resp "ok" = VBool true /\
    body_field resp "received" = VBool true /\
    body_field resp "plan" = JS.to_json (JS.or_else (field payload "plan") VNull) /\
    body_field resp "email" = JS.to_json (JS.or_else (field payload "email") VNull) /\
    body_field resp "wallet" = JS.to_json (JS.or_else (field payload "wallet") VNull).
Proof.
  intros Ha Hparse Hev.
  destruct (get_prop_string_object _ _ _ Hev) as [ps ->].
  eexists. split.
  - pass_check Ha. rewrite Hparse. cbn [JS.get_prop] in *. injection Hev as Hev.
    cbv iota. rewrite Hev. cbv [JS.not_strict_eq_string]. rewrite String.eqb_refl.
    cbn [negb]. reflexivity.
  - split; [reflexivity|]. unfold body_field, json. cbn [Response.body field].
    rewrite !field_to_json_cons, !field_to_json_nil.
    cbn [String.eqb Ascii.eqb Bool.eqb]. rewrite !to_json_or_undefined.
    repeat split.
Qed.

(** The notification that the Blobs revision answers with 500: the plan
    "weekly" and the email [true]. *)
Lemma placeholder_acknowledges_every_payment_witness :
  authentic (Examples.host_at 0) (Examples.notify Examples.payload_weekly_email_true) /\
  exists resp,
    WebhookPlaceholder.handler Examples.rt (Examples.host_at 0)
      (Examples.notify Examples.payload_weekly_email_true) tt = (Normal resp, tt) /\
    Response.statusCode resp = 200 /\
    body_field resp "plan" = VString "weekly" /\
    body_field resp "email" = VBool true /\
    body_field resp "wallet" = VNull.
Proof.
  assert (Ha : authentic (Examples.host_at 0)
                 (Examples.notify Examples.payload_weekly_email_true))
    by (split; vm_compute; reflexivity).
  split; [exact Ha|].
  destruct (placeholder_acknowledges_every_payment Examples.rt _ _
              Examples.payload_weekly_email_true tt Ha eq_refl eq_refl)
    as (resp & Hrun & Hs & _ & _ & Hp & He & Hw).
  exists resp. split; [exact Hrun|]. split; [exact Hs|].
  split; [exact Hp|]. split; [exact He|exact Hw].
Defined.

(** * Further properties: no effect without the secret *)

(** X21: a request that is no POST carrying the configured secret in one
    of the two headers has no effect: the Blobs revision leaves the
    store as it was and the Supabase revision sends no request, whatever
    the body says. *)
Theorem no_effect_without_secret rt host event :
  ~ authentic host event ->
  (forall st, snd (WebhookBlobs.handler rt host event st) = st) /\
  (forall c, snd (WebhookSupabase.handler rt host event c) = c).
Proof.
  intros Hna. split.
  - intros st. destruct (WebhookBlobs.handler rt host event st) as [r st'] eqn:H.
    destruct (blobs_inversion _ _ _ _ _ _ H) as [Heq|(payload & n & exp & Hn & _)];
      [exact Heq|].
    destruct Hna. exact (ntf_authentic _ _ _ _ _ Hn).
  - intros c. destruct (WebhookSupabase.handler rt host event c) as [r c'] eqn:H.
    destruct (supabase_inversion _ _ _ _ _ _ H) as [Heq|(payload & n & amount & cur & Hn & _)];
      [exact Heq|].
    destruct Hna. exact (ntf_authentic _ _ _ _ _ Hn).
Qed.

(** The notification of the example under a header with another secret. *)
Lemma no_effect_without_secret_witness :
  let event :=
    {| Event.httpMethod := "POST";
       Event.headers := {[ "x-helio-signature" := "guess" ]};
       Event.body := Some (Examples.text_of Examples.payload_monthly);
       Event.rawQuery := None;
       Event.queryStringParameters := None |} in
  ~ authentic (Examples.host_at Examples.jan31) event /\
  snd (WebhookBlobs.handler Examples.rt (Examples.host_at Examples.jan31) event ∅) = ∅ /\
  Supabase.sent (snd (WebhookSupabase.handler Examples.rt (Examples.host_at Examples.jan31)
                        event Examples.supabase)) = [].
Proof.
  intros event.
  assert (Hna : ~ authentic (Examples.host_at Examples.jan31) event).
  { intros [_ _ Hsig]. vm_compute in Hsig. discriminate. }
  split; [exact Hna|].
  destruct (no_effect_without_secret Examples.rt _ _ Hna) as [Hb Hs].
  split; [exact (Hb ∅)|]. now rewrite (Hs Examples.supabase).
Defined.
